(** * heat: conjugate gradients, Lanczos and the partial HDF5 dataset

    A shallow embedding of [heat/core/linalg/solver.py] ([cg], [lanczos]) and
    of the constructor of [heat/utils/data/partial_dataset.py]
    ([PartialH5Dataset.__init__]).

    Conventions of the embedding.
    - Python values are [pyobj]; a [DNDarray] is its global shape, its split
      axis, its dtype ([float32] or [float64]; arrays of other element types
      are not represented) and its global data in row-major order.  The
      operations of the array library are described by their global
      content.  Where the solvers work on local tensors (the torch calls of
      the re-orthogonalization), the local tile is that of the process of
      rank 0 among [comm_size] processes; the device is not represented.
    - Scalar arithmetic is an interface ([Scalar]): the arithmetic of the
      elements of the matrix at hand, and the rounding [s_round] of a value
      stored into an array of another dtype.  The instance [float_scalar] is
      IEEE binary32, the arithmetic of [float32] arrays, which is the default
      dtype of the library; [float64_scalar] is IEEE binary64.
    - Exceptions, [print], the random generator and in-place changes of
      objects held by the caller are effects of the monad [M] over [world]. *)

Set Warnings "-inexact-float,-register-all".

From Stdlib Require Import ZArith Lia List Floats.
From stdpp Require Import base list strings pretty gmap.

Local Open Scope string_scope.
Local Open Scope nat_scope.
Local Open Scope list_scope.

(** ** Scalars *)

(** The element types of the arrays, and the common type of two of them. *)
Inductive dtype := Float32 | Float64.

#[export] Instance dtype_eq_dec : EqDecision dtype.
Proof. solve_decision. Defined.

Definition promote (a b : dtype) : dtype :=
  match a, b with
  | Float32, Float32 => Float32
  | _, _ => Float64
  end.

(** The element arithmetic the solvers use.  [s_tol] is the literal [1e-10]
    of the source, [s_lt] the comparison [<] on element values, [s_round d x]
    the element of dtype [d] that storing [x] into an array of dtype [d]
    gives. *)
Class Scalar (R : Type) := {
  s_zero : R;
  s_one : R;
  s_add : R → R → R;
  s_sub : R → R → R;
  s_mul : R → R → R;
  s_div : R → R → R;
  s_sqrt : R → R;
  s_abs : R → R;
  s_lt : R → R → bool;
  s_tol : R;
  s_round : dtype → R → R
}.

(** What the distributed runtime decides and the solvers do not: the values
    [ht.random.rand] draws (by call number and position), the split axis the
    library gives to the result of an operation on two arrays, the dtype of
    an array made without a [dtype] argument, and the number of processes
    of the communicator. *)
Class Runtime (R : Type) := {
  rand_at : nat → nat → R;
  result_split : option nat → option nat → option nat;
  default_float : dtype;
  comm_size : nat
}.

(** ** Arrays, objects, exceptions *)

Record DNDarray (R : Type) := mkDND {
  shape : list nat;
  split : option nat;
  dtype_of : dtype;
  larray : list R
}.
Arguments mkDND {R} _ _ _ _.
Arguments shape {R} _.
Arguments split {R} _.
Arguments dtype_of {R} _.
Arguments larray {R} _.

Definition ndim {R} (a : DNDarray R) : nat := length (shape a).

(** Number of elements of a shape. *)
Definition numel (sh : list nat) : nat :=
  match sh with
  | [] => 1
  | d :: ds => fold_left Nat.mul ds d
  end.

(** [len(a)] of an array with at least one dimension. *)
Definition len {R} (a : DNDarray R) : nat := hd 0 (shape a).

Inductive pyobj (R : Type) :=
| PyNone
| PyInt (z : Z)
| PyFloat (x : R)
| PyStr (s : string)
| PyDND (d : DNDarray R).
Arguments PyNone {R}.
Arguments PyInt {R} _.
Arguments PyFloat {R} _.
Arguments PyStr {R} _.
Arguments PyDND {R} _.

(** [isinstance(o, DNDarray)] *)
Definition isinstance_DNDarray {R} (o : pyobj R) : bool :=
  match o with PyDND _ => true | _ => false end.

(** [isinstance(o, (int, float))] *)
Definition isinstance_int_float {R} (o : pyobj R) : bool :=
  match o with PyInt _ | PyFloat _ => true | _ => false end.

(** [str(type(o))], as [format] prints it. *)
Definition type_repr {R} (o : pyobj R) : string :=
  match o with
  | PyNone => "<class 'NoneType'>"
  | PyInt _ => "<class 'int'>"
  | PyFloat _ => "<class 'float'>"
  | PyStr _ => "<class 'str'>"
  | PyDND _ => "<class 'heat.core.dndarray.DNDarray'>"
  end.

(** Python exceptions by class, with their message.  [Unmodelled] marks a
    call into the array library with operands outside the part of it that
    is described here. *)
Inductive exn :=
| TypeError (msg : string)
| RuntimeError (msg : string)
| ValueError (msg : string)
| IndexError (msg : string)
| AttributeError (msg : string)
| NotImplementedError (msg : string)
| KeyError (msg : string)
| ZeroDivisionError (msg : string)
| OSError (msg : string)
| Unmodelled (what : string).

(** ** The world and the monad *)

Definition loc := nat.

(** [heap]: the objects the caller holds and passes by reference ([out],
    [v0], [V_out], [T_out]); [rng]: number of draws made from the random
    generator; [stdout]: lines printed; [loop_iters]: number of solver loop
    bodies entered (a counter that the code does not have, kept to state how
    far a call went). *)
Record world (R : Type) := mkWorld {
  heap : loc → pyobj R;
  rng : nat;
  stdout : list string;
  loop_iters : nat
}.
Arguments mkWorld {R} _ _ _ _.
Arguments heap {R} _.
Arguments rng {R} _.
Arguments stdout {R} _.
Arguments loop_iters {R} _.

Definition M (R A : Type) : Type := world R → world R * (exn + A).

Definition ret {R A} (a : A) : M R A := λ w, (w, inr a).

Definition raise {R A} (e : exn) : M R A := λ w, (w, inl e).

Definition bind {R A B} (c : M R A) (k : A → M R B) : M R B :=
  λ w, match c w with
       | (w', inr a) => k a w'
       | (w', inl e) => (w', inl e)
       end.

Notation "x <- c ;; k" := (bind c (λ x, k))
  (at level 100, c at next level, right associativity).
Notation "c ;;; k" := (bind c (λ _, k))
  (at level 100, right associativity).

(** [print(s)] *)
Definition py_print {R} (s : string) : M R unit :=
  λ w, (mkWorld (heap w) (rng w) (stdout w ++ [s]) (loop_iters w), inr tt).

(** Entering a loop body. *)
Definition tick {R} : M R unit :=
  λ w, (mkWorld (heap w) (rng w) (stdout w) (S (loop_iters w)), inr tt).

(** Reading and replacing an object of the caller. *)
Definition deref {R} (l : loc) : M R (pyobj R) := λ w, (w, inr (heap w l)).

Definition store {R} (l : loc) (o : pyobj R) : M R unit :=
  λ w, (mkWorld (λ l', if Nat.eqb l' l then o else heap w l') (rng w)
                (stdout w) (loop_iters w), inr tt).

(** An optional argument: omitted, or a reference to an object of the
    caller. *)
Definition arg_value {R} (a : option loc) : M R (pyobj R) :=
  match a with
  | None => ret PyNone
  | Some l => deref l
  end.

(** [a is None] *)
Definition arg_is_none {R} (a : option loc) : M R bool :=
  o <- arg_value a ;;
  ret (match o with PyNone => true | _ => false end).

(** ** Effects on the caller's objects *)

(** A computation that leaves every object of the caller as it is, and one
    that may only replace the object at [l0]. *)
Definition heap_stable {R A} (c : M R A) : Prop :=
  ∀ (w : world R) (l : loc), heap (fst (c w)) l = heap w l.

Definition heap_stable_except {R A} (l0 : loc) (c : M R A) : Prop :=
  ∀ (w : world R) (l : loc), l ≠ l0 → heap (fst (c w)) l = heap w l.

(** A computation that, whatever the world, does not end with the
    exception [e]. *)
Definition never_raises {R A} (e : exn) (c : M R A) : Prop :=
  ∀ (w : world R), snd (c w) ≠ inl e.

(** ** The array library

    [heat]'s array operations are not part of the sources at hand; the
    solvers call them.  Each is given here with the dense, global meaning the
    specification states for it, on operands of rank at most two.  The
    result of an operation on two arrays has their common dtype (section 3
    of the specification). *)

Section ArrayLibrary.
Context {R : Type} {SR : Scalar R} {RT : Runtime R}.

(** The value [x] of an array of dtype [from], stored into an array of
    dtype [to]. *)
Definition convert (from to : dtype) (x : R) : R :=
  if decide (from = to) then x else s_round to x.

(** Sum of a list, left to right from zero. *)
Definition sum_list (l : list R) : R := fold_left s_add l s_zero.

(** Entry [(i, j)] of the product of a [_ × k] by a [k × c] matrix. *)
Definition mm_entry (k c : nat) (da db : list R) (i j : nat) : R :=
  sum_list (map (λ l, s_mul (nth (i * k + l) da s_zero) (nth (l * c + j) db s_zero))
                (seq 0 k)).

Definition mm_data (r k c : nat) (da db : list R) : list R :=
  map (λ idx, mm_entry k c da db (idx / c) (idx mod c)) (seq 0 (r * c)).

(** Matrix by vector, dot product and the vector operations, on data. *)
Definition mv (r k : nat) (A v : list R) : list R :=
  map (λ i, mm_entry k 1 A v i 0) (seq 0 r).

Definition dotp (n : nat) (u v : list R) : R := mm_entry n 1 u v 0 0.

Definition vmap2 (f : R → R → R) (n : nat) (u v : list R) : list R :=
  map (λ i, f (nth i u s_zero) (nth i v s_zero)) (seq 0 n).

Definition vscale (f : R → R → R) (n : nat) (a : R) (v : list R) : list R :=
  map (λ i, f a (nth i v s_zero)) (seq 0 n).

Definition vscale_r (f : R → R → R) (n : nat) (v : list R) (a : R) : list R :=
  map (λ i, f (nth i v s_zero) a) (seq 0 n).

(** A 1-D left operand is a row vector, a 1-D right operand a column
    vector. *)
Definition mat_dims_l (sh : list nat) : option (nat * nat) :=
  match sh with
  | [n] => Some (1, n)
  | [r; c] => Some (r, c)
  | _ => None
  end.

Definition mat_dims_r (sh : list nat) : option (nat * nat) :=
  match sh with
  | [n] => Some (n, 1)
  | [r; c] => Some (r, c)
  | _ => None
  end.

Definition matmul_shape (sa sb : list nat) (r c : nat) : list nat :=
  match sa, sb with
  | [_], [_] => []
  | [_], _ => [c]
  | _, [_] => [r]
  | _, _ => [r; c]
  end.

(** The split axis of a result of shape [sh]: none for a 0-D result, the
    runtime's choice otherwise. *)
Definition res_split (sh : list nat) (a b : DNDarray R) : option nat :=
  match sh with
  | [] => None
  | _ => result_split (split a) (split b)
  end.

(** Modelled from the spec: [ht.matmul] (heat/core/linalg/basics.py is not
    among the sources).  Operands of rank 1 or 2; the inner dimensions of
    two matrices must agree; what a vector operand of another length gives
    is not described; other ranks are not supported. *)
Definition matmul (a b : DNDarray R) : M R (DNDarray R) :=
  match mat_dims_l (shape a), mat_dims_r (shape b) with
  | Some (r, k), Some (k', c) =>
      if Nat.eqb k k' then
        let sh := matmul_shape (shape a) (shape b) r c in
        ret (mkDND sh (res_split sh a b) (promote (dtype_of a) (dtype_of b))
               (mm_data r k c (larray a) (larray b)))
      else
        match shape a, shape b with
        | [_; _], [_; _] => raise (ValueError "matmul: inner dimensions do not match")
        | _, _ => raise (Unmodelled "matmul: a vector operand of another length")
        end
  | _, _ => raise (NotImplementedError "matmul: operands must be of rank 1 or 2")
  end.

(** Modelled from the spec: the element-wise operators [+ - * /] of
    [DNDarray].  Equal shapes combine position by position; an operand with a
    single element is broadcast over the other.  Two vectors of different
    lengths, none of length one, cannot be broadcast; broadcasting between
    other shapes is not described. *)
Definition binop (f : R → R → R) (a b : DNDarray R) : M R (DNDarray R) :=
  if decide (shape a = shape b) then
    ret (mkDND (shape a) (res_split (shape a) a b) (promote (dtype_of a) (dtype_of b))
          (map (λ i, f (nth i (larray a) s_zero) (nth i (larray b) s_zero))
               (seq 0 (numel (shape a)))))
  else if Nat.eqb (numel (shape a)) 1 then
    let sh := replicate (ndim a - ndim b) 1 ++ shape b in
    ret (mkDND sh (res_split sh a b) (promote (dtype_of a) (dtype_of b))
          (map (λ i, f (nth 0 (larray a) s_zero) (nth i (larray b) s_zero))
               (seq 0 (numel (shape b)))))
  else if Nat.eqb (numel (shape b)) 1 then
    let sh := replicate (ndim b - ndim a) 1 ++ shape a in
    ret (mkDND sh (res_split sh a b) (promote (dtype_of a) (dtype_of b))
          (map (λ i, f (nth i (larray a) s_zero) (nth 0 (larray b) s_zero))
               (seq 0 (numel (shape a)))))
  else if (ndim a <=? 1) && (ndim b <=? 1) then
    raise (ValueError "operands could not be broadcast")
  else raise (Unmodelled "broadcast of operands of rank two or more").

Definition add := binop s_add.
Definition sub := binop s_sub.
Definition mul := binop s_mul.
Definition div := binop s_div.

(** Modelled from the spec: [ht.sqrt] and [abs], element by element. *)
Definition sqrt (a : DNDarray R) : M R (DNDarray R) :=
  ret (mkDND (shape a) (split a) (dtype_of a) (map s_sqrt (larray a))).

Definition abs (a : DNDarray R) : M R (DNDarray R) :=
  ret (mkDND (shape a) (split a) (dtype_of a) (map s_abs (larray a))).

(** Modelled from the spec: [DNDarray.item()], the value of an array with
    exactly one element. *)
Definition item (a : DNDarray R) : M R R :=
  match larray a with
  | [x] => ret x
  | _ => raise (ValueError "only one-element arrays can be converted to Python scalars")
  end.

(** Modelled from the spec: the constructors [ht.zeros], [ht.ones] and
    [ht.random.rand].  A shape is a tuple of non-negative integers; a split
    axis is [None] or an axis of the array; the dtype is the [dtype]
    argument, and [default_float] when the call has none. *)
Definition dim_of (o : pyobj R) : M R nat :=
  match o with
  | PyInt z =>
      if (z <? 0)%Z then raise (ValueError "negative dimensions are not allowed")
      else ret (Z.to_nat z)
  | _ => raise (TypeError "expected sequence object with length >= 0 or a single integer")
  end.

Fixpoint sanitize_shape (dims : list (pyobj R)) : M R (list nat) :=
  match dims with
  | [] => ret []
  | d :: ds =>
      k <- dim_of d ;;
      ks <- sanitize_shape ds ;;
      ret (k :: ks)
  end.

Definition sanitize_axis (sh : list nat) (axis : option nat) : M R (option nat) :=
  match axis with
  | None => ret None
  | Some k =>
      if k <? length sh then ret (Some k)
      else raise (ValueError "axis is out of bounds for the shape")
  end.

Definition full (v : R) (dims : list (pyobj R)) (sp : option nat) (dt : dtype)
  : M R (DNDarray R) :=
  sh <- sanitize_shape dims ;;
  sp <- sanitize_axis sh sp ;;
  ret (mkDND sh sp dt (replicate (numel sh) v)).

(** Modelled from the spec: [ht.zeros(shape)] and
    [ht.ones(shape, split, dtype)]. *)
Definition zeros (dims : list (pyobj R)) : M R (DNDarray R) :=
  full s_zero dims None default_float.

Definition ones (dims : list (pyobj R)) (sp : option nat) (dt : dtype)
  : M R (DNDarray R) :=
  full s_one dims sp dt.

(** Modelled from the spec: [ht.random.rand(n, split, dtype)], one call of
    the generator: a vector of [n] fresh values. *)
Definition rand (n : nat) (sp : option nat) (dt : dtype) : M R (DNDarray R) :=
  sp <- sanitize_axis [n] sp ;;
  λ w, (mkWorld (heap w) (S (rng w)) (stdout w) (loop_iters w),
        inr (mkDND [n] sp dt (map (rand_at (rng w)) (seq 0 n)))).

(** Modelled from the spec: [ht.norm], the Euclidean norm of all elements,
    and [ht.dot] of two vectors. *)
Definition norm (a : DNDarray R) : M R (DNDarray R) :=
  ret (mkDND [] None (dtype_of a)
         [s_sqrt (dotp (numel (shape a)) (larray a) (larray a))]).

(** Modelled from the spec: [ht.dot] of two vectors of one length.  The
    product of two vectors is left to [torch.dot], which takes two tensors
    of one dtype and does not promote. *)
Definition dot (a b : DNDarray R) : M R (DNDarray R) :=
  match shape a, shape b with
  | [n], [n'] =>
      if negb (bool_decide (dtype_of a = dtype_of b)) then
        raise (RuntimeError "dot : expected both vectors to have same dtype")
      else if Nat.eqb n n' then
        ret (mkDND [] None (dtype_of a) [dotp n (larray a) (larray b)])
      else raise (RuntimeError "dot: inconsistent tensor size")
  | _, _ => raise (Unmodelled "dot of operands that are not both vectors")
  end.

(** Modelled from the spec: [T[i, j] = val] on a matrix, with [val] an array
    of one element; the value is stored in the dtype of [T]. *)
Definition setitem2 (T : DNDarray R) (i j : nat) (val : DNDarray R) : M R (DNDarray R) :=
  match shape T with
  | [r; c] =>
      if (i <? r) && (j <? c) then
        v <- item val ;;
        ret (mkDND (shape T) (split T) (dtype_of T)
               (<[i * c + j := convert (dtype_of val) (dtype_of T) v]> (larray T)))
      else raise (IndexError "index is out of bounds")
  | _ => raise (IndexError "two indices given for an array that is not 2-D")
  end.

(** Column [j] of the data of an [r × c] matrix, and its replacement. *)
Definition col_data (r c j : nat) (d : list R) : list R :=
  map (λ k, nth (k * c + j) d s_zero) (seq 0 r).

Definition set_col (r c j : nat) (vals d : list R) : list R :=
  map (λ idx, if Nat.eqb (idx mod c) j then nth (idx / c) vals s_zero
              else nth idx d s_zero)
      (seq 0 (r * c)).

(** Modelled from the spec: [V[:, j] = val] on a matrix, with [val] a
    vector of as many entries as [V] has rows, or a single element; the
    values are stored in the dtype of [V]. *)
Definition setcol (V : DNDarray R) (j : nat) (val : DNDarray R) : M R (DNDarray R) :=
  match shape V with
  | [r; c] =>
      if j <? c then
        if decide (shape val = [r]) then
          ret (mkDND (shape V) (split V) (dtype_of V)
                 (set_col r c j (map (convert (dtype_of val) (dtype_of V)) (larray val))
                    (larray V)))
        else if Nat.eqb (numel (shape val)) 1 then
          ret (mkDND (shape V) (split V) (dtype_of V)
                 (set_col r c j
                    (replicate r (convert (dtype_of val) (dtype_of V)
                                    (nth 0 (larray val) s_zero)))
                    (larray V)))
        else raise (ValueError "the value cannot be broadcast into the column")
      else raise (IndexError "index is out of bounds")
  | _ => raise (IndexError "two indices given for an array that is not 2-D")
  end.

(** Modelled from the spec: [V[:, j]], a vector split like the rows of
    [V]. *)
Definition getcol (V : DNDarray R) (j : nat) : M R (DNDarray R) :=
  match shape V with
  | [r; c] =>
      if j <? c then
        ret (mkDND [r] (match split V with Some 0 => Some 0 | _ => None end)
               (dtype_of V) (col_data r c j (larray V)))
      else raise (IndexError "index is out of bounds")
  | _ => raise (IndexError "two indices given for an array that is not 2-D")
  end.

(** Modelled from the spec: redistribution ([resplit_]) leaves the global
    content as it is and changes the split axis; [copy] is a new array with
    the same content. *)
Definition resplit (a : DNDarray R) (axis : option nat) : DNDarray R :=
  mkDND (shape a) axis (dtype_of a) (larray a).

Definition copy (a : DNDarray R) : DNDarray R := a.

(** [o.resplit_(axis)] on an object of the caller. *)
Definition resplit_ (l : loc) (axis : option nat) : M R unit :=
  o <- deref l ;;
  match o with
  | PyDND d =>
      axis <- sanitize_axis (shape d) axis ;;
      store l (PyDND (resplit d axis))
  | _ => raise (AttributeError "object has no attribute resplit_")
  end.

(** *** Local tensors

    The torch calls of the re-orthogonalization work on the local tile of
    an array: the whole array when it is not split or when there is one
    process, else the block of the process.  Along a split axis of length
    [n] the process of rank 0 holds the first [chunk n] positions. *)
Record tensor := mkTensor {
  t_dtype : dtype;
  t_data : list R
}.

Definition chunk (n : nat) : nat :=
  if 1 <? comm_size then (n + comm_size - 1) / comm_size else n.

(** [a.larray] of a vector. *)
Definition local_vector (a : DNDarray R) : tensor :=
  mkTensor (dtype_of a)
    (match split a with
     | Some _ => firstn (chunk (length (larray a))) (larray a)
     | None => larray a
     end).

(** [V.larray[:, j]]: column [j] of the local tile of a matrix that is not
    split or is split along its rows. *)
Definition torch_col (V : DNDarray R) (j : nat) : M R tensor :=
  match shape V with
  | [r; c] =>
      if j <? c then
        match split V with
        | None => ret (mkTensor (dtype_of V) (col_data r c j (larray V)))
        | Some 0 =>
            ret (mkTensor (dtype_of V) (firstn (chunk r) (col_data r c j (larray V))))
        | Some _ => raise (Unmodelled "column of a matrix split along its columns")
        end
      else raise (IndexError "index is out of bounds")
  | _ => raise (IndexError "too many indices for tensor")
  end.

(** [torch.dot(u, v)]: two tensors of one dtype and one length. *)
Definition torch_dot (u v : tensor) : M R R :=
  if negb (bool_decide (t_dtype u = t_dtype v)) then
    raise (RuntimeError "dot : expected both vectors to have same dtype")
  else if Nat.eqb (length (t_data u)) (length (t_data v)) then
    ret (dotp (length (t_data u)) (t_data u) (t_data v))
  else raise (RuntimeError "inconsistent tensor size").

(** [comm.Allreduce(MPI.IN_PLACE, a, MPI.SUM)]: with one process the value
    stays; the sum over several processes is not described. *)
Definition allreduce_sum (a : R) : M R R :=
  if comm_size <=? 1 then ret a
  else raise (Unmodelled "Allreduce over several processes").

End ArrayLibrary.

(** ** Conjugate gradients ([solver.py], [cg]) *)

Section CG.
Context {R : Type} {SR : Scalar R} {RT : Runtime R}.

(** The body of [for i in range(len(b))], lines 47-60: [fuel] iterations
    remain and [i] is the loop variable.  Leaving the loop by exhaustion
    gives the current [x] (lines 62-65). *)
Fixpoint cg_loop (fuel i : nat) (A x r p rsold : DNDarray R) : M R (DNDarray R) :=
  match fuel with
  | 0 => ret x
  | S fuel' =>
      tick ;;;
      Ap <- matmul A p ;;
      pAp <- matmul p Ap ;;
      alpha <- div rsold pAp ;;
      ap <- mul alpha p ;;
      x <- add x ap ;;
      aAp <- mul alpha Ap ;;
      r <- sub r aAp ;;
      rsnew <- matmul r r ;;
      s <- sqrt rsnew ;;
      v <- item s ;;
      if s_lt v s_tol then
        py_print ("Residual reaches tolerance in it = " +:+ pretty i) ;;;
        ret x
      else
        q <- div rsnew rsold ;;
        qp <- mul q p ;;
        p <- add r qp ;;
        cg_loop fuel' (S i) A x r p rsnew
  end.

(** [cg(A, b, x0, out)].  [out] is the caller's output object, if one is
    passed: the source rebinds its local name ([out = x]) and returns that,
    so the object itself is neither read nor written. *)
Definition cg (A b x0 : pyobj R) (out : option loc) : M R (DNDarray R) :=
  match A, b, x0 with
  | PyDND A, PyDND b, PyDND x0 =>
      if negb (Nat.eqb (ndim A) 2) then raise (RuntimeError "A needs to be a 2D matrix")
      else if negb (Nat.eqb (ndim b) 1) then raise (RuntimeError "b needs to be a 1D vector")
      else if negb (Nat.eqb (ndim x0) 1) then raise (RuntimeError "c needs to be a 1D vector")
      else
        Ax <- matmul A x0 ;;
        r <- sub b Ax ;;
        let p := r in
        rsold <- matmul r r ;;
        let x := x0 in
        x <- cg_loop (len b) 0 A x r p rsold ;;
        none <- arg_is_none out ;;
        if negb none then
          let out := x in
          ret out
        else ret x
  | _, _, _ =>
      raise (TypeError ("A, b and x0 need to be of type ht.DNDarray, but were "
                        +:+ type_repr A +:+ ", " +:+ type_repr b +:+ ", "
                        +:+ type_repr x0))
  end.

(** *** The iteration as the specification words it (section 4.3)

    On the data of vectors of length [n]: [r0 = b - A x0], [p0 = r0],
    [rs_old = r0 . r0]; one pass computes [Ap], [alpha], the new [x] and [r]
    and [rs_new]; the pass converges when [sqrt rs_new < 1e-10]; otherwise
    [p] and [rs_old] are advanced. *)

Record cg_state := mkCG {
  cg_x : list R;
  cg_r : list R;
  cg_p : list R;
  cg_rs : R
}.

Definition cg_init (n : nat) (A b x0 : list R) : cg_state :=
  let r := vmap2 s_sub n b (mv n n A x0) in
  mkCG x0 r r (dotp n r r).

(** The new [x], the new [r] and [rs_new] of a pass. *)
Definition cg_update (n : nat) (A : list R) (st : cg_state) : list R * list R * R :=
  let Ap := mv n n A (cg_p st) in
  let alpha := s_div (cg_rs st) (dotp n (cg_p st) Ap) in
  let x := vmap2 s_add n (cg_x st) (vscale s_mul n alpha (cg_p st)) in
  let r := vmap2 s_sub n (cg_r st) (vscale s_mul n alpha Ap) in
  (x, r, dotp n r r).

Definition cg_new_x (n : nat) (A : list R) (st : cg_state) : list R :=
  fst (fst (cg_update n A st)).

Definition cg_rs_new (n : nat) (A : list R) (st : cg_state) : R :=
  snd (cg_update n A st).

(** [sqrt(rs_new) < 1e-10] at a pass from [st]. *)
Definition cg_converged (n : nat) (A : list R) (st : cg_state) : bool :=
  s_lt (s_sqrt (cg_rs_new n A st)) s_tol.

(** The state after a pass that did not converge. *)
Definition cg_next (n : nat) (A : list R) (st : cg_state) : cg_state :=
  let '(x, r, rsnew) := cg_update n A st in
  mkCG x r (vmap2 s_add n r (vscale s_mul n (s_div rsnew (cg_rs st)) (cg_p st))) rsnew.

(** The state at the start of pass [j] (counting from 0) when no earlier
    pass converged. *)
Definition cg_at (n : nat) (A b x0 : list R) (j : nat) : cg_state :=
  Nat.iter j (cg_next n A) (cg_init n A b x0).

(** The arrays of the loop hold the state [st]. *)
Definition cg_repr (n : nat) (st : cg_state) (x r p rsold : DNDarray R) : Prop :=
  (shape x = [n] ∧ larray x = cg_x st) ∧
  (shape r = [n] ∧ larray r = cg_r st) ∧
  (shape p = [n] ∧ larray p = cg_p st) ∧
  (shape rsold = [] ∧ larray rsold = [cg_rs st]).

(** The line printed on convergence in pass [i]. *)
Definition cg_message (i : nat) : string :=
  "Residual reaches tolerance in it = " +:+ pretty i.

End CG.

(** ** Lanczos ([solver.py], [lanczos]) *)

Section Lanczos.
Context {R : Type} {SR : Scalar R} {RT : Runtime R}.

(** [int(m)] for the [m] that passed the type check. *)
Definition int_of (m : pyobj R) : M R Z :=
  match m with
  | PyInt z => ret z
  | PyFloat _ => raise (Unmodelled "int of a float")
  | _ => raise (TypeError "int() argument must be a number")
  end.

(** Lines 110-114: the basis matrix is split along axis 0 exactly when [A]
    is; it has the dtype of [A]. *)
Definition lanczos_basis (A : DNDarray R) (n : nat) (m : pyobj R) : M R (DNDarray R) :=
  if decide (split A = Some 0) then
    ones [PyInt (Z.of_nat n); m] (Some 0) (dtype_of A)
  else
    ones [PyInt (Z.of_nat n); m] None (dtype_of A).

(** Lines 116-121: the starting vector.  Without [v0] a random vector is
    drawn, with no [dtype] argument, and normalized; the caller's [v0] is
    resplit in place when its split axis is not that of [V]. *)
Definition lanczos_start (n : nat) (V : DNDarray R) (v0 : option loc) : M R (DNDarray R) :=
  o <- arg_value v0 ;;
  match o, v0 with
  | PyNone, _ =>
      vr <- rand n (split V) default_float ;;
      nv <- norm vr ;;
      div vr nv
  | PyDND d, Some l =>
      if decide (split d = split V) then ret d
      else
        resplit_ l (split V) ;;;
        o <- deref l ;;
        match o with
        | PyDND d => ret d
        | _ => raise (AttributeError "object is not an array")
        end
  | _, _ => raise (AttributeError "object has no attribute split")
  end.

(** Lines 136-142 and 151-157, [for j in range(i)]: the local tensor [vr]
    of the candidate is made orthogonal to column [j] of the local tile of
    [V], for [fuel] columns from [j] on. *)
Fixpoint orthogonalize (fuel j : nat) (V : DNDarray R) (vr : tensor) : M R tensor :=
  match fuel with
  | 0 => ret vr
  | S fuel' =>
      vi_loc <- torch_col V j ;;
      a <- torch_dot vr vi_loc ;;
      b <- torch_dot vi_loc vi_loc ;;
      a <- allreduce_sum a ;;
      b <- allreduce_sum b ;;
      orthogonalize fuel' (S j) V
        (mkTensor (t_dtype vr)
           (vmap2 s_sub (length (t_data vr)) (t_data vr)
              (vscale s_mul (length (t_data vi_loc)) (s_div a b) (t_data vi_loc))))
  end.

(** [vr.larray = t]: the candidate with the local tensor [t].  The loop
    above ends without an exception only where the local tile is the whole
    vector. *)
Definition with_larray (vr : DNDarray R) (t : tensor) : DNDarray R :=
  mkDND (shape vr) (split vr) (dtype_of vr) (t_data t).

(** What one pass computes (lines 130-164). *)
Record lanczos_pass := mkPass {
  pass_beta : DNDarray R;
  pass_alpha : DNDarray R;
  pass_vi : DNDarray R;
  pass_w : DNDarray R
}.

Definition lanczos_body (i : nat) (A : DNDarray R) (n : nat) (V w : DNDarray R)
  : M R lanczos_pass :=
  beta <- norm w ;;
  ab <- abs beta ;;
  t <- item ab ;;
  vi <- (if s_lt t s_tol then
           vr <- rand n (split V) (dtype_of A) ;;
           d <- orthogonalize i 0 V (local_vector vr) ;;
           let vr := with_larray vr d in
           nv <- norm vr ;;
           div vr nv
         else
           let vr := w in
           d <- orthogonalize i 0 V (local_vector vr) ;;
           let vr := with_larray vr d in
           nv <- norm vr ;;
           div vr nv) ;;
  w <- matmul A vi ;;
  alpha <- dot w vi ;;
  av <- mul alpha vi ;;
  t1 <- sub w av ;;
  prev <- getcol V (i - 1) ;;
  bp <- mul beta prev ;;
  w <- sub t1 bp ;;
  ret (mkPass beta alpha vi w).

(** [for i in range(1, int(m))], lines 129-169, with [fuel] passes left. *)
Fixpoint lanczos_loop (fuel i : nat) (A : DNDarray R) (n : nat) (V T w : DNDarray R)
  : M R (DNDarray R * DNDarray R) :=
  match fuel with
  | 0 => ret (V, T)
  | S fuel' =>
      tick ;;;
      ps <- lanczos_body i A n V w ;;
      T <- setitem2 T (i - 1) i (pass_beta ps) ;;
      T <- setitem2 T i (i - 1) (pass_beta ps) ;;
      T <- setitem2 T i i (pass_alpha ps) ;;
      V <- setcol V i (pass_vi ps) ;;
      lanczos_loop fuel' (S i) A n V T (pass_w ps)
  end.

(** Lines 171-184: a split [V] is resplit to [None]; the local names
    [T_out] and [V_out] are rebound to copies and the pair is returned, so
    the objects of the caller are neither read nor written. *)
Definition lanczos_return (V T : DNDarray R) (V_out T_out : option loc)
  : M R (DNDarray R * DNDarray R) :=
  let V := match split V with Some _ => resplit V None | None => V end in
  T_none <- arg_is_none T_out ;;
  V_none <- arg_is_none V_out ;;
  if negb T_none then
    let T_out := copy T in
    if negb V_none then
      let V_out := copy V in
      ret (V_out, T_out)
    else ret (V, T_out)
  else if negb V_none then
    let V_out := copy V in
    ret (V_out, T)
  else ret (V, T).

(** The exception of the check of the shape (line 108). *)
Definition symmetry_error : exn := TypeError "Input Matrix A needs to be symmetric.".

(** [lanczos(A, m, v0, V_out, T_out)]. *)
Definition lanczos (A m : pyobj R) (v0 V_out T_out : option loc)
  : M R (DNDarray R * DNDarray R) :=
  match A with
  | PyDND A =>
      if negb (Nat.eqb (ndim A) 2) then raise (RuntimeError "A needs to be a 2D matrix")
      else if negb (isinstance_int_float m) then
        raise (TypeError ("m must be eiter int or float, but was " +:+ type_repr m))
      else
        let n := nth 0 (shape A) 0 in
        let column := nth 1 (shape A) 0 in
        if negb (Nat.eqb n column) then
          raise (TypeError "Input Matrix A needs to be symmetric.")
        else
          T <- zeros [m; m] ;;
          V <- lanczos_basis A n m ;;
          v0 <- lanczos_start n V v0 ;;
          w <- matmul A v0 ;;
          alpha <- dot w v0 ;;
          av <- mul alpha v0 ;;
          w <- sub w av ;;
          T <- setitem2 T 0 0 alpha ;;
          V <- setcol V 0 v0 ;;
          mi <- int_of m ;;
          VT <- lanczos_loop (Z.to_nat (mi - 1)) 1 A n V T w ;;
          lanczos_return (fst VT) (snd VT) V_out T_out
  | _ => raise (TypeError ("A needs to be of type ht.dndarra, but was " +:+ type_repr A))
  end.

(** *** The Krylov iteration on data (specification, section 4.4)

    The state after the basis vectors [v_0 .. v_(i-1)]: those vectors, the
    coefficients [alpha_0 .. alpha_(i-1)] and [beta_1 .. beta_(i-1)], the
    residual [w] and the number of draws made from the generator. *)

Record krylov := mkKrylov {
  kr_basis : list (list R);
  kr_alphas : list R;
  kr_betas : list R;
  kr_w : list R;
  kr_rng : nat
}.

(** Gram-Schmidt against every vector of [basis], in order. *)
Definition gram_schmidt (n : nat) (basis : list (list R)) (vr : list R) : list R :=
  fold_left
    (λ vr vj, vmap2 s_sub n vr (vscale s_mul n (s_div (dotp n vr vj) (dotp n vj vj)) vj))
    basis vr.

Definition normalize (n : nat) (v : list R) : list R :=
  vscale_r s_div n v (s_sqrt (dotp n v v)).

(** Without [v0]: a normalized random vector, [w = A v0 - alpha_0 v0]. *)
Definition krylov_init (n : nat) (A : list R) (draws : nat) : krylov :=
  let v0 := normalize n (map (rand_at draws) (seq 0 n)) in
  let Av := mv n n A v0 in
  let alpha := dotp n Av v0 in
  mkKrylov [v0] [alpha] [] (vmap2 s_sub n Av (vscale s_mul n alpha v0)) (S draws).

(** [beta = norm(w)] of the next pass, and whether it is a breakdown. *)
Definition krylov_beta (n : nat) (st : krylov) : R :=
  s_sqrt (dotp n (kr_w st) (kr_w st)).

Definition krylov_breakdown (n : nat) (st : krylov) : bool :=
  s_lt (s_abs (krylov_beta n st)) s_tol.

(** One pass: the candidate is [w], or on breakdown a fresh random vector;
    it is re-orthogonalized against the whole basis and normalized. *)
Definition krylov_next (n : nat) (A : list R) (st : krylov) : krylov :=
  let beta := krylov_beta n st in
  let cand :=
    if krylov_breakdown n st then map (rand_at (kr_rng st)) (seq 0 n) else kr_w st in
  let vi := normalize n (gram_schmidt n (kr_basis st) cand) in
  let Av := mv n n A vi in
  let alpha := dotp n Av vi in
  let w := vmap2 s_sub n (vmap2 s_sub n Av (vscale s_mul n alpha vi))
             (vscale s_mul n beta (nth (length (kr_basis st) - 1) (kr_basis st) [])) in
  mkKrylov (kr_basis st ++ [vi]) (kr_alphas st ++ [alpha]) (kr_betas st ++ [beta]) w
    (if krylov_breakdown n st then S (kr_rng st) else kr_rng st).

(** The state after [m] basis vectors, [m >= 1]. *)
Definition krylov_run (n : nat) (A : list R) (draws m : nat) : krylov :=
  Nat.iter (m - 1) (krylov_next n A) (krylov_init n A draws).

(** Entry [(r, c)] of the tridiagonal matrix with diagonal [alphas] and
    side diagonals [betas] ([beta_i] couples [i - 1] and [i]). *)
Definition tri_entry (alphas betas : list R) (r c : nat) : R :=
  if Nat.eqb r c then nth r alphas s_zero
  else if Nat.eqb r (S c) then nth c betas s_zero
  else if Nat.eqb c (S r) then nth r betas s_zero
  else s_zero.

(** Entry [(r, c)] of a matrix with [m] columns. *)
Definition entry (m : nat) (T : DNDarray R) (r c : nat) : R :=
  nth (r * m + c) (larray T) s_zero.

(** The split axis [lanczos] chooses for [V]. *)
Definition basis_split (A : DNDarray R) : option nat :=
  if decide (split A = Some 0) then Some 0 else None.

(** The arrays of the loop hold the Krylov state [st] before pass [i]:
    the first [i] columns of [V] are the basis, [T] is the tridiagonal
    matrix of the coefficients so far, [w] is the residual. *)
Definition basis_repr (n m i : nat) (st : krylov) (V : DNDarray R) : Prop :=
  shape V = [n; m] ∧ length (larray V) = n * m ∧
  (split V = None ∨ split V = Some 0) ∧
  length (kr_basis st) = i ∧
  (∀ j, j < i → col_data n m j (larray V) = nth j (kr_basis st) []).

(** [T] holds the coefficients as [cv] stores them in its dtype. *)
Definition tri_repr (cv : R → R) (m i : nat) (st : krylov) (T : DNDarray R) : Prop :=
  shape T = [m; m] ∧ length (larray T) = m * m ∧
  length (kr_alphas st) = i ∧ length (kr_betas st) = i - 1 ∧
  (∀ r c, r < m → c < m →
     entry m T r c = tri_entry (map cv (kr_alphas st)) (map cv (kr_betas st)) r c).

Definition residual_repr (n : nat) (st : krylov) (w : DNDarray R) : Prop :=
  shape w = [n] ∧ larray w = kr_w st ∧ length (kr_w st) = n.

(** *** The iteration from a starting vector of the caller *)

(** With [v0] given: it is taken as it is, [w = A v0 - alpha_0 v0], and no
    draw is made for it. *)
Definition krylov_start (n : nat) (A v0 : list R) (draws : nat) : krylov :=
  let Av := mv n n A v0 in
  let alpha := dotp n Av v0 in
  mkKrylov [v0] [alpha] [] (vmap2 s_sub n Av (vscale s_mul n alpha v0)) draws.

Definition krylov_run_from (n : nat) (A v0 : list R) (draws m : nat) : krylov :=
  Nat.iter (m - 1) (krylov_next n A) (krylov_start n A v0 draws).

(** The passes [1 .. m - 1] that meet a breakdown. *)
Definition breakdown_passes (n : nat) (A : list R) (draws m : nat) : list nat :=
  filter (λ i, krylov_breakdown n (krylov_run n A draws i) = true) (seq 1 (m - 1)).

End Lanczos.

(** ** IEEE scalars *)

(** The binary32 number nearest to a binary64 number (ties to even). *)
Definition round32 (x : float) : float :=
  match Prim2SF x with
  | S754_finite s m e =>
      SF2Prim (binary_normalize 24 128 (cond_Zopp s (Zpos m)) e s)
  | _ => x
  end.

Definition float_round (d : dtype) (x : float) : float :=
  match d with
  | Float32 => round32 x
  | Float64 => x
  end.

(** IEEE binary64, the arithmetic of [float64] arrays. *)
Definition float64_scalar : Scalar float := {|
  s_zero := 0%float;
  s_one := 1%float;
  s_add := PrimFloat.add;
  s_sub := PrimFloat.sub;
  s_mul := PrimFloat.mul;
  s_div := PrimFloat.div;
  s_sqrt := PrimFloat.sqrt;
  s_abs := PrimFloat.abs;
  s_lt := PrimFloat.ltb;
  s_tol := 1e-10%float;
  s_round := float_round
|}.

(** IEEE binary32, the arithmetic of [float32] arrays, which are the arrays
    of the examples unless one says otherwise: each operation is the
    binary64 operation rounded to binary32. *)
#[export] Instance float_scalar : Scalar float := {
  s_zero := 0%float;
  s_one := 1%float;
  s_add := λ x y, round32 (PrimFloat.add x y);
  s_sub := λ x y, round32 (PrimFloat.sub x y);
  s_mul := λ x y, round32 (PrimFloat.mul x y);
  s_div := λ x y, round32 (PrimFloat.div x y);
  s_sqrt := λ x, round32 (PrimFloat.sqrt x);
  s_abs := PrimFloat.abs;
  s_lt := PrimFloat.ltb;
  s_tol := 1e-10%float;
  s_round := float_round
}.

(** A runtime to evaluate with: one process, [float32] as the default
    dtype, results of operations that are not split, and a generator that
    is a fixed table of values in [0, 1), sixteenths. *)
#[export] Instance float_runtime : Runtime float := {
  rand_at := λ call i,
    PrimFloat.div (PrimFloat.of_uint63 (Uint63.of_nat ((7 * call + 3 * i + 1) mod 16)))
                  16%float;
  result_split := λ _ _, None;
  default_float := Float32;
  comm_size := 1
}.

Definition vec (l : list float) : DNDarray float := mkDND [length l] None Float32 l.

Definition eye5 : DNDarray float :=
  mkDND [5; 5] None Float32
    [1;0;0;0;0; 0;1;0;0;0; 0;0;1;0;0; 0;0;0;1;0; 0;0;0;0;1]%float.

Definition world0 : world float := mkWorld (λ _, PyNone) 0 [] 0.

(** A symmetric positive definite matrix, a matrix that is not symmetric,
    the zero matrix split along axis 0, and a matrix that is not square. *)
Definition spd2 : DNDarray float := mkDND [2; 2] None Float32 [2; 1; 1; 3]%float.


Definition zero2 : DNDarray float := mkDND [2; 2] (Some 0) Float32 [0; 0; 0; 0]%float.

Definition wide23 : DNDarray float := mkDND [2; 3] None Float32 [1; 2; 3; 4; 5; 6]%float.

(** The 2 x 2 identity in double precision. *)
Definition eye2_f64 : DNDarray float := mkDND [2; 2] None Float64 [1; 0; 0; 1]%float.

(** A world whose object 0 is a vector of three elements split along axis
    0: an output buffer of the wrong shape and split for the examples, or a
    starting vector split otherwise than the basis. *)
Definition world_buf : world float :=
  mkWorld (λ l, if Nat.eqb l 0 then PyDND (mkDND [3] (Some 0) Float32 [9; 9; 9]%float)
                else PyNone)
          0 [] 0.

(** A 1 x 1 matrix in double precision whose entry is no [float32] number,
    and a world whose object 0 is the unit vector in double precision. *)
Definition mat36_f64 : DNDarray float := mkDND [1; 1] None Float64 [3.6]%float.

Definition world_v0_f64 : world float :=
  mkWorld (λ l, if Nat.eqb l 0 then PyDND (mkDND [1] None Float64 [1]%float)
                else PyNone)
          0 [] 0.

(** A world whose object 0 is a vector of five elements, not split: an
    output buffer of the shape and split of the solution of the examples. *)
Definition world_out : world float :=
  mkWorld (λ l, if Nat.eqb l 0 then PyDND (vec [9; 9; 9; 9; 9]%float) else PyNone)
          0 [] 0.

Definition world_v0 : world float :=
  mkWorld (λ l, if Nat.eqb l 0 then PyDND (mkDND [2] (Some 0) Float32 [1; 0]%float)
                else PyNone)
          0 [] 0.


(** ** The partial HDF5 dataset ([partial_dataset.py], [PartialH5Dataset]) *)

Module PartialH5Dataset.

Section Dataset.
Context {Row : Type}.

(** An HDF5 file: its datasets by name, in the order of [f.keys()]; a
    dataset is its rows along dimension 0. *)
Definition h5file : Type := list (string * list Row).

(** Values of attributes. *)
Inductive value :=
| VNone
| VBool (b : bool)
| VInt (z : Z)
| VStr (s : string)
| VList (l : list value)
| VCallable (id : nat)
| VRows (rows : list Row)
| VComm (size rank : nat)
| VDevice (name : string)
| VQueue
| VCondition.

(** What the constructor finds around it: the files, the number of CUDA
    devices, whether CUDA is available, and the rank of [MPI_WORLD]. *)
Record env := mkEnv {
  fs : string → option h5file;
  cuda_device_count : nat;
  cuda_is_available : bool;
  world_rank : nat
}.

(** The object under construction: its attributes by name, the number of
    daemon threads started and of file handles left open. *)
Record obj := mkObj {
  attrs : gmap string value;
  threads : nat;
  open_handles : nat
}.

Definition new_obj : obj := mkObj ∅ 0 0.

Definition I (A : Type) : Type := obj → obj * (exn + A).

Definition iret {A} (a : A) : I A := λ o, (o, inr a).

Definition iraise {A} (e : exn) : I A := λ o, (o, inl e).

Definition ibind {A B} (c : I A) (k : A → I B) : I B :=
  λ o, match c o with
       | (o', inr a) => k a o'
       | (o', inl e) => (o', inl e)
       end.

Notation "x <~ c ;; k" := (ibind c (λ x, k))
  (at level 100, c at next level, right associativity).
Notation "c ;;~ k" := (ibind c (λ _, k))
  (at level 100, right associativity).

(** [self.name = v] and [self.name] *)
Definition setattr (name : string) (v : value) : I unit :=
  λ o, (mkObj (<[name := v]> (attrs o)) (threads o) (open_handles o), inr tt).

Definition getattr (name : string) : I value :=
  λ o, match attrs o !! name with
       | Some v => (o, inr v)
       | None => (o, inl (AttributeError name))
       end.

Definition start_thread : I unit :=
  λ o, (mkObj (attrs o) (S (threads o)) (open_handles o), inr tt).

(** [h5py.File(file, "r")] and [f.close()] *)
Definition open_file (E : env) (file : string) : I h5file :=
  λ o, match fs E file with
       | Some f => (mkObj (attrs o) (threads o) (S (open_handles o)), inr f)
       | None => (o, inl (OSError file))
       end.

Definition close_file : I unit :=
  λ o, (mkObj (attrs o) (threads o) (open_handles o - 1), inr tt).

(** [f[k]] *)
Fixpoint h5_get (f : h5file) (k : string) : option (list Row) :=
  match f with
  | [] => None
  | (k', d) :: f' => if decide (k' = k) then Some d else h5_get f' k
  end.

Definition dataset (f : h5file) (k : string) : I (list Row) :=
  match h5_get f k with
  | Some d => iret d
  | None => iraise (KeyError k)
  end.

(** Lines 105-108: every other dataset has the length of the first. *)
Fixpoint check_lengths (f : h5file) (sz : nat) (file : string) (keys : list string)
  : I unit :=
  match keys with
  | [] => iret tt
  | k :: keys' =>
      d <~ dataset f k ;;
      if negb (Nat.eqb (length d) sz) then
        iraise (ValueError ("all datasets in " +:+ file +:+ " must be the same length"))
      else check_lengths f sz file keys'
  end.

Definition as_int (v : value) : I Z :=
  match v with
  | VInt z => iret z
  | _ => iraise (Unmodelled "arithmetic on an attribute that is not an integer")
  end.

(** [d[start:stop]] on the rows of a dataset, with Python's reading of
    negative and of large bounds. *)
Definition clamp (n : nat) (x : Z) : nat :=
  if (x <? 0)%Z then Z.to_nat (Z.max (x + Z.of_nat n) 0)
  else Nat.min (Z.to_nat x) n.

Definition py_slice (rows : list Row) (start stop : Z) : list Row :=
  let a := clamp (length rows) start in
  let b := clamp (length rows) stop in
  firstn (b - a) (skipn a rows).

(** Names that are no plain attribute of the object.  [self.__setattr__]
    refuses an array as [__class__] and as [__dict__], and [__weakref__]
    cannot be written; an attribute [__setattr__] or
    [thread_replace_converted_batches] of the object hides the method of
    that name, which lines 143 and 266 look up on the object. *)
Definition special_attrs : list string :=
  ["__class__"; "__dict__"; "__weakref__"; "__setattr__";
   "thread_replace_converted_batches"].

(** [self.__setattr__(name, hld)] for an array [hld] (line 143): the method
    is looked up on the object. *)
Definition setattr_named (name : string) (v : value) : I unit :=
  λ o, match attrs o !! "__setattr__" with
       | Some _ => (o, inl (TypeError "'numpy.ndarray' object is not callable"))
       | None =>
           if decide (name = "__class__") then
             (o, inl (TypeError
                        "__class__ must be set to a class, not 'numpy.ndarray' object"))
           else if decide (name = "__dict__") then
             (o, inl (TypeError
                        "__dict__ must be set to a dictionary, not a 'numpy.ndarray'"))
           else if decide (name = "__weakref__") then
             (o, inl (AttributeError "attribute '__weakref__' is not writable"))
           else setattr name v o
       end.

(** [for d in dataset_names] (line 141): what the loop goes through. *)
Definition iter_names (dataset_names : value) : I (list value) :=
  match dataset_names with
  | VStr s => iret [VStr s]
  | VList l => iret l
  | VNone | VBool _ | VInt _ | VCallable _ =>
      iraise (TypeError "object is not iterable")
  | _ => iraise (Unmodelled "iteration over this object")
  end.

(** Lines 141-143: the first portion of each named dataset becomes the
    attribute of that name, one name after the other: [f[d]], then the
    bounds of the slice, then [self.__setattr__]. *)
Fixpoint load_named (f : h5file) (names : list value) : I unit :=
  match names with
  | [] => iret tt
  | VStr d :: names' =>
      rows <~ dataset f d ;;
      a <~ getattr "load_start" ;;
      a <~ as_int a ;;
      b <~ getattr "load_end" ;;
      b <~ as_int b ;;
      setattr_named d (VRows (py_slice rows a b)) ;;~
      load_named f names'
  | _ :: _ => iraise (TypeError "Accessing a group is done with bytes or str")
  end.

(** The ceiling of the exact quotient. *)
Definition ceil_div (a b : Z) : Z := (- ((- a) / b))%Z.

(** [math.ceil(a / b)] for integers [a] and [b].  The quotient is the
    binary64 number nearest to [a / b]; for operands below [2^52] in
    absolute value that number lies strictly between the same two integers
    as [a / b] when [a / b] is no integer, so its ceiling is the ceiling of
    the exact quotient.  Beyond that bound the two differ (at
    [a = 2^53 + 1], [b = 1]), and the result is not described here. *)
Definition math_ceil_div (a b : Z) : I Z :=
  if (b =? 0)%Z then iraise (ZeroDivisionError "division by zero")
  else if (Z.abs a <? 2 ^ 52)%Z && (Z.abs b <? 2 ^ 52)%Z then iret (ceil_div a b)
  else iraise (Unmodelled "math.ceil of a binary64 quotient of large integers").

(** [PartialH5Dataset.__init__(self, file, comm, dataset_names, transforms,
    use_gpu, validate_set, initial_load, load_length)]. *)
Definition __init__ (E : env) (file : string) (comm_size comm_rank : nat)
    (dataset_names transforms : value) (use_gpu validate_set : bool)
    (initial_load load_length : Z) : I unit :=
  setattr "ishuffle" (VBool false) ;;~
  setattr "file" (VStr file) ;;~
  setattr "comm" (VComm comm_size comm_rank) ;;~
  setattr "transforms"
    (match transforms with VList _ => transforms | _ => VList [transforms] end) ;;~
  setattr "gpu" (VBool ((0 <? cuda_device_count E) && use_gpu)) ;;~
  setattr "torch_device" (VStr "cpu") ;;~
  (if cuda_is_available E && use_gpu then
     if Nat.eqb (cuda_device_count E) 0 then
       iraise (ZeroDivisionError "integer division or modulo by zero")
     else
       let dev_id := world_rank E mod cuda_device_count E in
       setattr "torch_device" (VDevice ("cuda:" +:+ pretty dev_id))
   else iret tt) ;;~
  f <~ open_file E file ;;
  let fkeys := map fst f in
  k0 <~ match fkeys with
        | k0 :: _ => iret k0
        | [] => iraise (IndexError "list index out of range")
        end ;;
  d0 <~ dataset f k0 ;;
  let sz := length d0 in
  check_lengths f sz file (tail fkeys) ;;~
  setattr "total_size" (VInt (Z.of_nat sz)) ;;~
  (if Nat.eqb comm_size 0 then
     iraise (ZeroDivisionError "integer division or modulo by zero")
   else iret tt) ;;~
  let lcl := (Z.of_nat sz / Z.of_nat comm_size)%Z in
  setattr "lcl_full_sz" (VInt lcl) ;;~
  setattr "local_data_start" (VInt (Z.of_nat comm_rank * lcl)) ;;~
  setattr "local_data_end" (VInt ((Z.of_nat comm_rank + 1) * lcl)) ;;~
  (if validate_set || (lcl <? initial_load)%Z then
     setattr "lcl_full_sz" (VInt (Z.of_nat sz)) ;;~
     setattr "local_data_start" (VInt 0) ;;~
     setattr "local_data_end" (VInt (Z.of_nat sz)) ;;~
     setattr "load_initial" (VInt (Z.of_nat sz)) ;;~
     setattr "partial_dataset" (VBool false) ;;~
     setattr "load_len" (VInt 0) ;;~
     setattr "loads_needed" (VInt 0)
   else
     setattr "local_length"
       (VInt ((Z.of_nat comm_rank + 1) * lcl - Z.of_nat comm_rank * lcl)) ;;~
     setattr "load_initial" (VInt initial_load) ;;~
     setattr "load_len" (VInt load_length) ;;~
     loads <~ math_ceil_div lcl load_length ;;
     setattr "loads_needed" (VInt loads) ;;~
     setattr "partial_dataset" (VBool true)) ;;~
  v <~ getattr "loads_needed" ;;
  setattr "loads_left" v ;;~
  start <~ getattr "local_data_start" ;;
  setattr "load_start" start ;;~
  start <~ as_int start ;;
  li <~ getattr "load_initial" ;;
  li <~ as_int li ;;
  setattr "load_end" (VInt (start + li)) ;;~
  setattr "dataset_names"
    (match dataset_names with VStr s => VList [VStr s] | _ => dataset_names end) ;;~
  setattr "dataset_order" (VList []) ;;~
  names <~ iter_names dataset_names ;;
  load_named f names ;;~
  e <~ getattr "load_end" ;;
  setattr "load_start" e ;;~
  e <~ as_int e ;;
  ll <~ getattr "load_len" ;;
  ll <~ as_int ll ;;
  setattr "load_end" (VInt (e + ll)) ;;~
  close_file ;;~
  setattr "load_thread" VNone ;;~
  setattr "epoch_end" (VBool false) ;;~
  setattr "loading_queue" VQueue ;;~
  setattr "loading_condition" VCondition ;;~
  start_thread ;;~
  setattr "convert_queue" VQueue ;;~
  start_thread ;;~
  setattr "used_indices" (VList []).

(** Lines 109-155 of [__init__]: what follows the check of the lengths,
    for the file [f] read and the length [sz] of its first dataset. *)
Definition init_loader (f : h5file) (sz : nat) (comm_size comm_rank : nat)
    (dataset_names : value) (validate_set : bool) (initial_load load_length : Z)
  : I unit :=
  setattr "total_size" (VInt (Z.of_nat sz)) ;;~
  (if Nat.eqb comm_size 0 then
     iraise (ZeroDivisionError "integer division or modulo by zero")
   else iret tt) ;;~
  let lcl := (Z.of_nat sz / Z.of_nat comm_size)%Z in
  setattr "lcl_full_sz" (VInt lcl) ;;~
  setattr "local_data_start" (VInt (Z.of_nat comm_rank * lcl)) ;;~
  setattr "local_data_end" (VInt ((Z.of_nat comm_rank + 1) * lcl)) ;;~
  (if validate_set || (lcl <? initial_load)%Z then
     setattr "lcl_full_sz" (VInt (Z.of_nat sz)) ;;~
     setattr "local_data_start" (VInt 0) ;;~
     setattr "local_data_end" (VInt (Z.of_nat sz)) ;;~
     setattr "load_initial" (VInt (Z.of_nat sz)) ;;~
     setattr "partial_dataset" (VBool false) ;;~
     setattr "load_len" (VInt 0) ;;~
     setattr "loads_needed" (VInt 0)
   else
     setattr "local_length"
       (VInt ((Z.of_nat comm_rank + 1) * lcl - Z.of_nat comm_rank * lcl)) ;;~
     setattr "load_initial" (VInt initial_load) ;;~
     setattr "load_len" (VInt load_length) ;;~
     loads <~ math_ceil_div lcl load_length ;;
     setattr "loads_needed" (VInt loads) ;;~
     setattr "partial_dataset" (VBool true)) ;;~
  v <~ getattr "loads_needed" ;;
  setattr "loads_left" v ;;~
  start <~ getattr "local_data_start" ;;
  setattr "load_start" start ;;~
  start <~ as_int start ;;
  li <~ getattr "load_initial" ;;
  li <~ as_int li ;;
  setattr "load_end" (VInt (start + li)) ;;~
  setattr "dataset_names"
    (match dataset_names with VStr s => VList [VStr s] | _ => dataset_names end) ;;~
  setattr "dataset_order" (VList []) ;;~
  names <~ iter_names dataset_names ;;
  load_named f names ;;~
  e <~ getattr "load_end" ;;
  setattr "load_start" e ;;~
  e <~ as_int e ;;
  ll <~ getattr "load_len" ;;
  ll <~ as_int ll ;;
  setattr "load_end" (VInt (e + ll)) ;;~
  close_file ;;~
  setattr "load_thread" VNone ;;~
  setattr "epoch_end" (VBool false) ;;~
  setattr "loading_queue" VQueue ;;~
  setattr "loading_condition" VCondition ;;~
  start_thread ;;~
  setattr "convert_queue" VQueue ;;~
  start_thread ;;~
  setattr "used_indices" (VList []).

(** The attributes set by lines 89-98, before the file is opened. *)
Definition early_attrs (E : env) (file : string) (comm_size comm_rank : nat)
    (transforms : value) (use_gpu : bool) : gmap string value :=
  let base :=
    <["torch_device" := VStr "cpu"]>
      (<["gpu" := VBool ((0 <? cuda_device_count E) && use_gpu)]>
         (<["transforms" :=
              match transforms with VList _ => transforms | _ => VList [transforms] end]>
            (<["comm" := VComm comm_size comm_rank]>
               (<["file" := VStr file]> (<["ishuffle" := VBool false]> ∅))))) in
  if cuda_is_available E && use_gpu then
    <["torch_device" :=
        VDevice ("cuda:" +:+ pretty (world_rank E mod cuda_device_count E))]> base
  else base.

(** All datasets of the file have one length. *)
Definition same_length (f : h5file) : Prop :=
  ∀ a b, a ∈ f → b ∈ f → length (snd a) = length (snd b).

(** [__len__]: the total length, [self.total_size]. *)
Definition __len__ : I value := getattr "total_size".

(** [Shuffle] and [Ishuffle] return the exception class, they do not raise
    it; [__getitem__] raises. *)
Definition Shuffle : I (exn + value) :=
  iret (inl (NotImplementedError EmptyString)).

Definition Ishuffle : I (exn + value) :=
  iret (inl (NotImplementedError EmptyString)).

Definition __getitem__ (index : value) : I value :=
  iraise (NotImplementedError "__getitem__ must be overwritten").

(** The names of the attributes that [__init__] sets for itself. *)
Definition own_attrs : list string :=
  ["ishuffle"; "file"; "comm"; "transforms"; "gpu"; "torch_device";
   "total_size"; "lcl_full_sz"; "local_data_start"; "local_data_end";
   "local_length"; "load_initial"; "load_len"; "loads_needed"; "partial_dataset";
   "loads_left"; "load_start"; "load_end"; "dataset_names"; "dataset_order";
   "load_thread"; "epoch_end"; "loading_queue"; "loading_condition";
   "convert_queue"; "used_indices"].

(** The list of names that [dataset_names] stands for. *)
Definition names_given (dataset_names : value) (names : list string) : Prop :=
  (∃ s, dataset_names = VStr s ∧ names = [s]) ∨ dataset_names = VList (map VStr names).

(** The rows of dataset [d], none when there is no such dataset. *)
Definition rows_of (f : h5file) (d : string) : list Row :=
  default [] (h5_get f d).

(** Attributes written one name after the other. *)
Definition write_all (g : string → value) (names : list string)
    (m : gmap string value) : gmap string value :=
  foldl (λ m d, <[d := g d]> m) m names.

(** A computation that starts no thread and neither opens nor closes a
    file. *)
Definition keeps {A} (c : I A) : Prop :=
  ∀ o, threads (c o).1 = threads o ∧ open_handles (c o).1 = open_handles o.

(** From [t] threads and [h] open files, [c] ends with the threads, the
    open files and the result that [Q] allows. *)
Definition from_state {A} (t h : nat) (c : I A) (Q : nat → nat → exn + A → Prop)
  : Prop :=
  ∀ o, threads o = t → open_handles o = h →
       Q (threads (c o).1) (open_handles (c o).1) (c o).2.

(** Two threads and no open file after a return, no thread and one open
    file after an exception. *)
Definition closed_on_return {A} (t h : nat) (r : exn + A) : Prop :=
  match r with
  | inr _ => t = 2 ∧ h = 0
  | inl _ => t = 0 ∧ h = 1
  end.

End Dataset.

End PartialH5Dataset.

(** ** The iterator ([partial_dataset.py], [PartialH5DataLoaderIter]) *)

Module PartialH5DataLoaderIter.
Import PartialH5Dataset.

Section Iter.
Context {Row : Type}.

(** What the constructor looks at in [loader.DataLoader], torch's loader:
    its batch size, [pin_memory] and the length of its index sampler.  The
    other attributes of the loader are passed on as they are. *)
Record loader := mkLoader {
  batch_size : Z;
  pin_memory : bool;
  index_sampler_len : nat
}.

(** Values of the iterator's attributes: an object taken from the loader or
    made by torch and not looked into, a value of the dataset, a Python
    value. *)
Inductive ivalue :=
| IFrom (expr : string)
| IVal (v : @value Row)
| IInt (z : Z)
| IBool (b : bool)
| IIndices (l : list nat)
| IBatches (l : list (list Row)).

(** What is put on the queues of the dataset: the conversion of the
    iterator with its indices, the method of the dataset that replaces the
    converted batches, or the value of an attribute of the dataset. *)
Inductive task :=
| ConvertAll (index_list : list nat)
| ReplaceConvertedBatches
| Attribute (v : @value Row).

(** The state that the constructor works on, in its own thread: the
    dataset of the loader, the attributes of the iterator, the number of
    draws from torch's generator, and what was put on the dataset's two
    queues.  What the daemon threads do with the queued tasks is not part of
    the constructor. *)
Record state := mkState {
  dataset_of : @obj Row;
  self : gmap string ivalue;
  draws : nat;
  convert_queue : list task;
  loading_queue : list task
}.

(** torch's generator: the permutation and the integer of each draw. *)
Variable randperm : nat → nat → list nat.
Variable random_ : nat → Z.

Definition J (A : Type) : Type := state → state * (exn + A).

Definition jret {A} (a : A) : J A := λ w, (w, inr a).

Definition jraise {A} (e : exn) : J A := λ w, (w, inl e).

Definition jbind {A B} (c : J A) (k : A → J B) : J B :=
  λ w, match c w with
       | (w', inr a) => k a w'
       | (w', inl e) => (w', inl e)
       end.

Notation "x <-- c ;; k" := (jbind c (λ x, k))
  (at level 100, c at next level, right associativity).
Notation "c ;;- k" := (jbind c (λ _, k))
  (at level 100, right associativity).

(** [self.name = v] and [self.name] on the iterator *)
Definition set_self (name : string) (v : ivalue) : J unit :=
  λ w, (mkState (dataset_of w) (<[name := v]> (self w)) (draws w)
          (convert_queue w) (loading_queue w), inr tt).

Definition get_self (name : string) : J ivalue :=
  λ w, match self w !! name with
       | Some v => (w, inr v)
       | None => (w, inl (AttributeError name))
       end.

(** A step on [self.dataset]. *)
Definition on_dataset {A} (c : @I Row A) : J A :=
  λ w, (mkState (c (dataset_of w)).1 (self w) (draws w)
          (convert_queue w) (loading_queue w), (c (dataset_of w)).2).

(** [self.dataset.name] as an integer, as a truth value *)
Definition dataset_int (name : string) : J Z :=
  on_dataset (ibind (getattr name) as_int).

Definition dataset_bool (name : string) : J bool :=
  on_dataset
    (ibind (getattr name)
       (λ v, match v with
             | VBool b => iret b
             | _ => iraise (Unmodelled "truth of an attribute that is not a bool")
             end)).

Definition self_int (name : string) : J Z :=
  v <-- get_self name ;;
  match v with
  | IInt z => jret z
  | _ => jraise (Unmodelled "arithmetic on an attribute that is not an integer")
  end.

(** [torch.randperm(n).tolist()] and
    [torch.empty((), dtype=torch.int64).random_().item()] *)
Definition torch_randperm (n : Z) : J (list nat) :=
  if (n <? 0)%Z then jraise (RuntimeError "n must be non-negative")
  else λ w, (mkState (dataset_of w) (self w) (S (draws w))
               (convert_queue w) (loading_queue w),
             inr (randperm (draws w) (Z.to_nat n))).

Definition torch_random : J Z :=
  λ w, (mkState (dataset_of w) (self w) (S (draws w))
          (convert_queue w) (loading_queue w), inr (random_ (draws w))).

(** [self.dataset.convert_queue.put(t)] and [self.dataset.loading_queue.put(t)] *)
Definition put_convert (t : task) : J unit :=
  q <-- on_dataset (getattr "convert_queue") ;;
  match q with
  | VQueue => λ w, (mkState (dataset_of w) (self w) (draws w)
                      (convert_queue w ++ [t]) (loading_queue w), inr tt)
  | _ => jraise (AttributeError "put")
  end.

Definition put_loading (t : task) : J unit :=
  q <-- on_dataset (getattr "loading_queue") ;;
  match q with
  | VQueue => λ w, (mkState (dataset_of w) (self w) (draws w)
                      (convert_queue w) (loading_queue w ++ [t]), inr tt)
  | _ => jraise (AttributeError "put")
  end.

(** [self.dataset.thread_replace_converted_batches] (line 266): the method,
    unless an attribute of the object has that name. *)
Definition replace_task : J task :=
  λ w, (w, inr (match attrs (dataset_of w) !! "thread_replace_converted_batches" with
                | Some v => Attribute v
                | None => ReplaceConvertedBatches
                end)).

(** Lines 260-261: [for _ in range(idx_repeats): index_list.extend(...)] *)
Fixpoint extend_indices (passes : nat) (index_list : list nat) : J (list nat) :=
  match passes with
  | O => jret index_list
  | S passes' =>
      n <-- dataset_int "load_initial" ;;
      l <-- torch_randperm n ;;
      extend_indices passes' (index_list ++ l)
  end.

(** The permutations of [passes] draws of [torch.randperm(n)], from draw
    [d] on, one after the other. *)
Fixpoint drawn (n : nat) (d passes : nat) : list nat :=
  match passes with
  | O => []
  | S passes' => randperm d n ++ drawn n (S d) passes'
  end.

(** [PartialH5DataLoaderIter.__init__(self, loader)]. *)
Definition __init__ (E : @env Row) (ld : loader) : J unit :=
  set_self "dataset" (IFrom "loader.dataset") ;;-
  set_self "_dataset_kind" (IFrom "loader.DataLoader._dataset_kind") ;;-
  set_self "_IterableDataset_len_called"
    (IFrom "loader.DataLoader._IterableDataset_len_called") ;;-
  set_self "_auto_collation" (IFrom "loader.DataLoader._auto_collation") ;;-
  set_self "_drop_last" (IFrom "loader.DataLoader.drop_last") ;;-
  set_self "_index_sampler" (IFrom "loader.DataLoader._index_sampler") ;;-
  set_self "_num_workers" (IFrom "loader.DataLoader.num_workers") ;;-
  set_self "_pin_memory" (IBool (pin_memory ld && cuda_is_available E)) ;;-
  set_self "_timeout" (IFrom "loader.DataLoader.timeout") ;;-
  set_self "_collate_fn" (IFrom "loader.DataLoader.collate_fn") ;;-
  set_self "_sampler_iter" (IFrom "iter(self._index_sampler)") ;;-
  seed <-- torch_random ;;
  set_self "_base_seed" (IInt seed) ;;-
  set_self "_num_yielded" (IInt 0) ;;-
  set_self "batch_size" (IInt (batch_size ld)) ;;-
  comm <-- on_dataset (getattr "comm") ;;
  set_self "comm" (IVal comm) ;;-
  n <-- dataset_int "load_initial" ;;
  rand_samp_list <-- torch_randperm n ;;
  partial <-- dataset_bool "partial_dataset" ;;
  (if partial then
     set_self "ready_batches" (IBatches []) ;;-
     load_len <-- dataset_int "load_len" ;;
     bs <-- self_int "batch_size" ;;
     (if (bs =? 0)%Z then jraise (ZeroDivisionError "integer division or modulo by zero")
      else jret tt) ;;-
     let mod_batch := (load_len mod bs)%Z in
     (if negb (mod_batch =? 0)%Z then
        load_len <-- dataset_int "load_len" ;;
        bs <-- self_int "batch_size" ;;
        on_dataset (setattr "load_len" (VInt (load_len + (bs - mod_batch)))) ;;-
        load_start <-- dataset_int "load_start" ;;
        load_len <-- dataset_int "load_len" ;;
        on_dataset (setattr "load_end" (VInt (load_start + load_len)))
      else jret tt) ;;-
     lcl <-- dataset_int "lcl_full_sz" ;;
     n <-- dataset_int "load_initial" ;;
     idx_repeats <-- on_dataset (math_ceil_div lcl n) ;;
     index_list <-- extend_indices (Z.to_nat idx_repeats) [] ;;
     put_convert (ConvertAll index_list) ;;-
     bs <-- self_int "batch_size" ;;
     (if (bs =? 0)%Z then jraise (ZeroDivisionError "integer division or modulo by zero")
      else jret tt) ;;-
     set_self "length" (IInt (Z.of_nat (length index_list) / bs)) ;;-
     t <-- replace_task ;;
     put_loading t
   else
     set_self "rand_samp_list" (IIndices rand_samp_list) ;;-
     set_self "length" (IInt (Z.of_nat (index_sampler_len ld)))) ;;-
  set_self "_dataset_fetcher" (IFrom "_DatasetKind.create_fetcher(...)").

(** [__len__]: the length of the iterator, [self.length]. *)
Definition __len__ : J ivalue := get_self "length".

(** The next multiple of [bs] from [load_len] on. *)
Definition round_up (load_len bs : Z) : Z :=
  if (load_len mod bs =? 0)%Z then load_len else (load_len + (bs - load_len mod bs))%Z.

End Iter.

End PartialH5DataLoaderIter.

(** A dataset object with a first portion of three rows out of a share of
    seven, loads of five rows, and its two queues. *)
Definition partial_obj : @PartialH5Dataset.obj nat :=
  PartialH5Dataset.mkObj
    (<["partial_dataset" := PartialH5Dataset.VBool true]>
       (<["comm" := PartialH5Dataset.VComm 1 0]>
          (<["load_initial" := PartialH5Dataset.VInt 3]>
             (<["load_len" := PartialH5Dataset.VInt 5]>
                (<["load_start" := PartialH5Dataset.VInt 3]>
                   (<["lcl_full_sz" := PartialH5Dataset.VInt 7]>
                      (<["convert_queue" := PartialH5Dataset.VQueue]>
                         (<["loading_queue" := PartialH5Dataset.VQueue]> ∅))))))))
    2 0.

(** The same with everything loaded. *)
Definition whole_obj : @PartialH5Dataset.obj nat :=
  PartialH5Dataset.mkObj
    (<["partial_dataset" := PartialH5Dataset.VBool false]>
       (<["comm" := PartialH5Dataset.VComm 1 0]>
          (<["load_initial" := PartialH5Dataset.VInt 3]> ∅)))
    2 0.

(** * Properties *)

(** ** The monad *)

Section MonadFacts.
Context {R : Type}.

Lemma bind_ret {A B} (a : A) (k : A → M R B) : bind (ret a) k = k a.
Proof. reflexivity. Qed.

Lemma bind_raise {A B} (e : exn) (k : A → M R B) : bind (raise e) k = raise e.
Proof. reflexivity. Qed.

Lemma bind_tick {B} (k : unit → M R B) (w : world R) :
  bind tick k w = k tt (mkWorld (heap w) (rng w) (stdout w) (S (loop_iters w))).
Proof. reflexivity. Qed.

Lemma bind_print {B} (s : string) (k : unit → M R B) (w : world R) :
  bind (py_print s) k w
  = k tt (mkWorld (heap w) (rng w) (stdout w ++ [s]) (loop_iters w)).
Proof. reflexivity. Qed.

End MonadFacts.

(** ** The array library on vectors and scalars *)

Section ArrayFacts.
Context {R : Type} {SR : Scalar R} {RT : Runtime R}.

Lemma mm_data_mv (r k : nat) (A v : list R) : mm_data r k 1 A v = mv r k A v.
Proof.
  unfold mm_data, mv. rewrite Nat.mul_1_r. apply map_ext. intros i.
  now rewrite Nat.div_1_r, Nat.mod_1_r.
Qed.

Lemma mm_data_dot (n : nat) (u v : list R) : mm_data 1 n 1 u v = [dotp n u v].
Proof. reflexivity. Qed.

Lemma matmul_mv (A v : DNDarray R) (r k : nat) :
  shape A = [r; k] → shape v = [k] →
  matmul A v
  = ret (mkDND [r] (result_split (split A) (split v)) (promote (dtype_of A) (dtype_of v))
           (mv r k (larray A) (larray v))).
Proof.
  intros HA Hv. unfold matmul. rewrite HA, Hv. cbn [mat_dims_l mat_dims_r matmul_shape].
  now rewrite Nat.eqb_refl, mm_data_mv.
Qed.

Lemma matmul_vv (u v : DNDarray R) (n : nat) :
  shape u = [n] → shape v = [n] →
  matmul u v
  = ret (mkDND [] None (promote (dtype_of u) (dtype_of v)) [dotp n (larray u) (larray v)]).
Proof.
  intros Hu Hv. unfold matmul. rewrite Hu, Hv. cbn [mat_dims_l mat_dims_r matmul_shape].
  now rewrite Nat.eqb_refl.
Qed.

Lemma binop_vv (f : R → R → R) (u v : DNDarray R) (n : nat) :
  shape u = [n] → shape v = [n] →
  binop f u v
  = ret (mkDND [n] (result_split (split u) (split v)) (promote (dtype_of u) (dtype_of v))
           (vmap2 f n (larray u) (larray v))).
Proof.
  intros Hu Hv. unfold binop. rewrite Hu, Hv.
  destruct (decide ([n] = [n])); [reflexivity | congruence].
Qed.

Lemma binop_ss (f : R → R → R) (a b : DNDarray R) :
  shape a = [] → shape b = [] →
  binop f a b
  = ret (mkDND [] None (promote (dtype_of a) (dtype_of b))
           [f (nth 0 (larray a) s_zero) (nth 0 (larray b) s_zero)]).
Proof.
  intros Ha Hb. unfold binop. rewrite Ha, Hb.
  destruct (decide (@nil nat = [])); [reflexivity | congruence].
Qed.

Lemma binop_sv (f : R → R → R) (a v : DNDarray R) (n : nat) :
  shape a = [] → shape v = [n] →
  binop f a v
  = ret (mkDND [n] (result_split (split a) (split v)) (promote (dtype_of a) (dtype_of v))
           (vscale f n (nth 0 (larray a) s_zero) (larray v))).
Proof.
  intros Ha Hv. unfold binop, ndim. rewrite Ha, Hv.
  destruct (decide ([] = [n])); [congruence | reflexivity].
Qed.

Lemma binop_vs (f : R → R → R) (v a : DNDarray R) (n : nat) :
  shape v = [n] → shape a = [] →
  binop f v a
  = ret (mkDND [n] (result_split (split v) (split a)) (promote (dtype_of v) (dtype_of a))
           (vscale_r f n (larray v) (nth 0 (larray a) s_zero))).
Proof.
  intros Hv Ha. unfold binop, ndim. rewrite Ha, Hv.
  destruct (decide ([n] = [])); [congruence |].
  cbn [numel fold_left length Nat.sub replicate app].
  destruct (Nat.eqb_spec n 1) as [->|Hn]; reflexivity.
Qed.

(** *** Lists read by position *)

Lemma nth_map_seq {A} (f : nat → A) (n i : nat) (d : A) :
  i < n → nth i (map f (seq 0 n)) d = f i.
Proof.
  intros Hi. rewrite (nth_indep _ d (f 0)) by now rewrite length_map, length_seq.
  now rewrite (map_nth f (seq 0 n) 0 i), seq_nth.
Qed.

Lemma map_nth_seq_id {A} (l : list A) (d : A) :
  map (λ k, nth k l d) (seq 0 (length l)) = l.
Proof.
  apply (nth_ext _ _ d d).
  - now rewrite length_map, length_seq.
  - intros i Hi. rewrite length_map, length_seq in Hi.
    exact (nth_map_seq (λ k, nth k l d) (length l) i d Hi).
Qed.

Lemma nth_insert_eq {A} (l : list A) (i : nat) (x d : A) :
  i < length l → nth i (<[i := x]> l) d = x.
Proof. intros Hi. now rewrite nth_lookup, list_lookup_insert_eq. Qed.

Lemma nth_insert_ne {A} (l : list A) (i j : nat) (x d : A) :
  i ≠ j → nth j (<[i := x]> l) d = nth j l d.
Proof. intros Hij. now rewrite !nth_lookup, list_lookup_insert_ne. Qed.

(** Row-major positions of a matrix with [c] columns are distinct. *)
Lemma position_inj (c r1 c1 r2 c2 : nat) :
  c1 < c → c2 < c → r1 * c + c1 = r2 * c + c2 → r1 = r2 ∧ c1 = c2.
Proof.
  intros H1 H2 H.
  assert (r1 = r2) as ->; [| lia].
  destruct (Nat.lt_trichotomy r1 r2) as [Hlt | [Heq | Hlt]]; [| exact Heq |].
  - assert (S r1 * c ≤ r2 * c) by (apply Nat.mul_le_mono_r; lia). cbn in *. lia.
  - assert (S r2 * c ≤ r1 * c) by (apply Nat.mul_le_mono_r; lia). cbn in *. lia.
Qed.

Lemma position_lt (r c i j : nat) : i < r → j < c → i * c + j < r * c.
Proof.
  intros Hi Hj.
  assert (S i * c ≤ r * c) by (apply Nat.mul_le_mono_r; lia). cbn in *. lia.
Qed.

Lemma length_vmap2 (f : R → R → R) (n : nat) (u v : list R) :
  length (vmap2 f n u v) = n.
Proof. unfold vmap2. now rewrite length_map, length_seq. Qed.

Lemma length_vscale_r (f : R → R → R) (n : nat) (v : list R) (a : R) :
  length (vscale_r f n v a) = n.
Proof. unfold vscale_r. now rewrite length_map, length_seq. Qed.

Lemma length_col_data (r c j : nat) (d : list R) : length (col_data r c j d) = r.
Proof. unfold col_data. now rewrite length_map, length_seq. Qed.

Lemma length_set_col (r c j : nat) (vals d : list R) :
  length (set_col r c j vals d) = r * c.
Proof. unfold set_col. now rewrite length_map, length_seq. Qed.

Lemma nth_set_col (r c j k j' : nat) (vals d : list R) :
  k < r → j' < c →
  nth (k * c + j') (set_col r c j vals d) s_zero
  = if Nat.eqb j' j then nth k vals s_zero else nth (k * c + j') d s_zero.
Proof.
  intros Hk Hj. unfold set_col. rewrite nth_map_seq by now apply position_lt.
  rewrite Nat.add_comm, Nat.Div0.mod_add, Nat.div_add by lia.
  rewrite Nat.mod_small, Nat.div_small by lia. reflexivity.
Qed.

(** The column written holds the vector, the others are as before. *)
Lemma col_data_set_col_eq (r c j : nat) (vals d : list R) :
  j < c → length vals = r → col_data r c j (set_col r c j vals d) = vals.
Proof.
  intros Hj Hl. unfold col_data.
  transitivity (map (λ k, nth k vals s_zero) (seq 0 r));
    [| subst r; apply map_nth_seq_id].
  apply map_ext_in. intros k Hk. apply in_seq in Hk.
  rewrite nth_set_col by lia. now rewrite Nat.eqb_refl.
Qed.

Lemma col_data_set_col_ne (r c j j' : nat) (vals d : list R) :
  j' < c → j' ≠ j → col_data r c j' (set_col r c j vals d) = col_data r c j' d.
Proof.
  intros Hj Hne. unfold col_data. apply map_ext_in. intros k Hk. apply in_seq in Hk.
  rewrite nth_set_col by lia. apply Nat.eqb_neq in Hne. now rewrite Hne.
Qed.

(** *** Constructors and indexed access *)

Lemma full_2d (v : R) (n : nat) (z : Z) (sp : option nat) (dt : dtype) :
  (0 ≤ z)%Z → sp = None ∨ sp = Some 0 →
  full v [PyInt (Z.of_nat n); PyInt z] sp dt
  = ret (mkDND [n; Z.to_nat z] sp dt (replicate (n * Z.to_nat z) v)).
Proof.
  intros Hz Hsp. unfold full. cbn [sanitize_shape dim_of].
  destruct (Z.ltb_spec (Z.of_nat n) 0) as [?|_]; [lia |].
  destruct (Z.ltb_spec z 0) as [?|_]; [lia |].
  rewrite !bind_ret, Nat2Z.id. destruct Hsp as [-> | ->]; reflexivity.
Qed.

Lemma full_square (v : R) (z : Z) (dt : dtype) :
  (0 ≤ z)%Z →
  full v [PyInt z; PyInt z] None dt
  = ret (mkDND [Z.to_nat z; Z.to_nat z] None dt
           (replicate (Z.to_nat z * Z.to_nat z) v)).
Proof.
  intros Hz. unfold full. cbn [sanitize_shape dim_of].
  destruct (Z.ltb_spec z 0) as [?|_]; [lia |]. reflexivity.
Qed.

Lemma rand_vector (n : nat) (sp : option nat) (dt : dtype) (w : world R) :
  sp = None ∨ sp = Some 0 →
  rand n sp dt w
  = (mkWorld (heap w) (S (rng w)) (stdout w) (loop_iters w),
     inr (mkDND [n] sp dt (map (rand_at (rng w)) (seq 0 n)))).
Proof. intros [-> | ->]; reflexivity. Qed.

Lemma norm_vector (v : DNDarray R) (n : nat) :
  shape v = [n] →
  norm v = ret (mkDND [] None (dtype_of v) [s_sqrt (dotp n (larray v) (larray v))]).
Proof. intros Hv. unfold norm. now rewrite Hv. Qed.

Lemma promote_same (d : dtype) : promote d d = d.
Proof. now destruct d. Qed.

Lemma convert_same (d : dtype) (x : R) : convert d d x = x.
Proof. unfold convert. destruct (decide (d = d)); [reflexivity | contradiction]. Qed.

Lemma map_convert_same (d : dtype) (l : list R) : map (convert d d) l = l.
Proof.
  induction l as [| x l IH]; [reflexivity |]. cbn [map]. now rewrite convert_same, IH.
Qed.

Lemma dot_vv (u v : DNDarray R) (n : nat) :
  shape u = [n] → shape v = [n] → dtype_of u = dtype_of v →
  dot u v = ret (mkDND [] None (dtype_of u) [dotp n (larray u) (larray v)]).
Proof.
  intros Hu Hv Hd. unfold dot. rewrite Hu, Hv, Nat.eqb_refl.
  now rewrite (bool_decide_eq_true_2 _ Hd).
Qed.


Lemma setitem2_in (T val : DNDarray R) (r c i j : nat) (v : R) :
  shape T = [r; c] → i < r → j < c → larray val = [v] →
  setitem2 T i j val
  = ret (mkDND [r; c] (split T) (dtype_of T)
           (<[i * c + j := convert (dtype_of val) (dtype_of T) v]> (larray T))).
Proof.
  intros HT Hi Hj Hv. unfold setitem2, item. rewrite HT, Hv.
  apply Nat.ltb_lt in Hi, Hj. now rewrite Hi, Hj.
Qed.

Lemma setcol_in (V val : DNDarray R) (r c j : nat) :
  shape V = [r; c] → j < c → shape val = [r] →
  setcol V j val
  = ret (mkDND [r; c] (split V) (dtype_of V)
           (set_col r c j (map (convert (dtype_of val) (dtype_of V)) (larray val))
              (larray V))).
Proof.
  intros HV Hj Hv. unfold setcol. rewrite HV, Hv. apply Nat.ltb_lt in Hj. rewrite Hj.
  destruct (decide ([r] = [r])); [reflexivity | congruence].
Qed.

Lemma getcol_in (V : DNDarray R) (r c j : nat) :
  shape V = [r; c] → j < c →
  getcol V j
  = ret (mkDND [r] (match split V with Some 0 => Some 0 | _ => None end)
           (dtype_of V) (col_data r c j (larray V))).
Proof. intros HV Hj. unfold getcol. rewrite HV. apply Nat.ltb_lt in Hj. now rewrite Hj. Qed.

(** With one process the local tile is the array. *)
Lemma chunk_single (n : nat) : comm_size = 1 → chunk n = n.
Proof. intros Hp. unfold chunk. now rewrite Hp. Qed.

Lemma local_vector_single (a : DNDarray R) :
  comm_size = 1 → local_vector a = mkTensor (dtype_of a) (larray a).
Proof.
  intros Hp. unfold local_vector. destruct (split a); [| reflexivity].
  now rewrite chunk_single, firstn_all by exact Hp.
Qed.

Lemma torch_col_in (V : DNDarray R) (r c j : nat) :
  comm_size = 1 → shape V = [r; c] → j < c → split V = None ∨ split V = Some 0 →
  torch_col V j = ret (mkTensor (dtype_of V) (col_data r c j (larray V))).
Proof.
  intros Hp HV Hj Hsp. unfold torch_col. rewrite HV. apply Nat.ltb_lt in Hj. rewrite Hj.
  destruct Hsp as [-> | ->]; [reflexivity |].
  rewrite chunk_single by exact Hp.
  rewrite <- (length_col_data r c j (larray V)) at 1. now rewrite firstn_all.
Qed.

Lemma torch_dot_in (u v : tensor) (n : nat) :
  t_dtype u = t_dtype v → length (t_data u) = n → length (t_data v) = n →
  torch_dot u v = ret (dotp n (t_data u) (t_data v)).
Proof.
  intros Hd Hu Hv. unfold torch_dot.
  now rewrite (bool_decide_eq_true_2 _ Hd), Hu, Hv, Nat.eqb_refl.
Qed.

Lemma allreduce_single (a : R) : comm_size = 1 → allreduce_sum a = ret a.
Proof. intros Hp. unfold allreduce_sum. now rewrite Hp. Qed.

(** *** The tridiagonal matrix *)

Lemma nth_snoc {A} (l : list A) (x d : A) (k : nat) :
  nth k (l ++ [x]) d
  = if Nat.eqb k (length l) then x else nth k l d.
Proof.
  destruct (Nat.eqb_spec k (length l)) as [-> | Hne].
  - now rewrite app_nth2, Nat.sub_diag by lia.
  - destruct (Nat.lt_ge_cases k (length l)).
    + now rewrite app_nth1.
    + rewrite !nth_overflow; [reflexivity | lia | rewrite length_app; cbn; lia].
Qed.

Lemma nth_insert_position (m r c i j : nat) (d : list R) (x : R) :
  r < m → c < m → i < m → j < m → length d = m * m →
  nth (r * m + c) (<[i * m + j := x]> d) s_zero
  = if Nat.eqb r i && Nat.eqb c j then x else nth (r * m + c) d s_zero.
Proof.
  intros Hr Hc Hi Hj Hd.
  destruct (Nat.eqb_spec r i) as [-> | Hri]; cbn [andb].
  - destruct (Nat.eqb_spec c j) as [-> | Hcj].
    + apply nth_insert_eq. rewrite Hd. now apply position_lt.
    + apply nth_insert_ne. intros H. apply position_inj in H; lia.
  - apply nth_insert_ne. intros H. apply position_inj in H; lia.
Qed.

(** Writing [beta] at [(i-1, i)] and [(i, i-1)] and [alpha] at [(i, i)]
    extends the tridiagonal matrix by one coefficient of each kind. *)
Lemma tri_entry_extend (m i : nat) (alphas betas d : list R) (a b : R) :
  1 ≤ i → i < m → length d = m * m →
  length alphas = i → length betas = i - 1 →
  (∀ r c, r < m → c < m → nth (r * m + c) d s_zero = tri_entry alphas betas r c) →
  ∀ r c, r < m → c < m →
    nth (r * m + c)
        (<[i * m + i := a]> (<[i * m + (i - 1) := b]> (<[(i - 1) * m + i := b]> d)))
        s_zero
    = tri_entry (alphas ++ [a]) (betas ++ [b]) r c.
Proof.
  intros Hi Him Hd Ha Hb Hold r c Hr Hc.
  rewrite !nth_insert_position, Hold by (rewrite ?length_insert; lia).
  unfold tri_entry. rewrite !nth_snoc, Ha, Hb.
  repeat match goal with
         | |- context [Nat.eqb ?x ?y] => destruct (Nat.eqb_spec x y)
         end; cbn [andb]; try reflexivity; try lia.
Qed.

End ArrayFacts.

(** Rewrites the call at the head of a sequence with the equation [L] of
    the operation, its shape conditions closed by the context. *)
Tactic Notation "array_step" uconstr(L) :=
  erewrite L by (first [eassumption | reflexivity | lia]); rewrite bind_ret.

(** ** Conjugate gradients *)

Section CGFacts.
Context {R : Type} {SR : Scalar R} {RT : Runtime R}.

(** One pass of the loop, from arrays that hold [st]. *)
Lemma cg_loop_step (n fuel i : nat) (A x r p rsold : DNDarray R)
    (st : cg_state) (w : world R) :
  shape A = [n; n] → cg_repr n st x r p rsold →
  ∃ x' r' p' rs',
    cg_repr n (cg_next n (larray A) st) x' r' p' rs' ∧
    cg_loop (S fuel) i A x r p rsold w
    = if cg_converged n (larray A) st
      then (mkWorld (heap w) (rng w) (stdout w ++ [cg_message i]) (S (loop_iters w)),
            inr x')
      else cg_loop fuel (S i) A x' r' p' rs'
             (mkWorld (heap w) (rng w) (stdout w) (S (loop_iters w))).
Proof.
  intros HA [[Hx Dx] [[Hr Dr] [[Hp Dp] [Hs Ds]]]].
  cbn [cg_loop]. rewrite bind_tick.
  unfold div, mul, add, sub.
  array_step (matmul_mv _ _ n n).
  array_step (matmul_vv _ _ n).
  array_step (binop_ss s_div).
  array_step (binop_sv s_mul _ _ n).
  array_step (binop_vv s_add _ _ n).
  array_step (binop_sv s_mul _ _ n).
  array_step (binop_vv s_sub _ _ n).
  array_step (matmul_vv _ _ n).
  unfold sqrt. rewrite bind_ret. cbn [item larray map]. rewrite bind_ret.
  array_step (binop_ss s_div).
  array_step (binop_sv s_mul _ _ n).
  array_step (binop_vv s_add _ _ n).
  cbn [larray nth]. rewrite Dx, Dr, Dp, Ds. cbn [nth].
  do 4 eexists. split; [| unfold cg_converged, cg_rs_new, cg_update; cbn [snd fst];
    match goal with |- context [if ?c then _ else _] => destruct c end;
    [rewrite bind_print | ]; reflexivity ].
  unfold cg_repr, cg_next, cg_update. cbn [cg_x cg_r cg_p cg_rs shape larray].
  repeat split; reflexivity.
Qed.

(** The loop from arrays that hold [st]: it returns, after [k <= fuel]
    passes; either pass [j = k - 1] is the first that converges and the
    result is the [x] of that pass, or no pass converges and the result is
    the [x] after [fuel] passes. *)
Lemma cg_loop_run (n : nat) (A : DNDarray R) (HA : shape A = [n; n]) :
  ∀ (fuel i : nat) (x r p rsold : DNDarray R) (st : cg_state) (w : world R),
    cg_repr n st x r p rsold →
    ∃ w' xres k,
      cg_loop fuel i A x r p rsold w = (w', inr xres) ∧
      shape xres = [n] ∧ heap w' = heap w ∧ rng w' = rng w ∧
      loop_iters w' = loop_iters w + k ∧ k ≤ fuel ∧
      ((∃ j, k = S j ∧
             cg_converged n (larray A) (Nat.iter j (cg_next n (larray A)) st) = true ∧
             (∀ j', j' < j →
                cg_converged n (larray A) (Nat.iter j' (cg_next n (larray A)) st) = false) ∧
             larray xres = cg_new_x n (larray A) (Nat.iter j (cg_next n (larray A)) st) ∧
             stdout w' = stdout w ++ [cg_message (i + j)])
       ∨ (k = fuel ∧
          (∀ j, j < fuel →
             cg_converged n (larray A) (Nat.iter j (cg_next n (larray A)) st) = false) ∧
          larray xres = cg_x (Nat.iter fuel (cg_next n (larray A)) st) ∧
          stdout w' = stdout w)).
Proof.
  induction fuel as [|fuel IH]; intros i x r p rsold st w Hrep.
  - exists w, x, 0. destruct Hrep as [[Hx Dx] _].
    repeat split; auto with arith. right. repeat split; auto. intros j Hj; lia.
  - destruct (cg_loop_step n fuel i A x r p rsold st w HA Hrep)
      as (x' & r' & p' & rs' & Hrep' & Heq).
    rewrite Heq. destruct (cg_converged n (larray A) st) eqn:Hc.
    + eexists _, x', 1. destruct Hrep' as [[Hx' Dx'] _].
      repeat split; cbn [heap rng stdout loop_iters]; auto with arith; try lia.
      left. exists 0. cbn [Nat.iter nat_rect]. rewrite Nat.add_0_r.
      repeat split; auto; try (intros; lia).
    + destruct (IH (S i) x' r' p' rs' (cg_next n (larray A) st)
                  (mkWorld (heap w) (rng w) (stdout w) (S (loop_iters w))) Hrep')
        as (w' & xres & k & Hrun & Hsh & Hh & Hg & Hit & Hk & Hcase).
      exists w', xres, (S k). cbn [heap rng stdout loop_iters] in *.
      repeat split; auto; try lia.
      destruct Hcase as [(j & -> & Hcj & Hbefore & Hxj & Hout) | (-> & Hall & Hxn & Hout)].
      * left. exists (S j). rewrite !Nat.iter_succ_r.
        repeat split; auto.
        -- intros [|j'] Hj'; [exact Hc | rewrite Nat.iter_succ_r; apply Hbefore; lia].
        -- replace (i + S j) with (S i + j) by lia. exact Hout.
      * right. rewrite Nat.iter_succ_r. repeat split; auto.
        intros [|j] Hj; [exact Hc | rewrite Nat.iter_succ_r; apply Hall; lia].
Qed.

(** C1.  A call of [cg] on a square [n × n] matrix and vectors [b], [x0] of
    length [n] returns an array and raises nothing, after [k <= len(b)]
    passes of its loop.  Either pass [j = k - 1] is the first with
    [sqrt(rs_new) < 1e-10]: the call stops there, prints the convergence
    line and returns the [x] of that pass.  Or no pass among the [len(b)]
    reaches the tolerance: the call returns the [x] of the last pass, the
    same kind of result, and prints nothing. *)
Theorem cg_at_most_len_b_passes (A b x0 : DNDarray R) (n : nat)
    (out : option loc) (w : world R) :
  shape A = [n; n] → shape b = [n] → shape x0 = [n] →
  ∃ (w' : world R) (x : DNDarray R) (k : nat),
    cg (PyDND A) (PyDND b) (PyDND x0) out w = (w', inr x) ∧
    loop_iters w' = loop_iters w + k ∧ k ≤ len b ∧
    ((∃ j, k = S j ∧
           cg_converged n (larray A) (cg_at n (larray A) (larray b) (larray x0) j) = true ∧
           (∀ j', j' < j →
              cg_converged n (larray A) (cg_at n (larray A) (larray b) (larray x0) j')
              = false) ∧
           larray x = cg_new_x n (larray A) (cg_at n (larray A) (larray b) (larray x0) j) ∧
           stdout w' = stdout w ++ [cg_message j])
     ∨ (k = len b ∧
        (∀ j, j < len b →
           cg_converged n (larray A) (cg_at n (larray A) (larray b) (larray x0) j)
           = false) ∧
        larray x = cg_x (cg_at n (larray A) (larray b) (larray x0) (len b)) ∧
        stdout w' = stdout w)).
Proof.
  intros HA Hb Hx. unfold cg, ndim, len. rewrite HA, Hb, Hx.
  cbn [length Nat.eqb negb hd]. unfold sub.
  array_step (matmul_mv _ _ n n).
  array_step (binop_vv s_sub _ _ n).
  array_step (matmul_vv _ _ n).
  cbn [larray].
  match goal with
  | |- context [cg_loop n 0 A x0 ?r ?p ?rs] =>
      destruct (cg_loop_run n A HA n 0 x0 r p rs
                  (cg_init n (larray A) (larray b) (larray x0)) w)
        as (w' & x & k & Hrun & _ & _ & _ & Hit & Hk & Hcase)
  end.
  { unfold cg_repr, cg_init. cbn [cg_x cg_r cg_p cg_rs shape larray]. auto. }
  exists w', x, k. unfold bind. rewrite Hrun.
  split; [| split; [exact Hit | split; [exact Hk |]]].
  { destruct out as [l|]; cbn; [destruct (heap w' l) |]; reflexivity. }
  exact Hcase.
Qed.

(** C7.  [cg] raises [TypeError] as soon as one of [A], [b], [x0] is not a
    [DNDarray]; with three arrays it raises its dimension error, a
    [RuntimeError], when [A] is not 2-D, else when [b] is not 1-D, else when
    [x0] is not 1-D.  In each case the world is the one of the call: no pass
    of the loop has run, nothing is printed, no object is touched. *)
Theorem cg_rejects_bad_arguments (A b x0 : pyobj R) (out : option loc) (w : world R) :
  (isinstance_DNDarray A && isinstance_DNDarray b && isinstance_DNDarray x0 = false →
   cg A b x0 out w
   = (w, inl (TypeError ("A, b and x0 need to be of type ht.DNDarray, but were "
                         +:+ type_repr A +:+ ", " +:+ type_repr b +:+ ", "
                         +:+ type_repr x0)))) ∧
  (∀ dA db dx : DNDarray R,
     A = PyDND dA → b = PyDND db → x0 = PyDND dx →
     (ndim dA ≠ 2 →
      cg A b x0 out w = (w, inl (RuntimeError "A needs to be a 2D matrix"))) ∧
     (ndim dA = 2 → ndim db ≠ 1 →
      cg A b x0 out w = (w, inl (RuntimeError "b needs to be a 1D vector"))) ∧
     (ndim dA = 2 → ndim db = 1 → ndim dx ≠ 1 →
      cg A b x0 out w = (w, inl (RuntimeError "c needs to be a 1D vector")))).
Proof.
  split.
  - destruct A, b, x0; cbn; intros H; try discriminate H; reflexivity.
  - intros dA db dx -> -> ->. unfold cg. repeat split.
    + intros HA. apply Nat.eqb_neq in HA. now rewrite HA.
    + intros HA Hb. apply Nat.eqb_neq in Hb. rewrite HA. cbn [Nat.eqb negb].
      now rewrite Hb.
    + intros HA Hb Hx. apply Nat.eqb_neq in Hx. rewrite HA, Hb. cbn [Nat.eqb negb].
      now rewrite Hx.
Qed.

End CGFacts.

(** ** Objects of the caller *)

Section HeapFacts.
Context {R : Type} {SR : Scalar R} {RT : Runtime R}.

Lemma heap_stable_ret {A} (a : A) : heap_stable (@ret R A a).
Proof. intros w l. reflexivity. Qed.

Lemma heap_stable_raise {A} (e : exn) : heap_stable (@raise R A e).
Proof. intros w l. reflexivity. Qed.

Lemma heap_stable_bind {A B} (c : M R A) (k : A → M R B) :
  heap_stable c → (∀ a, heap_stable (k a)) → heap_stable (bind c k).
Proof.
  intros Hc Hk w l. unfold bind. specialize (Hc w l).
  destruct (c w) as [w1 [e | a]]; cbn [fst] in *; [exact Hc |].
  now rewrite Hk.
Qed.

Lemma heap_stable_weaken {A} (l0 : loc) (c : M R A) :
  heap_stable c → heap_stable_except l0 c.
Proof. intros Hc w l _. apply Hc. Qed.

Lemma heap_stable_except_bind {A B} (l0 : loc) (c : M R A) (k : A → M R B) :
  heap_stable_except l0 c → (∀ a, heap_stable_except l0 (k a)) →
  heap_stable_except l0 (bind c k).
Proof.
  intros Hc Hk w l Hl. unfold bind. specialize (Hc w l Hl).
  destruct (c w) as [w1 [e | a]]; cbn [fst] in *; [exact Hc |].
  now rewrite Hk.
Qed.

(** Closes [heap_stable c] for an operation [c] that is a case analysis
    ending in [ret], [raise] or a change of another field of the world. *)
Ltac heap_cases :=
  intros ? ?;
  repeat match goal with
         | |- context [match ?x with _ => _ end] => destruct x
         end;
  reflexivity.

Lemma heap_stable_tick : heap_stable (@tick R).
Proof. intros w l. reflexivity. Qed.

Lemma heap_stable_print (s : string) : heap_stable (@py_print R s).
Proof. intros w l. reflexivity. Qed.

Lemma heap_stable_deref (l0 : loc) : heap_stable (@deref R l0).
Proof. intros w l. reflexivity. Qed.

Lemma heap_stable_arg_value (a : option loc) : heap_stable (@arg_value R a).
Proof. destruct a; intros w l'; reflexivity. Qed.

Lemma heap_stable_arg_is_none (a : option loc) : heap_stable (@arg_is_none R a).
Proof. destruct a; intros w l'; reflexivity. Qed.

Lemma heap_stable_matmul (a b : DNDarray R) : heap_stable (matmul a b).
Proof. unfold matmul. heap_cases. Qed.

Lemma heap_stable_binop (f : R → R → R) (a b : DNDarray R) : heap_stable (binop f a b).
Proof. unfold binop. heap_cases. Qed.

Lemma heap_stable_sqrt (a : DNDarray R) : heap_stable (sqrt a).
Proof. intros w l. reflexivity. Qed.

Lemma heap_stable_abs (a : DNDarray R) : heap_stable (abs a).
Proof. intros w l. reflexivity. Qed.

Lemma heap_stable_item (a : DNDarray R) : heap_stable (item a).
Proof. unfold item. heap_cases. Qed.

Lemma heap_stable_norm (a : DNDarray R) : heap_stable (norm a).
Proof. intros w l. reflexivity. Qed.

Lemma heap_stable_dot (a b : DNDarray R) : heap_stable (dot a b).
Proof. unfold dot. heap_cases. Qed.

Lemma heap_stable_dim_of (o : pyobj R) : heap_stable (dim_of o).
Proof. unfold dim_of. heap_cases. Qed.

Lemma heap_stable_sanitize_axis (sh : list nat) (ax : option nat) :
  heap_stable (@sanitize_axis R sh ax).
Proof. unfold sanitize_axis. heap_cases. Qed.

Lemma heap_stable_rand (n : nat) (sp : option nat) (dt : dtype) :
  heap_stable (rand n sp dt).
Proof.
  unfold rand. intros w l. unfold bind, sanitize_axis.
  destruct sp as [k|]; [destruct (k <? length [n]) |]; reflexivity.
Qed.

Lemma heap_stable_torch_col (V : DNDarray R) (j : nat) : heap_stable (torch_col V j).
Proof. unfold torch_col. heap_cases. Qed.

Lemma heap_stable_torch_dot (u v : tensor) : heap_stable (torch_dot u v).
Proof. unfold torch_dot. heap_cases. Qed.

Lemma heap_stable_allreduce_sum (a : R) : heap_stable (allreduce_sum a).
Proof. unfold allreduce_sum. heap_cases. Qed.

Lemma heap_stable_getcol (V : DNDarray R) (j : nat) : heap_stable (getcol V j).
Proof. unfold getcol. heap_cases. Qed.

Lemma heap_stable_int_of (m : pyobj R) : heap_stable (int_of m).
Proof. unfold int_of. heap_cases. Qed.

End HeapFacts.

Create HintDb heap_db.

#[export] Hint Resolve heap_stable_ret heap_stable_raise heap_stable_tick
  heap_stable_print heap_stable_deref heap_stable_arg_value heap_stable_arg_is_none
  heap_stable_matmul heap_stable_binop heap_stable_sqrt heap_stable_abs
  heap_stable_item heap_stable_norm heap_stable_dot heap_stable_dim_of
  heap_stable_sanitize_axis heap_stable_rand heap_stable_torch_col
  heap_stable_torch_dot heap_stable_allreduce_sum heap_stable_getcol
  heap_stable_int_of : heap_db.

(** Splits [heap_stable] of a sequence into its calls. *)
Ltac heap_seq :=
  repeat first
    [ solve [auto with heap_db]
    | apply heap_stable_bind; [| intros ?]
    | match goal with
      | |- heap_stable (if ?b then _ else _) => destruct b
      | |- heap_stable (match ?x with _ => _ end) => destruct x
      end ];
  auto with heap_db.

Section HeapFactsSolvers.
Context {R : Type} {SR : Scalar R} {RT : Runtime R}.

Lemma heap_stable_sanitize_shape (dims : list (pyobj R)) :
  heap_stable (sanitize_shape dims).
Proof. induction dims as [|d ds IH]; cbn [sanitize_shape]; heap_seq. Qed.

Lemma heap_stable_full (v : R) (dims : list (pyobj R)) (sp : option nat) (dt : dtype) :
  heap_stable (full v dims sp dt).
Proof. unfold full. pose proof (heap_stable_sanitize_shape dims). heap_seq. Qed.

Lemma heap_stable_setitem2 (T : DNDarray R) (i j : nat) (val : DNDarray R) :
  heap_stable (setitem2 T i j val).
Proof. unfold setitem2. heap_seq. Qed.

Lemma heap_stable_setcol (V : DNDarray R) (j : nat) (val : DNDarray R) :
  heap_stable (setcol V j val).
Proof. unfold setcol. heap_seq. Qed.

Lemma heap_stable_orthogonalize (fuel j : nat) (V : DNDarray R) (vr : tensor) :
  heap_stable (orthogonalize fuel j V vr).
Proof.
  revert j vr. induction fuel as [|fuel IH]; intros j vr; cbn [orthogonalize]; heap_seq.
Qed.

Lemma heap_stable_lanczos_body (i : nat) (A : DNDarray R) (n : nat) (V w : DNDarray R) :
  heap_stable (lanczos_body i A n V w).
Proof.
  unfold lanczos_body, div, mul, sub.
  pose proof heap_stable_orthogonalize. heap_seq.
Qed.

Lemma heap_stable_lanczos_loop (fuel i : nat) (A : DNDarray R) (n : nat)
    (V T w : DNDarray R) :
  heap_stable (lanczos_loop fuel i A n V T w).
Proof.
  revert i V T w. induction fuel as [|fuel IH]; intros i V T w; cbn [lanczos_loop].
  - heap_seq.
  - pose proof heap_stable_lanczos_body. pose proof heap_stable_setitem2.
    pose proof heap_stable_setcol. heap_seq.
Qed.

Lemma heap_stable_cg_loop (fuel i : nat) (A x r p rsold : DNDarray R) :
  heap_stable (cg_loop fuel i A x r p rsold).
Proof.
  revert i x r p rsold. induction fuel as [|fuel IH]; intros i x r p rsold;
    cbn [cg_loop]; unfold div, mul, add, sub; heap_seq.
Qed.

(** [cg] leaves every object of the caller as it is. *)
Lemma heap_stable_cg (A b x0 : pyobj R) (out : option loc) :
  heap_stable (cg A b x0 out).
Proof.
  unfold cg, sub. pose proof heap_stable_cg_loop. heap_seq.
Qed.

(** What follows the choice of the starting vector in [lanczos]: lines
    124-184. *)
Lemma heap_stable_resplit_ (l0 : loc) (axis : option nat) :
  heap_stable_except l0 (@resplit_ R l0 axis).
Proof.
  intros w l Hl. unfold resplit_, bind, deref, store, sanitize_axis, ret, raise.
  destruct (heap w l0); try reflexivity.
  destruct axis as [k|]; [destruct (k <? length (shape d)) |]; cbn [fst heap];
    try reflexivity; apply Nat.eqb_neq in Hl; now rewrite Hl.
Qed.

Lemma heap_stable_lanczos_start (n : nat) (V : DNDarray R) (v0 : option loc) :
  match v0 with
  | None => heap_stable (lanczos_start n V v0)
  | Some l0 => heap_stable_except l0 (lanczos_start n V v0)
  end.
Proof.
  destruct v0 as [l0|].
  - unfold lanczos_start, div.
    apply heap_stable_except_bind; [apply heap_stable_weaken; auto with heap_db |].
    intros o. destruct o; try solve [apply heap_stable_weaken; heap_seq].
    destruct (decide (split d = split V)); [apply heap_stable_weaken; heap_seq |].
    apply heap_stable_except_bind; [apply heap_stable_resplit_ |].
    intros _. apply heap_stable_weaken. heap_seq.
  - unfold lanczos_start, div. cbn [arg_value]. rewrite bind_ret. heap_seq.
Qed.

End HeapFactsSolvers.

#[export] Hint Resolve heap_stable_full heap_stable_setitem2 heap_stable_setcol
  heap_stable_orthogonalize heap_stable_lanczos_body heap_stable_lanczos_loop
  heap_stable_cg_loop heap_stable_cg : heap_db.

(** ** Exceptions that a call cannot end with *)

Section ExceptionFacts.
Context {R : Type} {SR : Scalar R} {RT : Runtime R}.

Lemma never_raises_ret {A} (e : exn) (a : A) : never_raises e (@ret R A a).
Proof. intros w. discriminate. Qed.



(** Closes [never_raises symmetry_error c] for an operation [c] that is a
    case analysis ending in [ret], a change of the world, or [raise] of
    another exception. *)
Ltac exn_cases :=
  intros ?; unfold symmetry_error;
  repeat match goal with
         | |- context [match ?x with _ => _ end] => destruct x
         end;
  cbn; discriminate.

Lemma symmetry_free_tick : never_raises symmetry_error (@tick R).
Proof. intros w. discriminate. Qed.

Lemma symmetry_free_deref (l0 : loc) : never_raises symmetry_error (@deref R l0).
Proof. intros w. discriminate. Qed.

Lemma symmetry_free_store (l0 : loc) (o : pyobj R) :
  never_raises symmetry_error (store l0 o).
Proof. intros w. discriminate. Qed.

Lemma symmetry_free_arg_value (a : option loc) :
  never_raises symmetry_error (@arg_value R a).
Proof. destruct a; intros w; discriminate. Qed.

Lemma symmetry_free_arg_is_none (a : option loc) :
  never_raises symmetry_error (@arg_is_none R a).
Proof. destruct a; intros w; discriminate. Qed.

Lemma symmetry_free_matmul (a b : DNDarray R) : never_raises symmetry_error (matmul a b).
Proof. unfold matmul. exn_cases. Qed.

Lemma symmetry_free_binop (f : R → R → R) (a b : DNDarray R) :
  never_raises symmetry_error (binop f a b).
Proof. unfold binop. exn_cases. Qed.

Lemma symmetry_free_abs (a : DNDarray R) : never_raises symmetry_error (abs a).
Proof. intros w. discriminate. Qed.

Lemma symmetry_free_item (a : DNDarray R) : never_raises symmetry_error (item a).
Proof. unfold item. exn_cases. Qed.

Lemma symmetry_free_norm (a : DNDarray R) : never_raises symmetry_error (norm a).
Proof. intros w. discriminate. Qed.

Lemma symmetry_free_dot (a b : DNDarray R) : never_raises symmetry_error (dot a b).
Proof. unfold dot. exn_cases. Qed.

Lemma symmetry_free_dim_of (o : pyobj R) : never_raises symmetry_error (dim_of o).
Proof. unfold dim_of. exn_cases. Qed.

Lemma symmetry_free_sanitize_axis (sh : list nat) (ax : option nat) :
  never_raises symmetry_error (@sanitize_axis R sh ax).
Proof. unfold sanitize_axis. exn_cases. Qed.

Lemma symmetry_free_torch_col (V : DNDarray R) (j : nat) :
  never_raises symmetry_error (torch_col V j).
Proof. unfold torch_col. exn_cases. Qed.

Lemma symmetry_free_torch_dot (u v : tensor) : never_raises symmetry_error (torch_dot u v).
Proof. unfold torch_dot. exn_cases. Qed.

Lemma symmetry_free_allreduce_sum (a : R) : never_raises symmetry_error (allreduce_sum a).
Proof. unfold allreduce_sum. exn_cases. Qed.

Lemma symmetry_free_getcol (V : DNDarray R) (j : nat) :
  never_raises symmetry_error (getcol V j).
Proof. unfold getcol. exn_cases. Qed.

Lemma symmetry_free_int_of (m : pyobj R) : never_raises symmetry_error (int_of m).
Proof. unfold int_of. exn_cases. Qed.

End ExceptionFacts.

Create HintDb exn_db.

#[export] Hint Resolve never_raises_ret symmetry_free_tick symmetry_free_deref
  symmetry_free_store symmetry_free_arg_value symmetry_free_arg_is_none
  symmetry_free_matmul symmetry_free_binop symmetry_free_abs symmetry_free_item
  symmetry_free_norm symmetry_free_dot symmetry_free_dim_of
  symmetry_free_sanitize_axis symmetry_free_torch_col symmetry_free_torch_dot
  symmetry_free_allreduce_sum symmetry_free_getcol symmetry_free_int_of : exn_db.


Section ExceptionFactsSolvers.
Context {R : Type} {SR : Scalar R} {RT : Runtime R}.













End ExceptionFactsSolvers.

(** ** Lanczos *)

Section LanczosFacts.
Context {R : Type} {SR : Scalar R} {RT : Runtime R}.

Lemma bind_assoc {A B C} (c : M R A) (f : A → M R B) (g : B → M R C) (w : world R) :
  bind (bind c f) g w = bind c (λ a, bind (f a) g) w.
Proof. unfold bind. destruct (c w) as [w' [e | a]]; reflexivity. Qed.

Lemma bind_rand {B} (n : nat) (sp : option nat) (dt : dtype)
    (k : DNDarray R → M R B) (w : world R) :
  sp = None ∨ sp = Some 0 →
  bind (rand n sp dt) k w
  = k (mkDND [n] sp dt (map (rand_at (rng w)) (seq 0 n)))
      (mkWorld (heap w) (S (rng w)) (stdout w) (loop_iters w)).
Proof. intros Hsp. unfold bind. now rewrite rand_vector. Qed.

(** With one process and a candidate of the dtype of [V], the inner loop
    over the columns [j .. j + fuel - 1] of [V] is Gram-Schmidt against the
    corresponding basis vectors. *)
Lemma orthogonalize_gram_schmidt (n m i : nat) (st : krylov) (V : DNDarray R) :
  comm_size = 1 → basis_repr n m i st V → i ≤ m →
  ∀ (fuel j : nat) (vr : list R),
    j + fuel ≤ i → length vr = n →
    orthogonalize fuel j V (mkTensor (dtype_of V) vr)
    = ret (mkTensor (dtype_of V)
             (gram_schmidt n (firstn fuel (skipn j (kr_basis st))) vr)).
Proof.
  intros Hp (HV & _ & HS & Hlen & Hcols) Him.
  induction fuel as [|fuel IH]; intros j vr Hj Hvr; [reflexivity |].
  cbn [orthogonalize].
  rewrite (torch_col_in _ n m) by (first [assumption | lia]). rewrite bind_ret.
  rewrite (torch_dot_in _ _ n)
    by (first [reflexivity | assumption | apply length_col_data]).
  rewrite bind_ret.
  rewrite (torch_dot_in _ _ n) by (first [reflexivity | apply length_col_data]).
  rewrite bind_ret, !allreduce_single, !bind_ret by exact Hp.
  cbn [t_dtype t_data].
  rewrite IH by (first [lia | now rewrite length_vmap2]).
  rewrite Hvr, length_col_data, Hcols by lia.
  assert (Hdrop : skipn j (kr_basis st)
                  = nth j (kr_basis st) [] :: skipn (S j) (kr_basis st)).
  { apply drop_S. destruct (nth_lookup_or_length (kr_basis st) j []); [assumption | lia]. }
  rewrite Hdrop. reflexivity.
Qed.

(** With one process, a basis and a residual of the dtype of [A]: one pass of
    [lanczos] computes the next Krylov state, in that dtype. *)
Lemma lanczos_body_next (n m i : nat) (A V w : DNDarray R) (st : krylov) (w0 : world R) :
  comm_size = 1 → shape A = [n; n] → 1 ≤ i → i < m →
  dtype_of V = dtype_of A → dtype_of w = dtype_of A →
  basis_repr n m i st V → residual_repr n st w → rng w0 = kr_rng st →
  ∃ ps : lanczos_pass,
    lanczos_body i A n V w w0
    = (mkWorld (heap w0) (kr_rng (krylov_next n (larray A) st)) (stdout w0)
               (loop_iters w0), inr ps) ∧
    (larray (pass_beta ps) = [krylov_beta n st] ∧
     dtype_of (pass_beta ps) = dtype_of A) ∧
    kr_betas (krylov_next n (larray A) st) = kr_betas st ++ [krylov_beta n st] ∧
    (∃ a v, larray (pass_alpha ps) = [a] ∧ dtype_of (pass_alpha ps) = dtype_of A ∧
            shape (pass_vi ps) = [n] ∧ dtype_of (pass_vi ps) = dtype_of A ∧
            larray (pass_vi ps) = v ∧ length v = n ∧
            kr_basis (krylov_next n (larray A) st) = kr_basis st ++ [v] ∧
            kr_alphas (krylov_next n (larray A) st) = kr_alphas st ++ [a]) ∧
    residual_repr n (krylov_next n (larray A) st) (pass_w ps) ∧
    dtype_of (pass_w ps) = dtype_of A.
Proof.
  intros Hp HA Hi Him HdV Hdw HB (Hw & Dw & Lw) Hrng.
  pose proof HB as (HV & LV & SV & LB & Hcols).
  unfold lanczos_body, div, mul, sub.
  array_step (norm_vector _ n). unfold abs. rewrite bind_ret.
  cbn [item larray map]. rewrite bind_ret, Dw.
  change (s_lt (s_abs (s_sqrt (dotp n (kr_w st) (kr_w st)))) s_tol)
    with (krylov_breakdown n st).
  change (s_sqrt (dotp n (kr_w st) (kr_w st))) with (krylov_beta n st).
  assert (Hall : firstn i (skipn 0 (kr_basis st)) = kr_basis st).
  { cbn [skipn]. apply firstn_all2. lia. }
  unfold krylov_next. destruct (krylov_breakdown n st) eqn:Hbd.
  - rewrite bind_assoc, bind_rand by (destruct SV; auto).
    rewrite local_vector_single by exact Hp. cbn [larray shape split dtype_of].
    rewrite <- HdV.
    rewrite (orthogonalize_gram_schmidt n m i st V Hp HB) by
      (first [lia | now rewrite length_map, length_seq]).
    rewrite bind_ret, Hall. unfold with_larray. cbn [larray shape split dtype_of t_data].
    array_step (norm_vector _ n).
    array_step (binop_vs s_div _ _ n).
    array_step (matmul_mv _ _ n n).
    cbn [dtype_of]. rewrite <- HdV, !promote_same.
    array_step (dot_vv _ _ n).
    array_step (binop_sv s_mul _ _ n).
    array_step (binop_vv s_sub _ _ n).
    array_step (getcol_in _ n m).
    array_step (binop_sv s_mul _ _ n).
    array_step (binop_vv s_sub _ _ n).
    cbn [larray nth dtype_of]. rewrite Hcols, LB, Hrng, ?Hdw, <- ?HdV, !promote_same by lia.
    eexists. split; [reflexivity |]. cbn [pass_beta pass_alpha pass_vi pass_w larray shape
      dtype_of kr_basis kr_alphas kr_betas kr_w kr_rng].
    split; [split; reflexivity |]. split; [reflexivity |].
    split; [do 2 eexists; repeat split; apply length_vscale_r |].
    repeat split. apply length_vmap2.
  - rewrite local_vector_single by exact Hp. rewrite Dw, Hdw, <- HdV.
    rewrite (orthogonalize_gram_schmidt n m i st V Hp HB) by
      (first [lia | congruence]).
    rewrite bind_ret, Hall. unfold with_larray. cbn [larray shape split dtype_of t_data].
    array_step (norm_vector _ n).
    array_step (binop_vs s_div _ _ n).
    array_step (matmul_mv _ _ n n).
    cbn [dtype_of]. rewrite ?Hdw, <- ?HdV, !promote_same.
    array_step (dot_vv _ _ n).
    array_step (binop_sv s_mul _ _ n).
    array_step (binop_vv s_sub _ _ n).
    array_step (getcol_in _ n m).
    array_step (binop_sv s_mul _ _ n).
    array_step (binop_vv s_sub _ _ n).
    cbn [larray nth dtype_of]. rewrite Hcols, LB, ?Hdw, <- ?HdV, !promote_same by lia.
    destruct w0 as [h g o k].
    cbn [heap rng stdout loop_iters] in *. subst g.
    eexists. split; [reflexivity |]. cbn [pass_beta pass_alpha pass_vi pass_w larray shape
      dtype_of kr_basis kr_alphas kr_betas kr_w kr_rng].
    split; [split; reflexivity |]. split; [reflexivity |].
    split; [do 2 eexists; repeat split; apply length_vscale_r |].
    repeat split. apply length_vmap2.
Qed.

Lemma bind_run {A B} (c : M R A) (k : A → M R B) (w w' : world R) (a : A) :
  c w = (w', inr a) → bind c k w = k a w'.
Proof. intros H. unfold bind. now rewrite H. Qed.

(** The loop from pass [i] with [fuel = m - i] passes left, with one process
    and arrays of the dtype of [A]: it returns and leaves in [V] and [T] the
    Krylov state after [m] basis vectors, the coefficients as stored in the
    dtype of [T]. *)
Lemma lanczos_loop_run (n m : nat) (A : DNDarray R) (HA : shape A = [n; n])
    (Hp : comm_size = 1) :
  ∀ (fuel i : nat) (st : krylov) (V T w : DNDarray R) (w0 : world R),
    1 ≤ i → i + fuel = m →
    dtype_of V = dtype_of A → dtype_of w = dtype_of A →
    basis_repr n m i st V →
    tri_repr (convert (dtype_of A) (dtype_of T)) m i st T →
    residual_repr n st w →
    rng w0 = kr_rng st →
    ∃ V' T',
      lanczos_loop fuel i A n V T w w0
      = (mkWorld (heap w0) (kr_rng (Nat.iter fuel (krylov_next n (larray A)) st))
                 (stdout w0) (loop_iters w0 + fuel), inr (V', T')) ∧
      basis_repr n m m (Nat.iter fuel (krylov_next n (larray A)) st) V' ∧
      tri_repr (convert (dtype_of A) (dtype_of T)) m m
        (Nat.iter fuel (krylov_next n (larray A)) st) T' ∧
      split V' = split V ∧ dtype_of V' = dtype_of V ∧ dtype_of T' = dtype_of T.
Proof.
  induction fuel as [|fuel IH]; intros i st V T w w0 Hi Hm HdV Hdw HB HT HW Hrng.
  - exists V, T. replace i with m in * by lia. cbn [lanczos_loop Nat.iter nat_rect].
    destruct w0 as [h g o k]. cbn [heap rng stdout loop_iters] in *. subst g.
    rewrite Nat.add_0_r. auto 10.
  - cbn [lanczos_loop]. rewrite bind_tick.
    destruct (lanczos_body_next n m i A V w st
                (mkWorld (heap w0) (rng w0) (stdout w0) (S (loop_iters w0)))
                Hp HA Hi ltac:(lia) HdV Hdw HB HW Hrng)
      as (ps & Hrun & (Hbeta & Hdbeta) & Hbetas
          & (a & v & Halpha & Hdalpha & Hvs & Hdv & Hvd & Hvl & Hbasis & Halphas)
          & HW' & Hdw').
    rewrite (bind_run _ _ _ _ _ Hrun). cbn [heap rng stdout loop_iters].
    destruct HB as (HV & LV & SV & LB & Hcols).
    destruct HT as (HTs & LT & LA & LBt & Hentries).
    array_step (setitem2_in _ _ m m (i - 1) i).
    array_step (setitem2_in _ _ m m i (i - 1)).
    array_step (setitem2_in _ _ m m i i).
    array_step (setcol_in _ _ n m i).
    cbn [split larray dtype_of]. rewrite Hdbeta, Hdalpha, Hdv, HdV, map_convert_same.
    match goal with
    | |- context [lanczos_loop fuel (S i) A n ?V1 ?T1 ?w1 ?w2] =>
        destruct (IH (S i) (krylov_next n (larray A) st) V1 T1 w1 w2)
          as (V' & T' & Hloop & HB' & HT' & Hsp & HdV' & HdT')
    end; try lia; try assumption; try reflexivity.
    + unfold basis_repr. cbn [shape larray split].
      rewrite length_set_col, Hbasis, length_app, LB. cbn [length].
      repeat split; try lia; try assumption.
      intros j Hj. destruct (Nat.eq_dec j i) as [-> | Hne].
      * rewrite col_data_set_col_eq by (first [lia | congruence]).
        rewrite nth_snoc, LB, Nat.eqb_refl. exact Hvd.
      * rewrite col_data_set_col_ne, Hcols by lia.
        rewrite nth_snoc, LB. apply Nat.eqb_neq in Hne. now rewrite Hne.
    + unfold tri_repr. cbn [shape larray dtype_of].
      rewrite !length_insert, Halphas, Hbetas, !length_app, LA, LBt. cbn [length].
      repeat split; try lia; try assumption.
      intros r c Hr Hc. unfold entry. cbn [larray].
      rewrite !map_app. cbn [map].
      apply tri_entry_extend;
        first [lia | assumption | now rewrite length_map | exact Hentries].
    + exists V', T'. rewrite Nat.iter_succ_r.
      cbn [heap rng stdout loop_iters split dtype_of] in *. rewrite Hloop.
      split; [| split; [exact HB' | split; [exact HT' | auto]]].
      replace (loop_iters w0 + S fuel) with (S (loop_iters w0) + fuel) by lia.
      reflexivity.
Qed.

Lemma nth_replicate_same {A} (n k : nat) (x : A) : nth k (replicate n x) x = x.
Proof.
  revert k. induction n as [|n IH]; intros [|k]; cbn; auto.
Qed.

(** The arrays after lines 109-128 hold the initial Krylov state. *)
Lemma tri_repr_init (cv : R → R) (m : nat) (a : R) (st : krylov) (dt : dtype) :
  0 < m → kr_alphas st = [a] → kr_betas st = [] →
  tri_repr cv m 1 st
    (mkDND [m; m] None dt (<[0 * m + 0 := cv a]> (replicate (m * m) s_zero))).
Proof.
  intros Hm Ha Hb. unfold tri_repr. cbn [shape larray].
  rewrite length_insert, length_replicate, Ha, Hb.
  repeat split; auto.
  intros r c Hr Hc. unfold entry. cbn [larray map].
  rewrite nth_insert_position, nth_replicate_same
    by (rewrite ?length_replicate; lia).
  unfold tri_entry.
  destruct (Nat.eqb_spec r 0) as [-> | Hr0], (Nat.eqb_spec c 0) as [-> | Hc0];
    cbn [andb Nat.eqb nth]; try reflexivity.
  - destruct c as [|[|c]]; [lia | reflexivity | reflexivity].
  - destruct r as [|[|r]]; [lia | reflexivity | reflexivity].
  - destruct (Nat.eqb_spec r c) as [-> | Hrc].
    + destruct c as [|[|c]]; [lia | reflexivity | reflexivity].
    + destruct (Nat.eqb r (S c)); [now destruct c |].
      destruct (Nat.eqb c (S r)); [now destruct r | reflexivity].
Qed.

(** A matrix that holds the coefficients as they are. *)
Lemma tri_repr_same (d : dtype) (m i : nat) (st : krylov) (T : DNDarray R) :
  tri_repr (convert d d) m i st T → tri_repr (λ x, x) m i st T.
Proof.
  intros (H1 & H2 & H3 & H4 & H5). repeat split; try assumption.
  intros r c Hr Hc. rewrite (H5 r c Hr Hc), !map_convert_same, !map_id. reflexivity.
Qed.

(** Lines 124-184 from a start vector [v0] of the dtype of [A], with one
    process: the loop runs [m - 1] passes on a basis that keeps the split
    axis [sp] of its allocation, and the call returns the basis resplit to
    [None] and the matrix of the coefficients, the arrays holding the Krylov
    state after [m] basis vectors. *)
Lemma lanczos_tail_run (A v0 : DNDarray R) (n : nat) (z : Z) (sp : option nat)
    (dT : dtype) (V_out T_out : option loc) (w0 : world R) :
  comm_size = 1 → shape A = [n; n] → (0 < z)%Z →
  shape v0 = [n] → length (larray v0) = n → dtype_of v0 = dtype_of A →
  sp = None ∨ sp = Some 0 →
  let m := Z.to_nat z in
  let st := Nat.iter (m - 1) (krylov_next n (larray A))
              (krylov_start n (larray A) (larray v0) (rng w0)) in
  let w' := mkWorld (heap w0) (kr_rng st) (stdout w0) (loop_iters w0 + (m - 1)) in
  ∃ V1 T1 r1 Vl Tl,
    (w <- matmul A v0 ;;
     alpha <- dot w v0 ;;
     av <- mul alpha v0 ;;
     w <- sub w av ;;
     T <- setitem2 (mkDND [m; m] None dT (replicate (m * m) s_zero)) 0 0 alpha ;;
     V <- setcol (mkDND [n; m] sp (dtype_of A) (replicate (n * m) s_one)) 0 v0 ;;
     mi <- int_of (PyInt z) ;;
     VT <- lanczos_loop (Z.to_nat (mi - 1)) 1 A n V T w ;;
     lanczos_return (fst VT) (snd VT) V_out T_out) w0
    = (VT <- lanczos_loop (m - 1) 1 A n V1 T1 r1 ;;
       lanczos_return (fst VT) (snd VT) V_out T_out) w0 ∧
    V1 = mkDND [n; m] sp (dtype_of A)
           (set_col n m 0 (larray v0) (replicate (n * m) s_one)) ∧
    lanczos_loop (m - 1) 1 A n V1 T1 r1 w0 = (w', inr (Vl, Tl)) ∧
    split Vl = sp ∧
    lanczos_return Vl Tl V_out T_out w' = (w', inr (resplit Vl None, Tl)) ∧
    basis_repr n m m st Vl ∧ dtype_of Vl = dtype_of A ∧
    tri_repr (convert (dtype_of A) dT) m m st Tl ∧ dtype_of Tl = dT.
Proof.
  intros Hp HA Hz Hv Lv Hdv Hsp m st w'.
  assert (Hm : 0 < m) by (unfold m; lia).
  unfold mul, sub.
  array_step (matmul_mv _ _ n n).
  rewrite (dot_vv _ _ n) by
    (first [reflexivity | assumption
           | cbn [dtype_of]; rewrite Hdv; apply promote_same]).
  rewrite bind_ret.
  array_step (binop_sv s_mul _ _ n).
  array_step (binop_vv s_sub _ _ n).
  array_step (setitem2_in _ _ m m 0 0).
  array_step (setcol_in _ _ n m 0).
  cbn [int_of larray nth split dtype_of]. rewrite bind_ret.
  rewrite Hdv, !promote_same, map_convert_same.
  replace (Z.to_nat (z - 1)) with (m - 1) by (unfold m; lia).
  set (st0 := krylov_start n (larray A) (larray v0) (rng w0)).
  match goal with
  | |- context [lanczos_loop _ 1 A n ?V1 ?T1 ?w1] =>
      destruct (lanczos_loop_run n m A HA Hp (m - 1) 1 st0 V1 T1 w1 w0)
        as (Vl & Tl & Hloop & HB' & HT' & Hsplit & HdV' & HdT');
      [.. | exists V1, T1, w1, Vl, Tl]
  end; try lia; try reflexivity.
  - unfold basis_repr. cbn [shape larray split kr_basis st0 krylov_start length].
    rewrite length_set_col. repeat split; auto.
    intros j Hj. replace j with 0 by lia. cbn [nth].
    apply col_data_set_col_eq; [lia | exact Lv].
  - cbn [dtype_of]. apply tri_repr_init; [exact Hm | reflexivity | reflexivity].
  - unfold residual_repr. cbn [shape larray kr_w st0 krylov_start].
    repeat split. apply length_vmap2.
  - cbn [split dtype_of larray] in *.
    split; [reflexivity |]. split; [reflexivity |].
    split; [exact Hloop |]. split; [exact Hsplit |].
    split; [| split; [exact HB' | split; [exact HdV' | split; [exact HT' | exact HdT']]]].
    unfold lanczos_return, arg_is_none, arg_value, copy, w'.
    assert (Hres : match split Vl with Some _ => resplit Vl None | None => Vl end
                   = resplit Vl None).
    { destruct (split Vl) eqn:E; [reflexivity |]. destruct Vl. cbn in E. now subst. }
    rewrite Hres.
    destruct T_out as [lt|], V_out as [lv|]; cbn;
      repeat match goal with
             | |- context [match heap w0 ?l with _ => _ end] => destruct (heap w0 l)
             end; reflexivity.
Qed.

(** [lanczos(A, m)] without a starting vector, on a square matrix of the
    default dtype, a positive integer [m] and one process: the call
    returns, after [m - 1] passes, and its arrays hold the Krylov state
    after [m] basis vectors. *)
Lemma lanczos_run (A : DNDarray R) (n : nat) (z : Z) (V_out T_out : option loc)
    (w0 : world R) :
  comm_size = 1 → dtype_of A = default_float → shape A = [n; n] → (0 < z)%Z →
  ∃ V T,
    lanczos (PyDND A) (PyInt z) None V_out T_out w0
    = (mkWorld (heap w0) (kr_rng (krylov_run n (larray A) (rng w0) (Z.to_nat z)))
               (stdout w0) (loop_iters w0 + (Z.to_nat z - 1)), inr (V, T)) ∧
    basis_repr n (Z.to_nat z) (Z.to_nat z)
      (krylov_run n (larray A) (rng w0) (Z.to_nat z)) V ∧
    tri_repr (λ x, x) (Z.to_nat z) (Z.to_nat z)
      (krylov_run n (larray A) (rng w0) (Z.to_nat z)) T ∧
    split V = None ∧ dtype_of V = dtype_of A ∧ dtype_of T = default_float.
Proof.
  intros Hp HdA HA Hz. set (m := Z.to_nat z). assert (Hm : 0 < m) by (unfold m; lia).
  unfold lanczos, ndim. rewrite HA. cbn [length Nat.eqb negb isinstance_int_float nth].
  rewrite Nat.eqb_refl. cbn [negb]. unfold zeros, lanczos_basis, ones.
  array_step full_square. fold m.
  assert (Hbasis0 : ∃ sp, (sp = None ∨ sp = Some 0) ∧
            (if decide (split A = Some 0)
             then full s_one [PyInt (Z.of_nat n); PyInt z] (Some 0) (dtype_of A)
             else full s_one [PyInt (Z.of_nat n); PyInt z] None (dtype_of A))
            = ret (mkDND [n; m] sp (dtype_of A) (replicate (n * m) s_one))).
  { destruct (decide (split A = Some 0)).
    - exists (Some 0). split; [auto | apply full_2d; [lia | auto]].
    - exists None. split; [auto | apply full_2d; [lia | auto]]. }
  destruct Hbasis0 as (sp & Hsp & ->). rewrite bind_ret.
  unfold lanczos_start. cbn [arg_value]. rewrite bind_ret.
  rewrite bind_assoc, bind_rand by exact Hsp. cbn [split]. unfold div.
  array_step (norm_vector _ n).
  array_step (binop_vs s_div _ _ n).
  cbn [larray nth dtype_of]. rewrite promote_same.
  match goal with
  | |- context [bind (matmul A ?v0) _ ?w1] =>
      destruct (lanczos_tail_run A v0 n z sp default_float V_out T_out w1 Hp HA Hz)
        as (V1 & T1 & r1 & Vl & Tl & Heq & _ & Hloop & _ & Hret & HB & HdV & HT & HdT)
  end; try reflexivity; try assumption.
  { cbn [larray]. apply length_vscale_r. }
  { cbn [dtype_of]. now rewrite HdA. }
  fold m in Heq, Hloop, Hret, HB, HT.
  cbn [larray rng heap stdout loop_iters] in Heq, Hloop, Hret, HB, HT.
  rewrite Heq, (bind_run _ _ _ _ _ Hloop). cbn [fst snd]. rewrite Hret.
  exists (resplit Vl None), Tl.
  split; [reflexivity |].
  split; [| split; [| split; [reflexivity | split; [exact HdV | exact HdT]]]].
  - destruct HB as (H1 & H2 & H3 & H4 & H5).
    unfold basis_repr; cbn [resplit shape larray split]. repeat split; auto.
  - rewrite <- HdA in HT. apply tri_repr_same in HT. exact HT.
Qed.

(** *** The coefficients and vectors of the Krylov states *)

Lemma krylov_next_basis (n : nat) (A : list R) (st : krylov) :
  kr_basis (krylov_next n A st)
  = kr_basis st ++
    [normalize n
       (gram_schmidt n (kr_basis st)
          (if krylov_breakdown n st then map (rand_at (kr_rng st)) (seq 0 n)
           else kr_w st))].
Proof. reflexivity. Qed.

Lemma krylov_next_betas (n : nat) (A : list R) (st : krylov) :
  kr_betas (krylov_next n A st) = kr_betas st ++ [krylov_beta n st].
Proof. reflexivity. Qed.

Lemma krylov_next_alphas (n : nat) (A : list R) (st : krylov) :
  ∃ v, kr_basis (krylov_next n A st) = kr_basis st ++ [v] ∧
       kr_alphas (krylov_next n A st) = kr_alphas st ++ [dotp n (mv n n A v) v].
Proof. eexists. split; reflexivity. Qed.

Lemma krylov_run_S (n : nat) (A : list R) (draws m : nat) :
  1 ≤ m → krylov_run n A draws (S m) = krylov_next n A (krylov_run n A draws m).
Proof.
  intros Hm. unfold krylov_run. replace (S m - 1) with (S (m - 1)) by lia. reflexivity.
Qed.

Lemma krylov_run_lengths (n : nat) (A : list R) (draws m : nat) :
  1 ≤ m →
  length (kr_basis (krylov_run n A draws m)) = m ∧
  length (kr_alphas (krylov_run n A draws m)) = m ∧
  length (kr_betas (krylov_run n A draws m)) = m - 1.
Proof.
  induction m as [|m IH]; [lia |]. intros _.
  destruct m as [|m]; [repeat split |].
  rewrite krylov_run_S by lia. destruct IH as (Hb & Ha & Hc); [lia |].
  rewrite krylov_next_basis, krylov_next_betas.
  destruct (krylov_next_alphas n A (krylov_run n A draws (S m))) as (v & _ & ->).
  rewrite !length_app, Hb, Ha, Hc. cbn [length]. lia.
Qed.



(** [v_i], for a pass [i >= 1], is the normalized, re-orthogonalized
    candidate: the residual, or a fresh random vector on breakdown. *)
Lemma krylov_basis_at (n : nat) (A : list R) (draws m i : nat) :
  1 ≤ i → i < m →
  nth i (kr_basis (krylov_run n A draws m)) []
  = normalize n
      (gram_schmidt n (kr_basis (krylov_run n A draws i))
         (if krylov_breakdown n (krylov_run n A draws i)
          then map (rand_at (kr_rng (krylov_run n A draws i))) (seq 0 n)
          else kr_w (krylov_run n A draws i))).
Proof.
  intros Hi. induction m as [|m IH]; [lia |]. intros Him.
  rewrite krylov_run_S, krylov_next_basis, nth_snoc by lia.
  destruct (krylov_run_lengths n A draws m) as (Hl & _ & _); [lia |]. rewrite Hl.
  destruct (Nat.eqb_spec i m) as [-> | Hne]; [reflexivity | apply IH; lia].
Qed.

End LanczosFacts.

(** ** Lanczos: shapes, tridiagonal form, checks *)

Section LanczosProperties.
Context {R : Type} {SR : Scalar R} {RT : Runtime R}.


(** For a square [n × n] matrix [A] of the default dtype, a positive
    integer [m] and one process, [lanczos(A, m)] returns [V] of shape
    [(n, m)] and [T] of shape [(m, m)], after [m - 1] passes of its loop
    whatever the passes meet.  Column [0] of [V] is the normalized random
    start; column [i] of a later pass is the normalized, re-orthogonalized
    candidate of that pass, which on a breakdown ([beta < 1e-10]) is a fresh
    random vector: a breakdown replaces the candidate and does not shorten
    the output. *)
Lemma lanczos_fills_m_columns (A : DNDarray R) (n : nat) (z : Z)
    (V_out T_out : option loc) (w0 : world R) :
  comm_size = 1 → dtype_of A = default_float → shape A = [n; n] → (0 < z)%Z →
  ∃ (w' : world R) (V T : DNDarray R),
    lanczos (PyDND A) (PyInt z) None V_out T_out w0 = (w', inr (V, T)) ∧
    (shape V = [n; Z.to_nat z] ∧ length (larray V) = n * Z.to_nat z) ∧
    (shape T = [Z.to_nat z; Z.to_nat z] ∧
     length (larray T) = Z.to_nat z * Z.to_nat z) ∧
    loop_iters w' = loop_iters w0 + (Z.to_nat z - 1) ∧
    col_data n (Z.to_nat z) 0 (larray V)
    = normalize n (map (rand_at (rng w0)) (seq 0 n)) ∧
    (∀ i, 1 ≤ i → i < Z.to_nat z →
       col_data n (Z.to_nat z) i (larray V)
       = normalize n
           (gram_schmidt n (kr_basis (krylov_run n (larray A) (rng w0) i))
              (if krylov_breakdown n (krylov_run n (larray A) (rng w0) i)
               then map (rand_at (kr_rng (krylov_run n (larray A) (rng w0) i)))
                        (seq 0 n)
               else kr_w (krylov_run n (larray A) (rng w0) i)))).
Proof.
  intros Hp HdA HA Hz.
  destruct (lanczos_run A n z V_out T_out w0 Hp HdA HA Hz)
    as (V & T & Hrun & (HV & LV & _ & LB & Hcols) & (HT & LT & _) & _).
  eexists _, V, T. split; [exact Hrun |]. cbn [loop_iters].
  repeat split; try assumption.
  - rewrite Hcols by lia.
    destruct (Z.to_nat z) as [|m] eqn:Em; [lia |]. clear.
    induction m as [|m IH]; [reflexivity |].
    rewrite krylov_run_S, krylov_next_basis by lia.
    destruct (krylov_run_lengths n (larray A) (rng w0) (S m)) as (Hl & _); [lia |].
    rewrite nth_snoc, Hl. exact IH.
  - intros i Hi Him. rewrite Hcols by lia. now apply krylov_basis_at.
Qed.


End LanczosProperties.

(** ** Lanczos: split axes and the caller's starting vector *)

Section LanczosSplit.
Context {R : Type} {SR : Scalar R} {RT : Runtime R}.


Lemma lanczos_basis_split (A : DNDarray R) (n : nat) (z : Z) :
  (0 ≤ z)%Z →
  lanczos_basis A n (PyInt z)
  = ret (mkDND [n; Z.to_nat z] (basis_split A) (dtype_of A)
           (replicate (n * Z.to_nat z) s_one)).
Proof.
  intros Hz. unfold lanczos_basis, basis_split, ones.
  destruct (decide (split A = Some 0)); apply full_2d; auto.
Qed.

Lemma basis_split_axis (A : DNDarray R) : basis_split A = None ∨ basis_split A = Some 0.
Proof. unfold basis_split. destruct (decide (split A = Some 0)); auto. Qed.





(** The starting vector when the caller's [v0] is split otherwise than
    [V]. *)
Lemma lanczos_start_resplits (n : nat) (V d : DNDarray R) (l : loc) (w : world R) :
  heap w l = PyDND d → split d ≠ split V →
  (split V = None ∨ (split V = Some 0 ∧ 1 ≤ ndim d)) →
  lanczos_start n V (Some l) w
  = (mkWorld (λ l', if Nat.eqb l' l then PyDND (resplit d (split V)) else heap w l')
             (rng w) (stdout w) (loop_iters w),
     inr (resplit d (split V))).
Proof.
  intros Hl Hne Hax. unfold lanczos_start. cbn [arg_value].
  unfold bind at 1. unfold deref at 1. rewrite Hl.
  destruct (decide (split d = split V)) as [E | _]; [contradiction |].
  unfold resplit_, bind, deref, store, ret. rewrite Hl.
  destruct Hax as [-> | [-> Hd]]; cbn [sanitize_axis].
  - unfold ret. cbn [heap]. now rewrite Nat.eqb_refl.
  - unfold ndim in Hd. apply Nat.ltb_lt in Hd. rewrite Hd.
    unfold ret. cbn [heap]. now rewrite Nat.eqb_refl.
Qed.

(** C9.  When the caller passes a starting vector [v0] (an array of rank at
    least one, held at [l]) whose split axis is not the one chosen for [V],
    the object at [l] after the call is [v0] resplit to that axis: same
    shape, same dtype, same content, another split axis.  This holds however
    the call ends, and no other object of the caller changes. *)
Theorem lanczos_resplits_v0_in_place (A d : DNDarray R) (n : nat) (z : Z) (l : loc)
    (V_out T_out : option loc) (w : world R) :
  shape A = [n; n] → (0 ≤ z)%Z →
  heap w l = PyDND d → 1 ≤ ndim d → split d ≠ basis_split A →
  heap (fst (lanczos (PyDND A) (PyInt z) (Some l) V_out T_out w)) l
  = PyDND (mkDND (shape d) (basis_split A) (dtype_of d) (larray d)) ∧
  (∀ l', l' ≠ l →
     heap (fst (lanczos (PyDND A) (PyInt z) (Some l) V_out T_out w)) l' = heap w l').
Proof.
  intros HA Hz Hl Hd Hne.
  unfold lanczos, ndim. rewrite HA. cbn [length Nat.eqb negb isinstance_int_float nth].
  rewrite Nat.eqb_refl. cbn [negb]. unfold zeros.
  array_step full_square. rewrite lanczos_basis_split, bind_ret by exact Hz.
  erewrite bind_run; cycle 1.
  { apply (lanczos_start_resplits n _ d l w Hl); cbn [split]; [exact Hne |].
    unfold basis_split. destruct (decide (split A = Some 0)); auto. }
  cbn [split].
  match goal with
  | |- context [fst (?c ?w1)] =>
      assert (Hst : heap_stable c)
        by (unfold mul, sub, lanczos_return, copy;
            pose proof (@heap_stable_lanczos_loop R SR RT); heap_seq)
  end.
  split.
  - rewrite Hst. cbn [heap]. now rewrite Nat.eqb_refl.
  - intros l' Hl'. rewrite Hst. cbn [heap]. apply Nat.eqb_neq in Hl'. now rewrite Hl'.
Qed.

End LanczosSplit.

(** ** Output arguments *)

Section OutputArguments.
Context {R : Type} {SR : Scalar R} {RT : Runtime R}.

Lemma bind_ext {A B} (c : M R A) (k1 k2 : A → M R B) (w : world R) :
  (∀ a w', k1 a w' = k2 a w') → bind c k1 w = bind c k2 w.
Proof. intros H. unfold bind. destruct (c w) as [w' [e | a]]; [reflexivity | apply H]. Qed.

(** [cg] with an output argument is [cg] without it. *)
Lemma cg_ignores_out (A b x0 : pyobj R) (out : option loc) (w : world R) :
  cg A b x0 out w = cg A b x0 None w.
Proof.
  unfold cg. destruct A as [| | | |A], b as [| | | |b], x0 as [| | | |x0]; try reflexivity.
  destruct (negb (ndim A =? 2)); [reflexivity |].
  destruct (negb (ndim b =? 1)); [reflexivity |].
  destruct (negb (ndim x0 =? 1)); [reflexivity |].
  do 4 (apply bind_ext; intros ? ?).
  destruct out as [l|]; [| reflexivity].
  unfold arg_is_none, arg_value, bind, deref, ret.
  match goal with |- context [heap ?w1 l] => destruct (heap w1 l) end; reflexivity.
Qed.

(** [lanczos] with output arguments is [lanczos] without them. *)
Lemma lanczos_ignores_outputs (A m : pyobj R) (v0 V_out T_out : option loc)
    (w : world R) :
  lanczos A m v0 V_out T_out w = lanczos A m v0 None None w.
Proof.
  unfold lanczos. destruct A as [| | | |A]; try reflexivity.
  destruct (negb (ndim A =? 2)); [reflexivity |].
  destruct (negb (isinstance_int_float m)); [reflexivity |].
  destruct (negb (nth 0 (shape A) 0 =? nth 1 (shape A) 0)); [reflexivity |].
  do 11 (apply bind_ext; intros ? ?).
  unfold lanczos_return, arg_is_none, arg_value, bind, deref, ret, copy.
  destruct T_out as [lt|], V_out as [lv|]; cbn [negb];
    repeat match goal with
           | |- context [match heap ?w ?l with _ => _ end] => destruct (heap w l)
           end; reflexivity.
Qed.

(** [lanczos] may only replace the caller's [v0]. *)
Lemma lanczos_heap (A m : pyobj R) (v0 V_out T_out : option loc) (w : world R) (l : loc) :
  v0 ≠ Some l → heap (fst (lanczos A m v0 V_out T_out w)) l = heap w l.
Proof.
  intros Hl. rewrite lanczos_ignores_outputs. revert w.
  assert (Hrest : ∀ (A : DNDarray R) n T V (s : DNDarray R),
            heap_stable
              (w <- matmul A s ;;
               alpha <- dot w s ;;
               av <- mul alpha s ;;
               w <- sub w av ;;
               T <- setitem2 T 0 0 alpha ;;
               V <- setcol V 0 s ;;
               mi <- int_of m ;;
               VT <- lanczos_loop (Z.to_nat (mi - 1)) 1 A n V T w ;;
               lanczos_return (fst VT) (snd VT) None None)).
  { intros. unfold mul, sub, lanczos_return, copy.
    pose proof (@heap_stable_lanczos_loop R SR RT). heap_seq. }
  assert (Hbasis : ∀ (A : DNDarray R) n, heap_stable (lanczos_basis A n m)).
  { intros. unfold lanczos_basis, ones. heap_seq. }
  unfold lanczos. destruct A as [| | | |A]; try reflexivity.
  destruct (negb (ndim A =? 2)); [reflexivity |].
  destruct (negb (isinstance_int_float m)); [reflexivity |].
  destruct (negb (nth 0 (shape A) 0 =? nth 1 (shape A) 0)); [reflexivity |].
  pose proof (heap_stable_lanczos_start (nth 0 (shape A) 0)) as Hstart.
  destruct v0 as [l0|].
  - assert (Hne : l ≠ l0) by congruence.
    intros w.
    refine (heap_stable_except_bind l0 _ _ _ _ w l Hne);
      [apply heap_stable_weaken; unfold zeros; auto with heap_db |].
    intros T. apply heap_stable_except_bind; [apply heap_stable_weaken, Hbasis |].
    intros V. apply heap_stable_except_bind; [apply (Hstart V (Some l0)) |].
    intros s. apply heap_stable_weaken, Hrest.
  - intros w.
    refine (heap_stable_bind _ _ _ _ w l); [unfold zeros; auto with heap_db |].
    intros T. apply heap_stable_bind; [apply Hbasis |].
    intros V. apply heap_stable_bind; [apply (Hstart V None) |].
    intros s. apply Hrest.
Qed.

(** Neither [cg] nor [lanczos] looks at an output argument: with [out], or
    with [V_out] and [T_out], of any shape and split axis, a call does what
    it does without them; and the objects passed are left as they are
    ([lanczos] may only resplit its [v0]). *)
Lemma output_arguments_are_not_validated (A b x0 m : pyobj R)
    (out v0 V_out T_out : option loc) (w : world R) :
  (cg A b x0 out w = cg A b x0 None w ∧
   ∀ l, heap (fst (cg A b x0 out w)) l = heap w l) ∧
  (lanczos A m v0 V_out T_out w = lanczos A m v0 None None w ∧
   ∀ l, v0 ≠ Some l → heap (fst (lanczos A m v0 V_out T_out w)) l = heap w l).
Proof.
  split; split.
  - apply cg_ignores_out.
  - intros l. apply heap_stable_cg.
  - apply lanczos_ignores_outputs.
  - intros l. apply lanczos_heap.
Qed.

End OutputArguments.

(** ** The check of the shape *)

Section LanczosChecks.
Context {R : Type} {SR : Scalar R} {RT : Runtime R}.


End LanczosChecks.

(** ** The solvers on IEEE numbers *)

(** C2.  With [A] the 5 × 5 identity (unsplit), [b = [1,2,3,4,5]] and
    [x0 = 0], [cg] converges in its first pass: the residual after the first
    update is zero, the tolerance test passes in pass 0, one pass has run,
    and the value returned is [b]. *)
Theorem cg_identity_converges_in_one_pass (out : option loc) (w : world float) :
  cg (PyDND eye5) (PyDND (vec [1; 2; 3; 4; 5]%float))
     (PyDND (vec [0; 0; 0; 0; 0]%float)) out w
  = (mkWorld (heap w) (rng w) (stdout w ++ ["Residual reaches tolerance in it = 0"])
             (S (loop_iters w)),
     inr (vec [1; 2; 3; 4; 5]%float)) ∧
  cg_rs_new 5 (larray eye5)
    (cg_init 5 (larray eye5) [1; 2; 3; 4; 5]%float [0; 0; 0; 0; 0]%float) = 0%float ∧
  cg_converged 5 (larray eye5)
    (cg_init 5 (larray eye5) [1; 2; 3; 4; 5]%float [0; 0; 0; 0; 0]%float) = true.
Proof.
  split; [| split; vm_compute; reflexivity].
  rewrite cg_ignores_out. vm_compute. reflexivity.
Qed.

(** The iteration bound at the identity: one pass, at most [len(b) = 5]. *)
Lemma cg_at_most_len_b_passes_witness :
  ∃ (w' : world float) (x : DNDarray float) (k : nat),
    cg (PyDND eye5) (PyDND (vec [1; 2; 3; 4; 5]%float))
       (PyDND (vec [0; 0; 0; 0; 0]%float)) None world0 = (w', inr x) ∧
    loop_iters w' = k ∧ k ≤ 5.
Proof.
  destruct (cg_at_most_len_b_passes eye5 (vec [1; 2; 3; 4; 5]%float)
              (vec [0; 0; 0; 0; 0]%float) 5 None world0 eq_refl eq_refl eq_refl)
    as (w' & x & k & Hrun & Hit & Hk & _).
  exists w', x, k. repeat split; assumption.
Defined.

(** An integer where [A] is expected, and a matrix where [b] is. *)
Lemma cg_rejects_bad_arguments_witness :
  cg (PyInt 3) (PyDND (vec [1; 2]%float)) (PyDND (vec [0; 0]%float)) None world0
  = (world0,
     inl (TypeError
            ("A, b and x0 need to be of type ht.DNDarray, but were "
             +:+ "<class 'int'>" +:+ ", " +:+ "<class 'heat.core.dndarray.DNDarray'>"
             +:+ ", " +:+ "<class 'heat.core.dndarray.DNDarray'>"))) ∧
  cg (PyDND spd2) (PyDND spd2) (PyDND (vec [0; 0]%float)) None world0
  = (world0, inl (RuntimeError "b needs to be a 1D vector")).
Proof.
  split.
  - exact (proj1 (cg_rejects_bad_arguments (PyInt 3) (PyDND (vec [1; 2]%float))
                    (PyDND (vec [0; 0]%float)) None world0) eq_refl).
  - refine (proj1 (proj2 (proj2 (cg_rejects_bad_arguments (PyDND spd2) (PyDND spd2)
                    (PyDND (vec [0; 0]%float)) None world0) spd2 spd2 (vec [0; 0]%float)
                    eq_refl eq_refl eq_refl)) eq_refl _).
    cbn. discriminate.
Defined.

(** C3, at a matrix in double precision.  For the 2 x 2 identity of dtype
    [float64] and [m = 2], [lanczos(A, m)] returns no [V] and no [T]: the
    start is drawn in the default dtype (line 117 passes no [dtype], where
    line 134 passes [dtype=A.dtype]), [A v0] is [float64], and [ht.dot] of
    the two (line 125) raises after the one draw, before any pass of the
    loop.  The same call on a matrix of the default dtype returns [V] and
    [T] of shape [(2, 2)]. *)
Theorem lanczos_float64_matrix_raises :
  dtype_of eye2_f64 = Float64 ∧ shape eye2_f64 = [2; 2] ∧
  lanczos (SR := float64_scalar) (PyDND eye2_f64) (PyInt 2) None None None world0
  = (mkWorld (heap world0) 1 [] 0,
     inl (RuntimeError "dot : expected both vectors to have same dtype")) ∧
  ∃ (w' : world float) (V T : DNDarray float),
    lanczos (PyDND spd2) (PyInt 2) None None None world0 = (w', inr (V, T)) ∧
    shape V = [2; 2] ∧ shape T = [2; 2] ∧ loop_iters w' = 1.
Proof.
  split; [reflexivity |]. split; [reflexivity |]. split.
  - vm_compute. reflexivity.
  - eexists _, _, _. vm_compute. repeat split.
Qed.

(** The columns of the basis at a matrix of the default dtype. *)
Example lanczos_fills_m_columns_spd2 :
  ∃ (w' : world float) (V T : DNDarray float),
    lanczos (PyDND spd2) (PyInt 2) None None None world0 = (w', inr (V, T)) ∧
    shape V = [2; 2] ∧ shape T = [2; 2] ∧ loop_iters w' = 1.
Proof.
  destruct (lanczos_fills_m_columns (RT := float_runtime) spd2 2 2 None None world0
              eq_refl eq_refl eq_refl eq_refl)
    as (w' & V & T & Hrun & (HV & _) & (HT & _) & Hit & _).
  exists w', V, T. repeat split; assumption.
Qed.

(** The breakdown branch is taken on the zero matrix, and the output has
    its two columns all the same. *)
Example lanczos_breakdown_keeps_m_columns :
  krylov_breakdown 2 (krylov_run 2 (larray zero2) 0 1) = true ∧
  ∃ (w' : world float) (V T : DNDarray float),
    lanczos (PyDND zero2) (PyInt 2) None None None world0 = (w', inr (V, T)) ∧
    shape V = [2; 2] ∧ shape T = [2; 2] ∧ rng w' = 2.
Proof.
  split; [vm_compute; reflexivity |].
  eexists _, _, _. vm_compute. repeat split.
Qed.




(** A starting vector split along axis 0 for an unsplit [A]: after the
    call the caller's vector is unsplit. *)
Lemma lanczos_resplits_v0_in_place_witness :
  heap (fst (lanczos (PyDND spd2) (PyInt 2) (Some 0) None None world_v0)) 0
  = PyDND (mkDND [2] None Float32 [1; 0]%float).
Proof.
  refine (proj1 (lanczos_resplits_v0_in_place spd2
                   (mkDND [2] (Some 0) Float32 [1; 0]%float)
                   2 2 0 None None world_v0 eq_refl _ eq_refl _ _)).
  - discriminate.
  - cbn. lia.
  - discriminate.
Defined.

(** With that starting vector the call returns, and the basis and the
    tridiagonal matrix are those of the unit vector. *)
Example lanczos_with_v0_returns :
  ∃ (w' : world float) (V T : DNDarray float),
    lanczos (PyDND spd2) (PyInt 2) (Some 0) None None world_v0 = (w', inr (V, T)) ∧
    heap w' 0 = PyDND (mkDND [2] None Float32 [1; 0]%float) ∧
    larray V = [1; 0; 0; 1]%float ∧ larray T = [2; 1; 1; 3]%float.
Proof. eexists _, _, _. vm_compute. repeat split. Qed.

(** A matrix and a starting vector in double precision: [V] is [float64],
    [T] is [float32], and [alpha = 3.6] is rounded when it is stored in
    [T]. *)
Example lanczos_rounds_alpha_to_float32 :
  ∃ (w' : world float) (V T : DNDarray float),
    lanczos (SR := float64_scalar) (PyDND mat36_f64) (PyInt 1) (Some 0) None None
      world_v0_f64 = (w', inr (V, T)) ∧
    dtype_of V = Float64 ∧ larray V = [1]%float ∧
    dtype_of T = Float32 ∧ larray T = [3.5999999046325684]%float.
Proof. eexists _, _, _. vm_compute. repeat split. Qed.

(** C4, at an output buffer of the wrong shape and split axis.  With a
    vector of three elements, split along axis 0, as [out] for a problem of
    size five, [cg] returns its solution and raises no [ValueError];
    [lanczos] with that object as [V_out] and as [T_out] returns as well;
    the buffer is as it was after either call.  A buffer of the right shape
    is not written either: [out = x] (line 63) and [T_out = T.copy()],
    [V_out = V.copy()] (lines 175-181) bind local names. *)
Theorem wrong_output_buffer_raises_nothing :
  heap world_buf 0 = PyDND (mkDND [3] (Some 0) Float32 [9; 9; 9]%float) ∧
  (∃ w' : world float,
     cg (PyDND eye5) (PyDND (vec [1; 2; 3; 4; 5]%float))
        (PyDND (vec [0; 0; 0; 0; 0]%float)) (Some 0) world_buf
     = (w', inr (vec [1; 2; 3; 4; 5]%float)) ∧
     heap w' 0 = PyDND (mkDND [3] (Some 0) Float32 [9; 9; 9]%float)) ∧
  (∃ (w' : world float) (V T : DNDarray float),
     lanczos (PyDND spd2) (PyInt 2) None (Some 0) (Some 0) world_buf
     = (w', inr (V, T)) ∧
     shape V = [2; 2] ∧ shape T = [2; 2] ∧
     heap w' 0 = PyDND (mkDND [3] (Some 0) Float32 [9; 9; 9]%float)) ∧
  heap world_out 0 = PyDND (vec [9; 9; 9; 9; 9]%float) ∧
  (∃ w' : world float,
     cg (PyDND eye5) (PyDND (vec [1; 2; 3; 4; 5]%float))
        (PyDND (vec [0; 0; 0; 0; 0]%float)) (Some 0) world_out
     = (w', inr (vec [1; 2; 3; 4; 5]%float)) ∧
     heap w' 0 = PyDND (vec [9; 9; 9; 9; 9]%float)).
Proof.
  split; [reflexivity |].
  split; [eexists; vm_compute; split; reflexivity |].
  split; [eexists _, _, _; vm_compute; repeat split |].
  split; [reflexivity |].
  eexists; vm_compute; split; reflexivity.
Qed.

(** ** The partial HDF5 dataset *)

Section DatasetFacts.
Import PartialH5Dataset.
Context {Row : Type}.

Lemma h5_get_in (f : @h5file Row) (k : string) (d : list Row) :
  NoDup (map fst f) → (k, d) ∈ f → h5_get f k = Some d.
Proof.
  induction f as [|[k' d'] f IH]; intros Hnd Hin.
  - now apply elem_of_nil in Hin.
  - cbn [h5_get]. cbn [map fst] in Hnd. apply NoDup_cons in Hnd as [Hk' Hnd].
    apply elem_of_cons in Hin as [Heq | Hin].
    + inversion Heq; subst. now destruct (decide (k' = k')).
    + destruct (decide (k' = k)) as [-> | _]; [| now apply IH].
      exfalso. apply Hk'. apply list_elem_of_fmap. now exists (k, d).
Qed.

(** The check stops at the first dataset whose length is not [sz]. *)
Lemma check_lengths_raises (f : @h5file Row) (sz : nat) (file : string)
    (keys : list (string * list Row)) (o : obj) :
  NoDup (map fst f) → (∀ kd, kd ∈ keys → kd ∈ f) →
  Exists (λ kd, length (snd kd) ≠ sz) keys →
  check_lengths f sz file (map fst keys) o
  = (o, inl (ValueError ("all datasets in " +:+ file +:+ " must be the same length"))).
Proof.
  intros Hnd Hsub Hex. induction keys as [|[k d] keys IH]; [inversion Hex |].
  cbn [map fst check_lengths]. unfold dataset.
  rewrite (h5_get_in f k d Hnd) by (apply Hsub; left).
  unfold ibind, iret. destruct (Nat.eqb_spec (length d) sz) as [Heq | Hne];
    cbn [negb]; [| reflexivity].
  apply IH.
  - intros kd Hkd. apply Hsub. now right.
  - inversion Hex as [? ? Hhd | ? ? Htl]; subst; [now cbn in Hhd | exact Htl].
Qed.

(** Datasets of different lengths: one of them differs from the first. *)
Lemma differs_from_first (k0 : string) (d0 : list Row) (rest : @h5file Row) :
  ¬ same_length ((k0, d0) :: rest) →
  Exists (λ kd, length (snd kd) ≠ length d0) rest.
Proof.
  intros Hns.
  destruct (decide (Forall (λ kd : string * list Row, length (snd kd) = length d0) rest))
    as [Hall | Hnot].
  - exfalso. apply Hns. intros a b Ha Hb.
    assert (Hfirst : ∀ c, c ∈ (k0, d0) :: rest → length (snd c) = length d0).
    { intros c Hc. apply elem_of_cons in Hc as [-> | Hc]; [reflexivity |].
      rewrite Forall_forall in Hall. now apply Hall. }
    now rewrite (Hfirst a Ha), (Hfirst b Hb).
  - apply not_Forall_Exists in Hnot; [| intros x; apply _].
    eapply Exists_impl; [exact Hnot |]. intros x Hx. exact Hx.
Qed.

Lemma early_attrs_only (E : env) (file : string) (comm_size comm_rank : nat)
    (transforms : @value Row) (use_gpu : bool) (name : string) :
  name ∉ ["ishuffle"; "file"; "comm"; "transforms"; "gpu"; "torch_device"] →
  early_attrs E file comm_size comm_rank transforms use_gpu !! name = None.
Proof.
  intros Hname. unfold early_attrs.
  assert (Hne : ∀ k, k ∈ ["ishuffle"; "file"; "comm"; "transforms"; "gpu"; "torch_device"]
                  → k ≠ name) by (intros k Hk ->; contradiction).
  destruct (cuda_is_available E && use_gpu);
    rewrite !lookup_insert_ne by (apply Hne; set_solver); apply lookup_empty.
Qed.

(** C10.  When the datasets of the file do not all have the same length,
    [__init__] raises [ValueError]: the length of the first dataset is the
    reference and the first other dataset of another length stops the
    constructor.  The object then has the attributes of lines 89-98 and no
    other: nothing of the loader (sizes, bounds, portions of data, queues,
    [used_indices]) is set and no thread is started. *)
Theorem init_rejects_unequal_lengths (E : env) (file : string)
    (comm_size comm_rank : nat) (dataset_names transforms : @value Row)
    (use_gpu validate_set : bool) (initial_load load_length : Z) (f : h5file) :
  fs E file = Some f → NoDup (map fst f) →
  (cuda_is_available E = true → 0 < cuda_device_count E) →
  ¬ same_length f →
  __init__ E file comm_size comm_rank dataset_names transforms use_gpu validate_set
    initial_load load_length new_obj
  = (mkObj (early_attrs E file comm_size comm_rank transforms use_gpu) 0 1,
     inl (ValueError ("all datasets in " +:+ file +:+ " must be the same length"))) ∧
  (∀ name,
     name ∉ ["ishuffle"; "file"; "comm"; "transforms"; "gpu"; "torch_device"] →
     early_attrs E file comm_size comm_rank transforms use_gpu !! name = None).
Proof.
  intros Hfs Hnd Hcuda Hns. split; [| intros name; apply early_attrs_only].
  destruct f as [|[k0 d0] rest].
  { exfalso. apply Hns. intros a b Ha. now apply elem_of_nil in Ha. }
  pose proof (differs_from_first k0 d0 rest Hns) as Hex.
  assert (Hcheck : ∀ o, check_lengths ((k0, d0) :: rest) (length d0) file (map fst rest) o
            = (o, inl (ValueError ("all datasets in " +:+ file
                                   +:+ " must be the same length")))).
  { intros o. apply check_lengths_raises; [exact Hnd | | exact Hex].
    intros kd Hkd. now right. }
  unfold __init__, early_attrs, new_obj.
  destruct (cuda_is_available E && use_gpu) eqn:Hgpu.
  - apply andb_true_iff in Hgpu as [Hav _]. specialize (Hcuda Hav).
    destruct (Nat.eqb_spec (cuda_device_count E) 0) as [H0 | _]; [lia |].
    unfold ibind, setattr, open_file, iret, dataset. cbn [attrs threads open_handles].
    rewrite Hfs. cbn [map fst tail h5_get].
    destruct (decide (k0 = k0)); [| contradiction]. unfold iret. now rewrite Hcheck.
  - unfold ibind, setattr, open_file, iret, dataset. cbn [attrs threads open_handles].
    rewrite Hfs. cbn [map fst tail h5_get].
    destruct (decide (k0 = k0)); [| contradiction]. unfold iret. now rewrite Hcheck.
Qed.

End DatasetFacts.

(** Two datasets, of two and of three rows. *)
Lemma init_rejects_unequal_lengths_witness :
  PartialH5Dataset.__init__
    (PartialH5Dataset.mkEnv
       (λ _, Some [("data", [1; 2]); ("labels", [1; 2; 3])]) 0 false 0)
    "train.h5" 1 0 (PartialH5Dataset.VStr "data") PartialH5Dataset.VNone true false
    7000 1000 PartialH5Dataset.new_obj
  = (PartialH5Dataset.mkObj
       (PartialH5Dataset.early_attrs
          (PartialH5Dataset.mkEnv
             (λ _, Some [("data", [1; 2]); ("labels", [1; 2; 3])]) 0 false 0)
          "train.h5" 1 0 PartialH5Dataset.VNone true) 0 1,
     inl (ValueError "all datasets in train.h5 must be the same length")).
Proof.
  refine (proj1 (init_rejects_unequal_lengths
                   (PartialH5Dataset.mkEnv
                      (λ _, Some [("data", [1; 2]); ("labels", [1; 2; 3])]) 0 false 0)
                   "train.h5" 1 0 (PartialH5Dataset.VStr "data") PartialH5Dataset.VNone
                   true false 7000 1000 [("data", [1; 2]); ("labels", [1; 2; 3])]
                   eq_refl _ _ _)).
  - cbn [map fst]. apply NoDup_cons. split; [| apply NoDup_singleton].
    intros Hin. apply list_elem_of_singleton in Hin. discriminate Hin.
  - discriminate.
  - intros H.
    specialize (H ("data", [1; 2]) ("labels", [1; 2; 3])
                  ltac:(set_solver) ltac:(set_solver)).
    discriminate H.
Defined.

(** * Further properties of the solvers *)

Section SolverEdges.
Context {R : Type} {SR : Scalar R} {RT : Runtime R}.

(** [cg] on a square system, with everything the loop lemma gives. *)
Lemma cg_run (A b x0 : DNDarray R) (n : nat) (out : option loc) (w : world R) :
  shape A = [n; n] → shape b = [n] → shape x0 = [n] →
  ∃ (w' : world R) (x : DNDarray R) (k : nat),
    cg (PyDND A) (PyDND b) (PyDND x0) out w = (w', inr x) ∧
    shape x = [n] ∧ rng w' = rng w ∧ loop_iters w' = loop_iters w + k ∧
    (n = 0 ∨ 1 ≤ k).
Proof.
  intros HA Hb Hx. rewrite cg_ignores_out. unfold cg, ndim, len. rewrite HA, Hb, Hx.
  cbn [length Nat.eqb negb hd]. unfold sub.
  array_step (matmul_mv _ _ n n).
  array_step (binop_vv s_sub _ _ n).
  array_step (matmul_vv _ _ n).
  cbn [larray].
  match goal with
  | |- context [cg_loop n 0 A x0 ?r ?p ?rs] =>
      destruct (cg_loop_run n A HA n 0 x0 r p rs
                  (cg_init n (larray A) (larray b) (larray x0)) w)
        as (w' & x & k & Hrun & Hsh & _ & Hrng & Hit & Hk & Hcase)
  end.
  { unfold cg_repr, cg_init. cbn [cg_x cg_r cg_p cg_rs shape larray]. auto. }
  exists w', x, k. unfold bind. rewrite Hrun. cbn.
  repeat split; try assumption.
  destruct Hcase as [(j & -> & _) | (-> & _)]; [right; lia |].
  destruct n; [now left | right; lia].
Qed.

(** X1.  [cg] tests the residual only after an update: for a system of
    size [n >= 1] at least one pass of the loop runs, whatever [x0] is.  The
    array returned has the shape of [x0], and [cg] makes no draw from the
    random generator. *)
Theorem cg_runs_a_pass_before_testing (A b x0 : DNDarray R) (n : nat)
    (out : option loc) (w : world R) :
  shape A = [n; n] → shape b = [n] → shape x0 = [n] → 1 ≤ n →
  ∃ (w' : world R) (x : DNDarray R),
    cg (PyDND A) (PyDND b) (PyDND x0) out w = (w', inr x) ∧
    loop_iters w < loop_iters w' ∧ shape x = shape x0 ∧ rng w' = rng w.
Proof.
  intros HA Hb Hx Hn.
  destruct (cg_run A b x0 n out w HA Hb Hx) as (w' & x & k & Hrun & Hsh & Hrng & Hit & Hk).
  exists w', x. repeat split; [exact Hrun | | congruence | exact Hrng].
  destruct Hk; lia.
Qed.

(** X3.  The argument checks of [lanczos], in their order: [A] that is not
    a [DNDarray] raises [TypeError]; an array [A] that is not 2-D raises
    [RuntimeError]; with a 2-D [A], an [m] that is neither [int] nor [float]
    raises [TypeError], before the shape of [A] is looked at.  The world is
    the one of the call in each case. *)
Theorem lanczos_rejects_bad_arguments (A m : pyobj R) (v0 V_out T_out : option loc)
    (w : world R) :
  (isinstance_DNDarray A = false →
   lanczos A m v0 V_out T_out w
   = (w, inl (TypeError ("A needs to be of type ht.dndarra, but was " +:+ type_repr A)))) ∧
  (∀ d, A = PyDND d → ndim d ≠ 2 →
   lanczos A m v0 V_out T_out w = (w, inl (RuntimeError "A needs to be a 2D matrix"))) ∧
  (∀ d, A = PyDND d → ndim d = 2 → isinstance_int_float m = false →
   lanczos A m v0 V_out T_out w
   = (w, inl (TypeError ("m must be eiter int or float, but was " +:+ type_repr m)))).
Proof.
  repeat split.
  - destruct A; cbn; intros H; try discriminate H; reflexivity.
  - intros d -> Hd. unfold lanczos. apply Nat.eqb_neq in Hd. now rewrite Hd.
  - intros d -> Hd Hm. unfold lanczos. rewrite Hd, Hm. reflexivity.
Qed.

(** X4.  [m = 0] passes the checks of [lanczos]: for a square [A] of the
    default dtype the call draws its random starting vector and fails only
    when it stores [alpha] at [T[0, 0]], with [IndexError]; no pass of the
    loop has run. *)
Theorem lanczos_zero_m_fails_at_first_store (A : DNDarray R) (n : nat)
    (V_out T_out : option loc) (w : world R) :
  shape A = [n; n] → dtype_of A = default_float →
  ∃ msg,
    lanczos (PyDND A) (PyInt 0) None V_out T_out w
    = (mkWorld (heap w) (S (rng w)) (stdout w) (loop_iters w), inl (IndexError msg)).
Proof.
  intros HA HdA. eexists. unfold lanczos, ndim. rewrite HA.
  cbn [length Nat.eqb negb isinstance_int_float nth].
  rewrite Nat.eqb_refl. cbn [negb]. unfold zeros.
  array_step full_square. rewrite lanczos_basis_split, bind_ret by lia.
  unfold lanczos_start. cbn [arg_value]. rewrite bind_ret.
  rewrite bind_assoc, bind_rand
    by (cbn [split]; unfold basis_split; destruct (decide (split A = Some 0)); auto).
  cbn [split]. unfold div, mul, sub.
  array_step (norm_vector _ n).
  array_step (binop_vs s_div _ _ n).
  cbn [dtype_of]. rewrite promote_same.
  array_step (matmul_mv _ _ n n).
  rewrite (dot_vv _ _ n)
    by (first [reflexivity | cbn [dtype_of]; rewrite HdA; apply promote_same]).
  rewrite bind_ret.
  array_step (binop_sv s_mul _ _ n).
  array_step (binop_vv s_sub _ _ n).
  reflexivity.
Qed.

End SolverEdges.

Section LanczosStart.
Context {R : Type} {SR : Scalar R} {RT : Runtime R}.

(** Passes append to the basis and to the coefficients: what is there
    stays. *)
Lemma krylov_iter_lengths (n : nat) (A : list R) (k : nat) (st : krylov) :
  length (kr_basis (Nat.iter k (krylov_next n A) st)) = length (kr_basis st) + k ∧
  length (kr_alphas (Nat.iter k (krylov_next n A) st)) = length (kr_alphas st) + k.
Proof.
  induction k as [|k [IHb IHa]]; [cbn; lia | rewrite !Nat.iter_succ].
  rewrite krylov_next_basis.
  destruct (krylov_next_alphas n A (Nat.iter k (krylov_next n A) st)) as (v & _ & ->).
  rewrite !length_app, IHb, IHa. cbn [length]. lia.
Qed.

Lemma krylov_iter_keeps (n : nat) (A : list R) (k : nat) (st : krylov) (i : nat) :
  (i < length (kr_basis st) →
   nth i (kr_basis (Nat.iter k (krylov_next n A) st)) [] = nth i (kr_basis st) []) ∧
  (i < length (kr_alphas st) →
   nth i (kr_alphas (Nat.iter k (krylov_next n A) st)) s_zero
   = nth i (kr_alphas st) s_zero).
Proof.
  induction k as [|k [IHb IHa]]; [split; reflexivity | rewrite !Nat.iter_succ].
  destruct (krylov_iter_lengths n A k st) as [Lb La].
  rewrite krylov_next_basis.
  destruct (krylov_next_alphas n A (Nat.iter k (krylov_next n A) st)) as (v & _ & ->).
  split; intros Hi; rewrite nth_snoc.
  - rewrite Lb. destruct (Nat.eqb_spec i (length (kr_basis st) + k)); [lia | auto].
  - rewrite La. destruct (Nat.eqb_spec i (length (kr_alphas st) + k)); [lia | auto].
Qed.

(** A pass makes at most one draw. *)
Lemma krylov_iter_draws (n : nat) (A : list R) (k : nat) (st : krylov) :
  kr_rng st ≤ kr_rng (Nat.iter k (krylov_next n A) st) ≤ kr_rng st + k.
Proof.
  induction k as [|k IH]; [cbn; lia | rewrite !Nat.iter_succ].
  unfold krylov_next at 1 3. cbn [kr_rng].
  destruct (krylov_breakdown n (Nat.iter k (krylov_next n A) st)); lia.
Qed.

(** The generator is called once for the start and once in each pass that
    meets a breakdown. *)
Lemma krylov_run_draws (n : nat) (A : list R) (draws m : nat) :
  1 ≤ m →
  kr_rng (krylov_run n A draws m) = S draws + length (breakdown_passes n A draws m).
Proof.
  induction m as [|m IH]; [lia |]. intros _.
  destruct m as [|m]; [unfold breakdown_passes; cbn; lia |].
  rewrite krylov_run_S by lia. unfold breakdown_passes in *.
  replace (S (S m) - 1) with (S (S m - 1)) by lia.
  rewrite seq_S, filter_app, length_app, Nat.add_assoc, <- IH by lia.
  replace (1 + (S m - 1)) with (S m) by lia.
  unfold krylov_next at 1. cbn [kr_rng].
  rewrite filter_cons, filter_nil.
  destruct (krylov_breakdown n (krylov_run n A draws (S m))) eqn:E.
  - destruct (decide (true = true)); [cbn; lia | contradiction].
  - destruct (decide (false = true)); [discriminate | cbn; lia].
Qed.

(** Lines 119-121 with a vector of the caller: its content is the starting
    vector, and it is replaced only when its split axis differs. *)
Lemma lanczos_start_given (n : nat) (V d : DNDarray R) (l : loc) (w : world R) :
  heap w l = PyDND d → shape d = [n] →
  split V = None ∨ split V = Some 0 →
  ∃ (w1 : world R) (d1 : DNDarray R),
    lanczos_start n V (Some l) w = (w1, inr d1) ∧
    shape d1 = [n] ∧ larray d1 = larray d ∧ dtype_of d1 = dtype_of d ∧
    rng w1 = rng w ∧ stdout w1 = stdout w ∧ loop_iters w1 = loop_iters w ∧
    (split d = split V → w1 = w).
Proof.
  intros Hl Hd HV. destruct (decide (split d = split V)) as [E | E].
  - exists w, d. unfold lanczos_start. cbn [arg_value].
    unfold bind at 1. unfold deref. rewrite Hl.
    destruct (decide (split d = split V)); [| contradiction]. auto 10.
  - eexists _, _. split; [apply (lanczos_start_resplits n V d l w Hl E) |].
    + destruct HV as [-> | ->]; [now left | right]. unfold ndim. rewrite Hd. cbn. auto.
    + cbn [resplit shape larray dtype_of rng stdout loop_iters]. repeat split; auto.
      intros; contradiction.
Qed.

(** [lanczos(A, m, v0)] with one process and a vector [v0] of [n] entries
    and of the dtype of [A] held by the caller: the call returns and its
    arrays hold the Krylov state that starts from [v0], the coefficients as
    stored in the default dtype, which is that of [T]. *)
Lemma lanczos_run_from (A d : DNDarray R) (n : nat) (z : Z) (l : loc)
    (V_out T_out : option loc) (w0 : world R) :
  comm_size = 1 → shape A = [n; n] → (0 < z)%Z →
  heap w0 l = PyDND d → shape d = [n] → length (larray d) = n →
  dtype_of d = dtype_of A →
  ∃ (w' : world R) (V T : DNDarray R),
    lanczos (PyDND A) (PyInt z) (Some l) V_out T_out w0 = (w', inr (V, T)) ∧
    rng w' = kr_rng (krylov_run_from n (larray A) (larray d) (rng w0) (Z.to_nat z)) ∧
    loop_iters w' = loop_iters w0 + (Z.to_nat z - 1) ∧
    basis_repr n (Z.to_nat z) (Z.to_nat z)
      (krylov_run_from n (larray A) (larray d) (rng w0) (Z.to_nat z)) V ∧
    tri_repr (convert (dtype_of A) default_float) (Z.to_nat z) (Z.to_nat z)
      (krylov_run_from n (larray A) (larray d) (rng w0) (Z.to_nat z)) T.
Proof.
  intros Hp HA Hz Hl Hd Ld Hdd. set (m := Z.to_nat z).
  assert (Hm : 0 < m) by (unfold m; lia).
  unfold lanczos, ndim. rewrite HA. cbn [length Nat.eqb negb isinstance_int_float nth].
  rewrite Nat.eqb_refl. cbn [negb]. unfold zeros.
  array_step full_square. fold m. rewrite lanczos_basis_split, bind_ret by lia. fold m.
  pose proof (basis_split_axis A) as Hsp.
  destruct (lanczos_start_given n
              (mkDND [n; m] (basis_split A) (dtype_of A) (replicate (n * m) s_one))
              d l w0 Hl Hd Hsp)
    as (w1 & d1 & Hstart & Hd1 & Ld1 & Hdt1 & Hrng & Hout & Hit & _).
  rewrite (bind_run _ _ _ _ _ Hstart).
  destruct (lanczos_tail_run A d1 n z (basis_split A) default_float V_out T_out w1
              Hp HA Hz Hd1)
    as (V1 & T1 & r1 & Vl & Tl & Heq & _ & Hloop & _ & Hret & HB & _ & HT & _);
    [now rewrite Ld1 | congruence | exact Hsp |].
  fold m in Heq, Hloop, Hret, HB, HT.
  rewrite Ld1, Hrng in Hloop, Hret, HB, HT.
  rewrite Heq, (bind_run _ _ _ _ _ Hloop). cbn [fst snd]. rewrite Hret.
  eexists _, (resplit Vl None), Tl.
  split; [reflexivity |]. cbn [rng loop_iters]. rewrite Hit.
  split; [reflexivity |]. split; [reflexivity |]. split; [| exact HT].
  destruct HB as (H1 & H2 & H3 & H4 & H5).
  unfold basis_repr; cbn [resplit shape larray split]. repeat split; auto.
Qed.

End LanczosStart.

Section LanczosStartProperties.
Context {R : Type} {SR : Scalar R} {RT : Runtime R}.

(** X5.  With one process, a starting vector of the caller (a vector of
    [n] entries and of the dtype of [A], held at [l]) is used as it is
    given, without normalization: the call returns, column 0 of [V] is
    [v0], [T[0][0]] is [(A v0) . v0] as stored in the default dtype, which
    is that of [T], and the random generator is called at most once per
    pass, none for the start. *)
Theorem lanczos_takes_v0_as_given (A d : DNDarray R) (n : nat) (z : Z) (l : loc)
    (V_out T_out : option loc) (w : world R) :
  comm_size = 1 → shape A = [n; n] → (0 < z)%Z →
  heap w l = PyDND d → shape d = [n] → length (larray d) = n →
  dtype_of d = dtype_of A →
  ∃ (w' : world R) (V T : DNDarray R),
    lanczos (PyDND A) (PyInt z) (Some l) V_out T_out w = (w', inr (V, T)) ∧
    shape V = [n; Z.to_nat z] ∧ shape T = [Z.to_nat z; Z.to_nat z] ∧
    col_data n (Z.to_nat z) 0 (larray V) = larray d ∧
    entry (Z.to_nat z) T 0 0
    = convert (dtype_of A) default_float
        (dotp n (mv n n (larray A) (larray d)) (larray d)) ∧
    rng w ≤ rng w' ≤ rng w + (Z.to_nat z - 1).
Proof.
  intros Hp HA Hz Hl Hd Ld Hdd.
  destruct (lanczos_run_from A d n z l V_out T_out w Hp HA Hz Hl Hd Ld Hdd)
    as (w' & V & T & Hrun & Hrng & _ & (HV & _ & _ & _ & Hcols)
        & (HT & _ & HLa & _ & Hent)).
  exists w', V, T. split; [exact Hrun |]. split; [exact HV |]. split; [exact HT |].
  unfold krylov_run_from in *.
  destruct (krylov_iter_keeps n (larray A) (Z.to_nat z - 1)
              (krylov_start n (larray A) (larray d) (rng w)) 0) as [Kb Ka].
  split; [| split].
  - rewrite Hcols, Kb by (cbn; lia). reflexivity.
  - rewrite Hent by lia. unfold tri_entry. cbn [Nat.eqb].
    rewrite (nth_indep _ s_zero (convert (dtype_of A) default_float s_zero))
      by (rewrite length_map, HLa; lia).
    rewrite map_nth, Ka by (cbn; lia). reflexivity.
  - rewrite Hrng.
    exact (krylov_iter_draws n (larray A) (Z.to_nat z - 1)
             (krylov_start n (larray A) (larray d) (rng w))).
Qed.

(** X6.  With one process and a square [A] of the default dtype,
    [lanczos] without [v0] calls the random generator once for the starting
    vector and once more in each pass that meets a breakdown, and at no
    other time. *)
Theorem lanczos_draws_once_per_breakdown (A : DNDarray R) (n : nat) (z : Z)
    (V_out T_out : option loc) (w : world R) :
  comm_size = 1 → dtype_of A = default_float → shape A = [n; n] → (0 < z)%Z →
  ∃ (w' : world R) (V T : DNDarray R),
    lanczos (PyDND A) (PyInt z) None V_out T_out w = (w', inr (V, T)) ∧
    rng w' = S (rng w) + length (breakdown_passes n (larray A) (rng w) (Z.to_nat z)).
Proof.
  intros Hp HdA HA Hz.
  destruct (lanczos_run A n z V_out T_out w Hp HdA HA Hz) as (V & T & Hrun & _).
  eexists _, V, T. split; [exact Hrun |]. cbn [rng].
  apply krylov_run_draws. lia.
Qed.

(** X7.  A starting vector of the caller whose split axis is already the
    one chosen for [V] is not touched: after the call, however it ends,
    every object of the caller is as it was. *)
Theorem lanczos_keeps_v0_when_split_agrees (A d : DNDarray R) (n : nat) (z : Z)
    (l : loc) (V_out T_out : option loc) (w : world R) :
  shape A = [n; n] → (0 ≤ z)%Z →
  heap w l = PyDND d → split d = basis_split A →
  ∀ l', heap (fst (lanczos (PyDND A) (PyInt z) (Some l) V_out T_out w)) l' = heap w l'.
Proof.
  intros HA Hz Hl Hsp l'.
  unfold lanczos, ndim. rewrite HA. cbn [length Nat.eqb negb isinstance_int_float nth].
  rewrite Nat.eqb_refl. cbn [negb]. unfold zeros.
  array_step full_square. rewrite lanczos_basis_split, bind_ret by exact Hz.
  assert (Hstart : lanczos_start n
            (mkDND [n; Z.to_nat z] (basis_split A) (dtype_of A)
               (replicate (n * Z.to_nat z) s_one))
            (Some l) w = (w, inr d)).
  { unfold lanczos_start. cbn [arg_value]. unfold bind at 1. unfold deref. rewrite Hl.
    cbn [split]. destruct (decide (split d = basis_split A)); [reflexivity | contradiction]. }
  rewrite (bind_run _ _ _ _ _ Hstart).
  match goal with
  | |- context [fst (?c w)] =>
      assert (Hst : heap_stable c)
        by (unfold mul, sub, lanczos_return, copy;
            pose proof (@heap_stable_lanczos_loop R SR RT); heap_seq)
  end.
  apply Hst.
Qed.

End LanczosStartProperties.

Lemma cg_runs_a_pass_before_testing_witness :
  ∃ (w' : world float) (x : DNDarray float),
    cg (PyDND eye5) (PyDND (vec [1; 2; 3; 4; 5]%float))
       (PyDND (vec [1; 2; 3; 4; 5]%float)) None world0 = (w', inr x) ∧
    0 < loop_iters w'.
Proof.
  destruct (cg_runs_a_pass_before_testing eye5 (vec [1; 2; 3; 4; 5]%float)
              (vec [1; 2; 3; 4; 5]%float) 5 None world0 eq_refl eq_refl eq_refl
              ltac:(repeat constructor))
    as (w' & x & Hrun & Hit & _).
  exists w', x. split; [exact Hrun | exact Hit].
Defined.

Lemma lanczos_rejects_bad_arguments_witness :
  lanczos (PyStr "A") (PyInt 2) None None None world0
  = (world0,
     inl (TypeError ("A needs to be of type ht.dndarra, but was " +:+ "<class 'str'>"))) ∧
  lanczos (PyDND (vec [1; 2]%float)) (PyInt 2) None None None world0
  = (world0, inl (RuntimeError "A needs to be a 2D matrix")) ∧
  lanczos (PyDND wide23) (PyStr "2") None None None world0
  = (world0,
     inl (TypeError ("m must be eiter int or float, but was " +:+ "<class 'str'>"))).
Proof.
  split; [| split].
  - exact (proj1 (lanczos_rejects_bad_arguments (PyStr "A") (PyInt 2) None None None
                    world0) eq_refl).
  - refine (proj1 (proj2 (lanczos_rejects_bad_arguments (PyDND (vec [1; 2]%float))
                    (PyInt 2) None None None world0)) _ eq_refl _).
    cbn. discriminate.
  - exact (proj2 (proj2 (lanczos_rejects_bad_arguments (PyDND wide23) (PyStr "2")
                    None None None world0)) wide23 eq_refl eq_refl eq_refl).
Defined.

Lemma lanczos_zero_m_fails_at_first_store_witness :
  ∃ msg,
    lanczos (PyDND spd2) (PyInt 0) None None None world0
    = (mkWorld (heap world0) 1 [] 0, inl (IndexError msg)).
Proof.
  exact (lanczos_zero_m_fails_at_first_store (RT := float_runtime) spd2 2 None None
           world0 eq_refl eq_refl).
Defined.

(** The vector [(1, 0)] of the caller as column 0. *)
Lemma lanczos_takes_v0_as_given_witness :
  ∃ (w' : world float) (V T : DNDarray float),
    lanczos (PyDND spd2) (PyInt 2) (Some 0) None None world_v0 = (w', inr (V, T)) ∧
    col_data 2 2 0 (larray V) = [1; 0]%float.
Proof.
  destruct (lanczos_takes_v0_as_given (RT := float_runtime) spd2
              (mkDND [2] (Some 0) Float32 [1; 0]%float) 2 2 0
              None None world_v0 eq_refl eq_refl eq_refl eq_refl eq_refl eq_refl eq_refl)
    as (w' & V & T & Hrun & _ & _ & Hcol & _).
  exists w', V, T. split; [exact Hrun | exact Hcol].
Defined.

Lemma lanczos_draws_once_per_breakdown_witness :
  ∃ (w' : world float) (V T : DNDarray float),
    lanczos (PyDND zero2) (PyInt 2) None None None world0 = (w', inr (V, T)) ∧
    rng w' = 1 + length (breakdown_passes 2 (larray zero2) 0 2).
Proof.
  exact (lanczos_draws_once_per_breakdown (RT := float_runtime) zero2 2 2 None None
           world0 eq_refl eq_refl eq_refl eq_refl).
Defined.

(** On the zero matrix the one pass of [m = 2] meets a breakdown: two
    draws. *)
Example lanczos_zero_matrix_draws_twice :
  breakdown_passes 2 (larray zero2) 0 2 = [1].
Proof. vm_compute. reflexivity. Qed.

Lemma lanczos_keeps_v0_when_split_agrees_witness :
  heap (fst (lanczos (PyDND zero2) (PyInt 2) (Some 0) None None world_v0)) 0
  = PyDND (mkDND [2] (Some 0) Float32 [1; 0]%float).
Proof.
  refine (lanczos_keeps_v0_when_split_agrees zero2
            (mkDND [2] (Some 0) Float32 [1; 0]%float)
            2 2 0 None None world_v0 eq_refl _ eq_refl eq_refl 0).
  discriminate.
Defined.

(** * Further properties of the partial HDF5 dataset *)

Section DatasetInit.
Import PartialH5Dataset.
Context {Row : Type}.

Local Abbreviation obj := (@obj Row).
Local Abbreviation value := (@value Row).

Lemma ibind_iret {A B} (a : A) (k : A → @I Row B) : ibind (iret a) k = k a.
Proof. reflexivity. Qed.

Lemma ibind_setattr {B} (name : string) (v : value) (k : unit → @I Row B) (o : obj) :
  ibind (setattr name v) k o
  = k tt (mkObj (<[name := v]> (attrs o)) (threads o) (open_handles o)).
Proof. reflexivity. Qed.

Lemma ibind_getattr {B} (name : string) (v : value) (k : value → @I Row B) (o : obj) :
  attrs o !! name = Some v → ibind (getattr name) k o = k v o.
Proof. intros H. unfold ibind, getattr. now rewrite H. Qed.

Lemma ibind_run {A B} (c : @I Row A) (k : A → @I Row B) (o o' : obj) (a : A) :
  c o = (o', inr a) → ibind c k o = k a o'.
Proof. intros H. unfold ibind. now rewrite H. Qed.

Lemma ibind_fail {A B} (c : @I Row A) (k : A → @I Row B) (o o' : obj) (e : exn) :
  c o = (o', inl e) → ibind c k o = (o', inl e).
Proof. intros H. unfold ibind. now rewrite H. Qed.

Lemma lookup_write_all_notin (g : string → value) (names : list string)
    (m : gmap string value) (k : string) :
  k ∉ names → write_all g names m !! k = m !! k.
Proof.
  revert m. induction names as [|d names IH]; intros m Hk; [reflexivity |].
  cbn [write_all foldl]. fold (write_all g names (<[d := g d]> m)).
  rewrite IH by set_solver. apply lookup_insert_ne. set_solver.
Qed.

Lemma lookup_write_all_in (g : string → value) (names : list string)
    (m : gmap string value) (d : string) :
  d ∈ names → write_all g names m !! d = Some (g d).
Proof.
  revert m. induction names as [|d' names IH]; intros m Hd; [set_solver |].
  cbn [write_all foldl]. fold (write_all g names (<[d' := g d']> m)).
  destruct (decide (d ∈ names)) as [Hin | Hnin]; [now apply IH |].
  rewrite lookup_write_all_notin by exact Hnin.
  apply elem_of_cons in Hd as [-> | Hin]; [apply lookup_insert_eq | contradiction].
Qed.

(** The check passes when every dataset has the length of the first. *)
Lemma check_lengths_passes (f : @h5file Row) (sz : nat) (file : string)
    (keys : list (string * list Row)) (o : obj) :
  NoDup (map fst f) → (∀ kd, kd ∈ keys → kd ∈ f) →
  Forall (λ kd, length (snd kd) = sz) keys →
  check_lengths f sz file (map fst keys) o = (o, inr tt).
Proof.
  intros Hnd Hsub Hall. induction keys as [|[k d] keys IH]; [reflexivity |].
  cbn [map fst check_lengths]. unfold dataset.
  rewrite (h5_get_in f k d Hnd) by (apply Hsub; left).
  rewrite ibind_iret. apply Forall_cons in Hall as [Hd Htl]. cbn [snd] in Hd.
  rewrite Hd, Nat.eqb_refl. cbn [negb]. apply IH; [| exact Htl].
  intros kd Hkd. apply Hsub. now right.
Qed.

(** Membership in a list of names given in full. *)
Lemma not_special (d : string) :
  d ∉ special_attrs →
  d ≠ "__class__" ∧ d ≠ "__dict__" ∧ d ≠ "__weakref__" ∧ d ≠ "__setattr__" ∧
  d ≠ "thread_replace_converted_batches".
Proof.
  intros H. repeat split; intros ->; apply H; unfold special_attrs;
    apply list_elem_of_In; cbn [In]; auto 10.
Qed.

(** Line 143 for a plain name on an object that has its method. *)
Lemma setattr_named_plain (name : string) (v : value) (o : obj) :
  attrs o !! "__setattr__" = None → name ∉ special_attrs →
  setattr_named name v o = setattr name v o.
Proof.
  intros Hm Hn. apply not_special in Hn as (H1 & H2 & H3 & _).
  unfold setattr_named. rewrite Hm.
  destruct (decide (name = "__class__")); [contradiction |].
  destruct (decide (name = "__dict__")); [contradiction |].
  destruct (decide (name = "__weakref__")); [contradiction | reflexivity].
Qed.

(** The loop of line 141 goes through the names given. *)
Lemma iter_names_given (dataset_names : value) (names : list string) :
  names_given dataset_names names →
  iter_names dataset_names = iret (map VStr names).
Proof. intros [(s & -> & ->) | ->]; reflexivity. Qed.

(** [math.ceil(a / b)] is the ceiling of the exact quotient for operands
    below [2^52]. *)
Lemma math_ceil_div_exact (a b : Z) :
  b ≠ 0%Z → (Z.abs a < 2 ^ 52)%Z → (Z.abs b < 2 ^ 52)%Z →
  @math_ceil_div Row a b = iret (ceil_div a b).
Proof.
  intros Hb Ha Hb'. unfold math_ceil_div.
  destruct (Z.eqb_spec b 0) as [? | _]; [contradiction |].
  destruct (Z.ltb_spec (Z.abs a) (2 ^ 52)) as [_ | ?]; [| lia].
  destruct (Z.ltb_spec (Z.abs b) (2 ^ 52)) as [_ | ?]; [reflexivity | lia].
Qed.

(** Lines 141-143 when every name is a dataset of the file, a plain name,
    and neither [load_start] nor [load_end]: each name gets the rows
    [a .. b - 1]. *)
Lemma load_named_loads (f : @h5file Row) (names : list string) (a b : Z) (o : obj) :
  attrs o !! "load_start" = Some (VInt a) → attrs o !! "load_end" = Some (VInt b) →
  attrs o !! "__setattr__" = None →
  "load_start" ∉ names → "load_end" ∉ names →
  (∀ d, d ∈ names → d ∉ special_attrs) →
  (∀ d, d ∈ names → is_Some (h5_get f d)) →
  load_named f (map VStr names) o
  = (mkObj (write_all (λ d, VRows (py_slice (rows_of f d) a b)) names (attrs o))
           (threads o) (open_handles o), inr tt).
Proof.
  revert o. induction names as [|d names IH]; intros o Ha Hb Hm Hs He Hpl Hin.
  - destruct o; reflexivity.
  - cbn [map load_named].
    destruct (Hin d ltac:(left)) as [rows Hrows].
    unfold dataset. rewrite Hrows, ibind_iret.
    rewrite (ibind_getattr _ _ _ _ Ha). cbn [as_int]. rewrite ibind_iret.
    rewrite (ibind_getattr _ _ _ _ Hb). cbn [as_int]. rewrite ibind_iret.
    assert (Hd : d ∉ special_attrs) by (apply Hpl; left).
    unfold ibind at 1. rewrite (setattr_named_plain _ _ _ Hm Hd). unfold setattr at 1.
    rewrite IH; cbn [attrs threads open_handles].
    + assert (Hr : rows_of f d = rows) by (unfold rows_of; now rewrite Hrows).
      cbn [write_all foldl]. now rewrite Hr.
    + rewrite lookup_insert_ne by set_solver. exact Ha.
    + rewrite lookup_insert_ne by set_solver. exact Hb.
    + rewrite lookup_insert_ne by (apply not_special in Hd; intros ->; tauto). exact Hm.
    + set_solver.
    + set_solver.
    + intros d' Hd'. apply Hpl. now right.
    + intros d' Hd'. apply Hin. now right.
Qed.

End DatasetInit.

(** Reads an attribute of an object given by the chain of its writes. *)
Ltac read_attr :=
  cbn [PartialH5Dataset.attrs];
  repeat first
    [ rewrite lookup_insert_eq
    | rewrite lookup_insert_ne by discriminate
    | rewrite lookup_write_all_notin by assumption ];
  reflexivity.

(** Brings the read of an attribute to the write that it finds. *)
Ltac find_attr :=
  cbn [PartialH5Dataset.attrs];
  repeat first
    [ rewrite lookup_insert_eq
    | rewrite lookup_insert_ne by discriminate
    | rewrite lookup_write_all_notin by assumption ].

(** Runs the writes and reads at the head of a constructor's sequence. *)
Ltac init_step :=
  first
    [ rewrite ibind_setattr
    | rewrite ibind_iret
    | erewrite ibind_getattr by read_attr ];
  cbn [PartialH5Dataset.attrs PartialH5Dataset.threads PartialH5Dataset.open_handles
       PartialH5Dataset.as_int].

Section DatasetInitRuns.
Import PartialH5Dataset.
Context {Row : Type}.

(** With datasets of one length, [__init__] passes its checks and goes on
    with lines 109-155 on the object that has the attributes of lines
    89-98 and the file open. *)
Lemma init_reaches_loader (E : @env Row) (file : string) (comm_size comm_rank : nat)
    (dataset_names transforms : @value Row) (use_gpu validate_set : bool)
    (initial_load load_length : Z) (k0 : string) (d0 : list Row)
    (rest : @h5file Row) :
  fs E file = Some ((k0, d0) :: rest) → NoDup (map fst ((k0, d0) :: rest)) →
  (cuda_is_available E = true → 0 < cuda_device_count E) →
  same_length ((k0, d0) :: rest) →
  __init__ E file comm_size comm_rank dataset_names transforms use_gpu validate_set
    initial_load load_length new_obj
  = init_loader ((k0, d0) :: rest) (length d0) comm_size comm_rank dataset_names
      validate_set initial_load load_length
      (mkObj (early_attrs E file comm_size comm_rank transforms use_gpu) 0 1).
Proof.
  intros Hfs Hnd Hcuda Hsame.
  assert (Hcheck : ∀ o, check_lengths ((k0, d0) :: rest) (length d0) file (map fst rest) o
            = (o, inr tt)).
  { intros o. apply check_lengths_passes; [exact Hnd | intros kd Hkd; now right |].
    apply Forall_forall. intros kd Hkd.
    apply (Hsame kd (k0, d0)); [now right | now left]. }
  unfold __init__, init_loader, early_attrs, new_obj.
  destruct (cuda_is_available E && use_gpu) eqn:Hgpu.
  - apply andb_true_iff in Hgpu as [Hav _]. specialize (Hcuda Hav).
    destruct (Nat.eqb_spec (cuda_device_count E) 0) as [H0 | _]; [lia |].
    repeat init_step.
    unfold open_file at 1. unfold ibind at 1. rewrite Hfs. cbn [map fst tail].
    rewrite ibind_iret. unfold dataset at 1. cbn [h5_get].
    destruct (decide (k0 = k0)); [| contradiction]. rewrite ibind_iret.
    rewrite (ibind_run _ _ _ _ _ (Hcheck _)). reflexivity.
  - repeat init_step.
    unfold open_file at 1. unfold ibind at 1. rewrite Hfs. cbn [map fst tail].
    rewrite ibind_iret. unfold dataset at 1. cbn [h5_get].
    destruct (decide (k0 = k0)); [| contradiction]. rewrite ibind_iret.
    rewrite (ibind_run _ _ _ _ _ (Hcheck _)). reflexivity.
Qed.

End DatasetInitRuns.

Section DatasetInitSucceeds.
Import PartialH5Dataset.
Context {Row : Type}.

Lemma ibind_assoc {A B C} (c : @I Row A) (f : A → @I Row B) (g : B → @I Row C)
    (o : @obj Row) :
  ibind (ibind c f) g o = ibind c (λ a, ibind (f a) g) o.
Proof. unfold ibind. destruct (c o) as [o' [e | a]]; reflexivity. Qed.

Lemma h5_get_Some_in (f : @h5file Row) (k : string) (d : list Row) :
  h5_get f k = Some d → (k, d) ∈ f.
Proof.
  induction f as [|[k' d'] f IH]; [discriminate |]. cbn [h5_get].
  destruct (decide (k' = k)) as [-> | _]; intros H.
  - injection H as ->. now left.
  - right. now apply IH.
Qed.

(** A whole dataset is the slice from 0 to its length. *)
Lemma py_slice_all (rows : list Row) :
  py_slice rows 0 (Z.of_nat (length rows)) = rows.
Proof.
  unfold py_slice, clamp. cbn [Z.ltb Z.compare Z.to_nat].
  destruct (Z.ltb_spec (Z.of_nat (length rows)) 0) as [? | _]; [lia |].
  rewrite Nat2Z.id, Nat.min_0_l, Nat.min_id, Nat.sub_0_r. cbn [skipn].
  apply firstn_all.
Qed.

(** A slice that lies inside the dataset has as many rows as it spans. *)
Lemma py_slice_inside (rows : list Row) (a len : Z) :
  (0 ≤ a)%Z → (0 ≤ len)%Z → (a + len ≤ Z.of_nat (length rows))%Z →
  py_slice rows a (a + len) = firstn (Z.to_nat len) (skipn (Z.to_nat a) rows) ∧
  length (py_slice rows a (a + len)) = Z.to_nat len.
Proof.
  intros Ha Hlen Hin. unfold py_slice, clamp.
  destruct (Z.ltb_spec a 0) as [? | _]; [lia |].
  destruct (Z.ltb_spec (a + len) 0) as [? | _]; [lia |].
  rewrite !Nat.min_l by lia.
  replace (Z.to_nat (a + len) - Z.to_nat a) with (Z.to_nat len) by lia.
  split; [reflexivity |]. rewrite length_firstn, length_skipn. lia.
Qed.

End DatasetInitSucceeds.

(** Runs a constructor's sequence as far as writes and reads go. *)
Ltac init_run :=
  repeat first [ init_step | rewrite ibind_assoc ].

(** Membership in the list of the constructor's own attributes. *)
Ltac in_own :=
  unfold PartialH5Dataset.own_attrs; apply list_elem_of_In; cbn [In]; auto 40.

(** Membership in the list of the names that are no plain attribute. *)
Ltac in_special :=
  unfold PartialH5Dataset.special_attrs; apply list_elem_of_In; cbn [In]; auto 10.

Section DatasetInitFull.
Import PartialH5Dataset.
Context {Row : Type}.

(** A name of a dataset is none of the constructor's own attributes. *)
Lemma own_attr_notin (names : list string) (k : string) :
  (∀ d, d ∈ names → d ∉ own_attrs) → k ∈ own_attrs → k ∉ names.
Proof. intros Hd Hk Hin. exact (Hd k Hin Hk). Qed.

(** Lines 89-98 set no attribute that hides a method. *)
Lemma early_attrs_no_method (E : @env Row) (file : string) (comm_size comm_rank : nat)
    (transforms : @value Row) (use_gpu : bool) (name : string) :
  name ∈ special_attrs →
  early_attrs E file comm_size comm_rank transforms use_gpu !! name = None.
Proof.
  intros Hname. apply early_attrs_only. intros Hin.
  apply list_elem_of_In in Hname. apply list_elem_of_In in Hin.
  unfold special_attrs in Hname. cbn [In] in Hname, Hin.
  repeat (destruct Hname as [<- | Hname];
          [repeat (destruct Hin as [Hin | Hin]; [discriminate Hin |]); exact Hin |]).
  exact Hname.
Qed.

(** X8.  For a validation set, or when [initial_load] exceeds the share of
    a process, [__init__] loads everything: with datasets of one length
    [sz], a communicator of at least one process, and names that are
    datasets of the file, none of the constructor's own attributes and none
    of the names that [__setattr__] refuses or that hide a method, it
    returns with the file closed and two threads started; [__len__] is
    [sz], the dataset is not partial, no load is needed, the window of the
    next load starts and ends at [sz], and the attribute of each name is the
    whole dataset. *)
Theorem init_loads_whole_file (E : @env Row) (file : string)
    (comm_size comm_rank : nat) (dataset_names transforms : @value Row)
    (use_gpu validate_set : bool) (initial_load load_length : Z)
    (k0 : string) (d0 : list Row) (rest : @h5file Row) (names : list string) :
  fs E file = Some ((k0, d0) :: rest) → NoDup (map fst ((k0, d0) :: rest)) →
  (cuda_is_available E = true → 0 < cuda_device_count E) →
  same_length ((k0, d0) :: rest) → 1 ≤ comm_size →
  validate_set = true ∨
  (Z.of_nat (length d0) / Z.of_nat comm_size < initial_load)%Z →
  names_given dataset_names names →
  (∀ d, d ∈ names → is_Some (h5_get ((k0, d0) :: rest) d)) →
  (∀ d, d ∈ names → d ∉ own_attrs) →
  (∀ d, d ∈ names → d ∉ special_attrs) →
  ∃ o',
    __init__ E file comm_size comm_rank dataset_names transforms use_gpu validate_set
      initial_load load_length new_obj = (o', inr tt) ∧
    threads o' = 2 ∧ open_handles o' = 0 ∧
    __len__ o' = (o', inr (VInt (Z.of_nat (length d0)))) ∧
    attrs o' !! "partial_dataset" = Some (VBool false) ∧
    attrs o' !! "loads_needed" = Some (VInt 0) ∧
    attrs o' !! "load_start" = Some (VInt (Z.of_nat (length d0))) ∧
    attrs o' !! "load_end" = Some (VInt (Z.of_nat (length d0))) ∧
    (∀ d, d ∈ names → attrs o' !! d = Some (VRows (rows_of ((k0, d0) :: rest) d))).
Proof.
  intros Hfs Hnd Hcuda Hsame Hsize Hfull Hnames Hpresent Hown Hplain.
  rewrite (init_reaches_loader E file comm_size comm_rank dataset_names transforms
             use_gpu validate_set initial_load load_length k0 d0 rest Hfs Hnd Hcuda Hsame).
  set (f := (k0, d0) :: rest) in *. set (sz := Z.of_nat (length d0)).
  set (m0 := early_attrs E file comm_size comm_rank transforms use_gpu).
  assert (Hbranch : validate_set || (sz / Z.of_nat comm_size <? initial_load)%Z = true).
  { destruct Hfull as [-> | Hlt]; [reflexivity |].
    apply Z.ltb_lt in Hlt. fold sz in Hlt. rewrite Hlt. apply orb_true_r. }
  assert (Hnotin : ∀ k, k ∈ own_attrs → k ∉ names)
    by (intros k; apply own_attr_notin; exact Hown).
  assert (Hls : "load_start" ∉ names) by (apply Hnotin; in_own).
  assert (Hle : "load_end" ∉ names) by (apply Hnotin; in_own).
  assert (Hll : "load_len" ∉ names) by (apply Hnotin; in_own).
  assert (Hts : "total_size" ∉ names) by (apply Hnotin; in_own).
  assert (Hpd : "partial_dataset" ∉ names) by (apply Hnotin; in_own).
  assert (Hln : "loads_needed" ∉ names) by (apply Hnotin; in_own).
  assert (Hdn : "dataset_names" ∉ names) by (apply Hnotin; in_own).
  assert (Hdo : "dataset_order" ∉ names) by (apply Hnotin; in_own).
  assert (Hlf : "loads_left" ∉ names) by (apply Hnotin; in_own).
  unfold init_loader. fold sz. rewrite Hbranch, (iter_names_given _ _ Hnames).
  destruct (Nat.eqb_spec comm_size 0) as [? | _]; [lia |].
  init_run.
  erewrite ibind_run; cycle 1.
  { apply (load_named_loads f names 0 sz); try assumption;
      first [read_attr | find_attr; apply early_attrs_no_method; in_special]. }
  init_run.
  unfold close_file at 1. unfold ibind at 1.
  cbn [attrs threads open_handles].
  init_run.
  unfold start_thread at 1. unfold ibind at 1. cbn [attrs threads open_handles].
  init_run.
  unfold start_thread at 1. unfold ibind at 1. cbn [attrs threads open_handles].
  unfold setattr. cbn [attrs threads open_handles].
  eexists. split; [reflexivity |]. cbn [threads open_handles].
  split; [reflexivity |]. split; [reflexivity |].
  split; [unfold __len__, getattr; now find_attr |].
  split; [now find_attr |]. split; [now find_attr |].
  split; [now find_attr |].
  split; [find_attr; now rewrite Z.add_0_r |].
  intros d Hd. cbn [attrs].
  rewrite !lookup_insert_ne by (intros <-; apply (Hown _ Hd); in_own).
  rewrite lookup_write_all_in by exact Hd.
  destruct (Hpresent d Hd) as [rows Hrows].
  assert (Hlen : length rows = length d0).
  { apply (Hsame (d, rows) (k0, d0)); [now apply h5_get_Some_in | now left]. }
  unfold rows_of. rewrite Hrows. cbn [default]. unfold sz. rewrite <- Hlen.
  now rewrite py_slice_all.
Qed.

End DatasetInitFull.

Section DatasetInitPartial.
Import PartialH5Dataset.
Context {Row : Type}.

(** The share of a process lies inside the file. *)
Lemma local_share_inside (sz size rank : nat) :
  rank < size →
  ((Z.of_nat rank + 1) * (Z.of_nat sz / Z.of_nat size) ≤ Z.of_nat sz)%Z ∧
  (0 ≤ Z.of_nat rank * (Z.of_nat sz / Z.of_nat size))%Z ∧
  (0 ≤ Z.of_nat sz / Z.of_nat size)%Z.
Proof.
  intros Hr.
  assert (H1 : (0 ≤ Z.of_nat sz / Z.of_nat size)%Z) by (apply Z.div_pos; lia).
  assert (H2 : (Z.of_nat size * (Z.of_nat sz / Z.of_nat size) ≤ Z.of_nat sz)%Z)
    by (apply Z.mul_div_le; lia).
  repeat split; nia.
Qed.

(** [ceil_div a b], for a positive [b], is the least number of portions of
    [b] that cover [a]. *)
Lemma ceil_div_covers (a b : Z) :
  (0 < b)%Z → ((ceil_div a b - 1) * b < a ≤ ceil_div a b * b)%Z.
Proof.
  intros Hb. unfold ceil_div.
  pose proof (Z.div_mod (- a) b ltac:(lia)) as Hdm.
  pose proof (Z.mod_pos_bound (- a) b Hb) as Hm. nia.
Qed.

(** [self.comm] is set by line 92 and stays. *)
Lemma early_attrs_comm (E : @env Row) (file : string) (comm_size comm_rank : nat)
    (transforms : @value Row) (use_gpu : bool) :
  early_attrs E file comm_size comm_rank transforms use_gpu !! "comm"
  = Some (VComm comm_size comm_rank).
Proof.
  unfold early_attrs. destruct (cuda_is_available E && use_gpu);
    repeat first [rewrite lookup_insert_eq | rewrite lookup_insert_ne by discriminate];
    reflexivity.
Qed.

(** The object that [__init__] leaves when it loads a first portion. *)
Lemma init_first_portion_state (E : @env Row) (file : string)
    (comm_size comm_rank : nat) (dataset_names transforms : @value Row)
    (use_gpu : bool) (initial_load load_length : Z)
    (k0 : string) (d0 : list Row) (rest : @h5file Row) (names : list string) :
  fs E file = Some ((k0, d0) :: rest) → NoDup (map fst ((k0, d0) :: rest)) →
  (cuda_is_available E = true → 0 < cuda_device_count E) →
  same_length ((k0, d0) :: rest) → comm_rank < comm_size →
  (0 ≤ initial_load ≤ Z.of_nat (length d0) / Z.of_nat comm_size)%Z →
  load_length ≠ 0%Z →
  (Z.of_nat (length d0) < 2 ^ 52)%Z → (Z.abs load_length < 2 ^ 52)%Z →
  names_given dataset_names names →
  (∀ d, d ∈ names → is_Some (h5_get ((k0, d0) :: rest) d)) →
  (∀ d, d ∈ names → d ∉ own_attrs) →
  (∀ d, d ∈ names → d ∉ special_attrs) →
  ∃ o',
    __init__ E file comm_size comm_rank dataset_names transforms use_gpu false
      initial_load load_length new_obj = (o', inr tt) ∧
    threads o' = 2 ∧ open_handles o' = 0 ∧
    __len__ o' = (o', inr (VInt (Z.of_nat (length d0)))) ∧
    attrs o' !! "partial_dataset" = Some (VBool true) ∧
    attrs o' !! "loads_needed"
    = Some (VInt (ceil_div (Z.of_nat (length d0) / Z.of_nat comm_size) load_length)) ∧
    (attrs o' !! "local_data_start"
     = Some (VInt (Z.of_nat comm_rank * (Z.of_nat (length d0) / Z.of_nat comm_size))) ∧
     attrs o' !! "local_data_end"
     = Some (VInt ((Z.of_nat comm_rank + 1)
                   * (Z.of_nat (length d0) / Z.of_nat comm_size))) ∧
     ((Z.of_nat comm_rank + 1) * (Z.of_nat (length d0) / Z.of_nat comm_size)
      ≤ Z.of_nat (length d0))%Z) ∧
    (attrs o' !! "load_start"
     = Some (VInt (Z.of_nat comm_rank * (Z.of_nat (length d0) / Z.of_nat comm_size)
                   + initial_load)) ∧
     attrs o' !! "load_end"
     = Some (VInt (Z.of_nat comm_rank * (Z.of_nat (length d0) / Z.of_nat comm_size)
                   + initial_load + load_length))) ∧
    (∀ d, d ∈ names →
       attrs o' !! d
       = Some (VRows (firstn (Z.to_nat initial_load)
                        (skipn (comm_rank * (length d0 / comm_size))
                           (rows_of ((k0, d0) :: rest) d)))) ∧
       length (firstn (Z.to_nat initial_load)
                 (skipn (comm_rank * (length d0 / comm_size))
                    (rows_of ((k0, d0) :: rest) d)))
       = Z.to_nat initial_load) ∧
    (attrs o' !! "load_len" = Some (VInt load_length) ∧
     attrs o' !! "load_initial" = Some (VInt initial_load) ∧
     attrs o' !! "lcl_full_sz"
     = Some (VInt (Z.of_nat (length d0) / Z.of_nat comm_size)) ∧
     attrs o' !! "comm" = Some (VComm comm_size comm_rank) ∧
     attrs o' !! "convert_queue" = Some VQueue ∧
     attrs o' !! "loading_queue" = Some VQueue ∧
     attrs o' !! "thread_replace_converted_batches" = None).
Proof.
  intros Hfs Hnd Hcuda Hsame Hrank Hil Hll Hsz Hllb Hnames Hpresent Hown Hplain.
  rewrite (init_reaches_loader E file comm_size comm_rank dataset_names transforms
             use_gpu false initial_load load_length k0 d0 rest Hfs Hnd Hcuda Hsame).
  set (f := (k0, d0) :: rest) in *. set (sz := Z.of_nat (length d0)) in *.
  set (lcl := (sz / Z.of_nat comm_size)%Z) in *.
  set (m0 := early_attrs E file comm_size comm_rank transforms use_gpu).
  destruct (local_share_inside (length d0) comm_size comm_rank Hrank)
    as (Hend & Hstart & Hlcl). fold sz lcl in Hend, Hstart, Hlcl.
  assert (Hbranch : false || (lcl <? initial_load)%Z = false).
  { cbn [orb]. apply Z.ltb_ge. lia. }
  assert (Hnotin : ∀ k, k ∈ own_attrs → k ∉ names)
    by (intros k; apply own_attr_notin; exact Hown).
  assert (Hls : "load_start" ∉ names) by (apply Hnotin; in_own).
  assert (Hle : "load_end" ∉ names) by (apply Hnotin; in_own).
  assert (Hln' : "load_len" ∉ names) by (apply Hnotin; in_own).
  assert (Hts : "total_size" ∉ names) by (apply Hnotin; in_own).
  assert (Hpd : "partial_dataset" ∉ names) by (apply Hnotin; in_own).
  assert (Hln : "loads_needed" ∉ names) by (apply Hnotin; in_own).
  assert (Hdn : "dataset_names" ∉ names) by (apply Hnotin; in_own).
  assert (Hdo : "dataset_order" ∉ names) by (apply Hnotin; in_own).
  assert (Hlf : "loads_left" ∉ names) by (apply Hnotin; in_own).
  assert (Hs0 : "local_data_start" ∉ names) by (apply Hnotin; in_own).
  assert (He0 : "local_data_end" ∉ names) by (apply Hnotin; in_own).
  assert (Hli : "load_initial" ∉ names) by (apply Hnotin; in_own).
  assert (Hlc : "lcl_full_sz" ∉ names) by (apply Hnotin; in_own).
  assert (Hco : "comm" ∉ names) by (apply Hnotin; in_own).
  assert (Hcq : "convert_queue" ∉ names) by (apply Hnotin; in_own).
  assert (Hlq : "loading_queue" ∉ names) by (apply Hnotin; in_own).
  assert (Htr : "thread_replace_converted_batches" ∉ names)
    by (intros Hin; apply (Hplain _ Hin); in_special).
  assert (Hlclb : (Z.abs lcl < 2 ^ 52)%Z).
  { assert (lcl ≤ sz)%Z; [| lia].
    unfold lcl. apply Z.div_le_upper_bound; [lia | nia]. }
  unfold init_loader. fold sz lcl.
  rewrite Hbranch, (iter_names_given _ _ Hnames),
    (math_ceil_div_exact lcl load_length Hll Hlclb Hllb).
  destruct (Nat.eqb_spec comm_size 0) as [? | _]; [lia |].
  init_run.
  erewrite ibind_run; cycle 1.
  { apply (load_named_loads f names (Z.of_nat comm_rank * lcl)
             (Z.of_nat comm_rank * lcl + initial_load)); try assumption;
      first [read_attr | find_attr; apply early_attrs_no_method; in_special]. }
  init_run.
  unfold close_file at 1. unfold ibind at 1. cbn [attrs threads open_handles].
  init_run.
  unfold start_thread at 1. unfold ibind at 1. cbn [attrs threads open_handles].
  init_run.
  unfold start_thread at 1. unfold ibind at 1. cbn [attrs threads open_handles].
  unfold setattr. cbn [attrs threads open_handles].
  eexists. split; [reflexivity |]. cbn [threads open_handles].
  split; [reflexivity |]. split; [reflexivity |].
  split; [unfold __len__, getattr; now find_attr |].
  split; [now find_attr |]. split; [now find_attr |].
  split; [split; [now find_attr | split; [now find_attr | exact Hend]] |].
  split; [split; now find_attr |].
  split; cycle 1.
  { repeat split; find_attr; try reflexivity;
      first [apply early_attrs_comm | apply early_attrs_no_method; in_special]. }
  intros d Hd. cbn [attrs].
  rewrite !lookup_insert_ne by (intros <-; apply (Hown _ Hd); in_own).
  rewrite lookup_write_all_in by exact Hd.
  destruct (Hpresent d Hd) as [rows Hrows].
  assert (Hlen : length rows = length d0).
  { apply (Hsame (d, rows) (k0, d0)); [now apply h5_get_Some_in | now left]. }
  unfold rows_of. rewrite Hrows. cbn [default].
  destruct (py_slice_inside rows (Z.of_nat comm_rank * lcl) initial_load) as [Hsl Hsll];
    [lia | lia | rewrite Hlen; fold sz; nia |].
  assert (Hidx : Z.to_nat (Z.of_nat comm_rank * lcl) = comm_rank * (length d0 / comm_size)).
  { unfold lcl, sz. rewrite <- Nat2Z.inj_div, <- Nat2Z.inj_mul. apply Nat2Z.id. }
  change (id rows) with rows. rewrite <- Hidx, <- Hsl.
  split; [reflexivity | exact Hsll].
Qed.

(** X9.  Otherwise [__init__] loads a first portion: with datasets of one
    length [sz < 2^52], a process of rank below the size of the
    communicator, not a validation set, [0 <= initial_load <= sz // size],
    [load_length] not zero and below [2^52] in absolute value, and plain
    names of datasets of the file, it returns with the file closed and two
    threads started.
    [__len__] is the total [sz]; the share of the process,
    [rank * (sz // size) .. (rank + 1) * (sz // size)], lies inside the
    file; the attribute of each name holds the first [initial_load] rows of
    that share; the next load starts after them and spans [load_length]
    rows; and [loads_needed] is [ceil((sz // size) / load_length)]: for a
    positive [load_length], the least number of loads that cover the
    share. *)
Theorem init_loads_first_portion (E : @env Row) (file : string)
    (comm_size comm_rank : nat) (dataset_names transforms : @value Row)
    (use_gpu : bool) (initial_load load_length : Z)
    (k0 : string) (d0 : list Row) (rest : @h5file Row) (names : list string) :
  fs E file = Some ((k0, d0) :: rest) → NoDup (map fst ((k0, d0) :: rest)) →
  (cuda_is_available E = true → 0 < cuda_device_count E) →
  same_length ((k0, d0) :: rest) → comm_rank < comm_size →
  (0 ≤ initial_load ≤ Z.of_nat (length d0) / Z.of_nat comm_size)%Z →
  load_length ≠ 0%Z →
  (Z.of_nat (length d0) < 2 ^ 52)%Z → (Z.abs load_length < 2 ^ 52)%Z →
  names_given dataset_names names →
  (∀ d, d ∈ names → is_Some (h5_get ((k0, d0) :: rest) d)) →
  (∀ d, d ∈ names → d ∉ own_attrs) →
  (∀ d, d ∈ names → d ∉ special_attrs) →
  ∃ o',
    __init__ E file comm_size comm_rank dataset_names transforms use_gpu false
      initial_load load_length new_obj = (o', inr tt) ∧
    threads o' = 2 ∧ open_handles o' = 0 ∧
    __len__ o' = (o', inr (VInt (Z.of_nat (length d0)))) ∧
    attrs o' !! "partial_dataset" = Some (VBool true) ∧
    attrs o' !! "loads_needed"
    = Some (VInt (ceil_div (Z.of_nat (length d0) / Z.of_nat comm_size) load_length)) ∧
    (attrs o' !! "local_data_start"
     = Some (VInt (Z.of_nat comm_rank * (Z.of_nat (length d0) / Z.of_nat comm_size))) ∧
     attrs o' !! "local_data_end"
     = Some (VInt ((Z.of_nat comm_rank + 1)
                   * (Z.of_nat (length d0) / Z.of_nat comm_size))) ∧
     ((Z.of_nat comm_rank + 1) * (Z.of_nat (length d0) / Z.of_nat comm_size)
      ≤ Z.of_nat (length d0))%Z) ∧
    (attrs o' !! "load_start"
     = Some (VInt (Z.of_nat comm_rank * (Z.of_nat (length d0) / Z.of_nat comm_size)
                   + initial_load)) ∧
     attrs o' !! "load_end"
     = Some (VInt (Z.of_nat comm_rank * (Z.of_nat (length d0) / Z.of_nat comm_size)
                   + initial_load + load_length))) ∧
    (∀ d, d ∈ names →
       attrs o' !! d
       = Some (VRows (firstn (Z.to_nat initial_load)
                        (skipn (comm_rank * (length d0 / comm_size))
                           (rows_of ((k0, d0) :: rest) d)))) ∧
       length (firstn (Z.to_nat initial_load)
                 (skipn (comm_rank * (length d0 / comm_size))
                    (rows_of ((k0, d0) :: rest) d)))
       = Z.to_nat initial_load) ∧
    ((0 < load_length)%Z →
     ∃ loads, attrs o' !! "loads_needed" = Some (VInt loads) ∧
       ((loads - 1) * load_length < Z.of_nat (length d0) / Z.of_nat comm_size
        ≤ loads * load_length)%Z).
Proof.
  intros Hfs Hnd Hcuda Hsame Hrank Hil Hll Hsz Hllb Hnames Hpresent Hown Hplain.
  destruct (init_first_portion_state E file comm_size comm_rank dataset_names
              transforms use_gpu initial_load load_length k0 d0 rest names
              Hfs Hnd Hcuda Hsame Hrank Hil Hll Hsz Hllb Hnames Hpresent Hown Hplain)
    as (o' & Hrun & Ht & Hh & Hlen & Hpd & Hneeded & Hlocal & Hload & Hrows & _).
  exists o'. repeat (split; [assumption |]).
  intros Hpos.
  exists (ceil_div (Z.of_nat (length d0) / Z.of_nat comm_size) load_length).
  split; [exact Hneeded | now apply ceil_div_covers].
Qed.

End DatasetInitPartial.

(** A file of two datasets of three rows each. *)
Lemma two_datasets_same_length :
  PartialH5Dataset.same_length [("data", [1; 2; 3]); ("labels", [4; 5; 6])].
Proof.
  intros a b Ha Hb.
  apply list_elem_of_In in Ha. apply list_elem_of_In in Hb. cbn [In] in Ha, Hb.
  destruct Ha as [<- | [<- | []]]; destruct Hb as [<- | [<- | []]]; reflexivity.
Qed.

Lemma two_datasets_NoDup :
  NoDup (map fst [("data", [1; 2; 3]); ("labels", [4; 5; 6])]).
Proof.
  cbn [map fst]. apply NoDup_cons. split; [| apply NoDup_singleton].
  intros Hin. apply list_elem_of_singleton in Hin. discriminate Hin.
Qed.

Lemma data_is_no_own_attr :
  ∀ d : string, d ∈ ["data"] → d ∉ PartialH5Dataset.own_attrs.
Proof.
  intros d Hd Hin. apply list_elem_of_singleton in Hd. subst d.
  apply list_elem_of_In in Hin. unfold PartialH5Dataset.own_attrs in Hin.
  cbn [In] in Hin. repeat (destruct Hin as [Hin | Hin]; [discriminate Hin |]).
  exact Hin.
Qed.

Lemma data_is_plain :
  ∀ d : string, d ∈ ["data"] → d ∉ PartialH5Dataset.special_attrs.
Proof.
  intros d Hd Hin. apply list_elem_of_singleton in Hd. subst d.
  apply list_elem_of_In in Hin. unfold PartialH5Dataset.special_attrs in Hin.
  cbn [In] in Hin. repeat (destruct Hin as [Hin | Hin]; [discriminate Hin |]).
  exact Hin.
Qed.

Lemma data_is_present :
  ∀ d : string, d ∈ ["data"] →
    is_Some (PartialH5Dataset.h5_get [("data", [1; 2; 3]); ("labels", [4; 5; 6])] d).
Proof.
  intros d Hd. apply list_elem_of_singleton in Hd. subst d. eexists. reflexivity.
Qed.

(** A validation set on one process. *)
Lemma init_loads_whole_file_witness :
  ∃ o',
    PartialH5Dataset.__init__
      (PartialH5Dataset.mkEnv
         (λ _, Some [("data", [1; 2; 3]); ("labels", [4; 5; 6])]) 0 false 0)
      "train.h5" 1 0 (PartialH5Dataset.VStr "data") PartialH5Dataset.VNone true true
      7000 1000 PartialH5Dataset.new_obj = (o', inr tt) ∧
    PartialH5Dataset.threads o' = 2 ∧ PartialH5Dataset.open_handles o' = 0 ∧
    PartialH5Dataset.__len__ o' = (o', inr (PartialH5Dataset.VInt 3)) ∧
    PartialH5Dataset.attrs o' !! "partial_dataset"
    = Some (PartialH5Dataset.VBool false) ∧
    PartialH5Dataset.attrs o' !! "loads_needed" = Some (PartialH5Dataset.VInt 0) ∧
    PartialH5Dataset.attrs o' !! "load_start" = Some (PartialH5Dataset.VInt 3) ∧
    PartialH5Dataset.attrs o' !! "load_end" = Some (PartialH5Dataset.VInt 3) ∧
    (∀ d, d ∈ ["data"] →
       PartialH5Dataset.attrs o' !! d
       = Some (PartialH5Dataset.VRows
                 (PartialH5Dataset.rows_of
                    [("data", [1; 2; 3]); ("labels", [4; 5; 6])] d))).
Proof.
  refine (init_loads_whole_file
            (PartialH5Dataset.mkEnv
               (λ _, Some [("data", [1; 2; 3]); ("labels", [4; 5; 6])]) 0 false 0)
            "train.h5" 1 0 (PartialH5Dataset.VStr "data") PartialH5Dataset.VNone
            true true 7000 1000 "data" [1; 2; 3] [("labels", [4; 5; 6])] ["data"]
            eq_refl two_datasets_NoDup _ two_datasets_same_length _ _ _
            data_is_present data_is_no_own_attr data_is_plain).
  - discriminate.
  - lia.
  - left. reflexivity.
  - left. exists "data". split; reflexivity.
Defined.

(** Two processes, the second loads the first row of its share of two. *)
Lemma init_loads_first_portion_witness :
  ∃ o',
    PartialH5Dataset.__init__
      (PartialH5Dataset.mkEnv
         (λ _, Some [("data", [1; 2; 3; 4; 5]); ("labels", [6; 7; 8; 9; 10])]) 0 false 0)
      "train.h5" 2 1 (PartialH5Dataset.VStr "data") PartialH5Dataset.VNone true false
      1 1 PartialH5Dataset.new_obj = (o', inr tt) ∧
    PartialH5Dataset.attrs o' !! "data" = Some (PartialH5Dataset.VRows [3]) ∧
    PartialH5Dataset.attrs o' !! "load_start" = Some (PartialH5Dataset.VInt 3) ∧
    PartialH5Dataset.attrs o' !! "load_end" = Some (PartialH5Dataset.VInt 4) ∧
    PartialH5Dataset.attrs o' !! "loads_needed" = Some (PartialH5Dataset.VInt 2).
Proof.
  destruct (init_loads_first_portion
              (PartialH5Dataset.mkEnv
                 (λ _, Some [("data", [1; 2; 3; 4; 5]); ("labels", [6; 7; 8; 9; 10])])
                 0 false 0)
              "train.h5" 2 1 (PartialH5Dataset.VStr "data") PartialH5Dataset.VNone
              true 1 1 "data" [1; 2; 3; 4; 5] [("labels", [6; 7; 8; 9; 10])] ["data"])
    as (o' & Hrun & _ & _ & _ & _ & Hneeded & _ & (Hstart & Hend) & Hdata & _).
  - reflexivity.
  - cbn [map fst]. apply NoDup_cons. split; [| apply NoDup_singleton].
    intros Hin. apply list_elem_of_singleton in Hin. discriminate Hin.
  - discriminate.
  - intros a b Ha Hb.
    apply list_elem_of_In in Ha. apply list_elem_of_In in Hb. cbn [In] in Ha, Hb.
    destruct Ha as [<- | [<- | []]]; destruct Hb as [<- | [<- | []]]; reflexivity.
  - lia.
  - split; [lia | intros Hgt; vm_compute in Hgt; discriminate Hgt].
  - discriminate.
  - reflexivity.
  - reflexivity.
  - left. exists "data". split; reflexivity.
  - intros d Hd. apply list_elem_of_singleton in Hd. subst d. eexists. reflexivity.
  - exact data_is_no_own_attr.
  - exact data_is_plain.
  - exists o'. split; [exact Hrun |].
    split; [exact (proj1 (Hdata "data" ltac:(apply list_elem_of_singleton; reflexivity))) |].
    split; [exact Hstart |]. split; [exact Hend | exact Hneeded].
Defined.

(** ** Threads and file handles of the constructor *)

Section DatasetResources.
Import PartialH5Dataset.
Context {Row : Type}.

Local Abbreviation I := (@I Row).

Lemma keeps_iret {A} (a : A) : keeps (iret a : I A).
Proof. intros o. split; reflexivity. Qed.

Lemma keeps_iraise {A} (e : exn) : keeps (iraise e : I A).
Proof. intros o. split; reflexivity. Qed.

Lemma keeps_setattr (name : string) (v : @value Row) : keeps (setattr name v).
Proof. intros o. split; reflexivity. Qed.

Lemma keeps_getattr (name : string) : keeps (@getattr Row name).
Proof. intros o. unfold getattr. destruct (attrs o !! name); split; reflexivity. Qed.

Lemma keeps_as_int (v : @value Row) : keeps (as_int v).
Proof. destruct v; first [apply keeps_iret | apply keeps_iraise]. Qed.

Lemma keeps_dataset (f : @h5file Row) (k : string) : keeps (dataset f k).
Proof. unfold dataset. destruct (h5_get f k); [apply keeps_iret | apply keeps_iraise]. Qed.

Lemma keeps_bind {A B} (c : I A) (k : A → I B) :
  keeps c → (∀ a, keeps (k a)) → keeps (ibind c k).
Proof.
  intros Hc Hk o. unfold ibind. specialize (Hc o).
  destruct (c o) as [o1 [e | a]]; cbn [fst] in *; [exact Hc |].
  destruct (Hk a o1) as [Ht Hh]. rewrite Ht, Hh. exact Hc.
Qed.

Lemma keeps_check_lengths (f : @h5file Row) (sz : nat) (file : string)
    (keys : list string) :
  keeps (check_lengths f sz file keys).
Proof.
  induction keys as [| k keys IH]; cbn [check_lengths]; [apply keeps_iret |].
  apply keeps_bind; [apply keeps_dataset | intros d].
  destruct (negb (length d =? sz)); [apply keeps_iraise | exact IH].
Qed.

Lemma keeps_setattr_named (name : string) (v : @value Row) :
  keeps (setattr_named name v).
Proof.
  intros o. unfold setattr_named.
  destruct (attrs o !! "__setattr__"); [split; reflexivity |].
  repeat match goal with
         | |- context [decide ?P] => destruct (decide P)
         end; split; reflexivity.
Qed.

Lemma keeps_iter_names (dataset_names : @value Row) : keeps (iter_names dataset_names).
Proof. destruct dataset_names; first [apply keeps_iret | apply keeps_iraise]. Qed.

Lemma keeps_math_ceil_div (a b : Z) : keeps (@math_ceil_div Row a b).
Proof.
  unfold math_ceil_div.
  destruct (b =? 0)%Z; [apply keeps_iraise |].
  destruct ((Z.abs a <? 2 ^ 52)%Z && (Z.abs b <? 2 ^ 52)%Z);
    [apply keeps_iret | apply keeps_iraise].
Qed.

Lemma keeps_load_named (f : @h5file Row) (names : list (@value Row)) :
  keeps (load_named f names).
Proof.
  induction names as [| d names IH]; cbn [load_named]; [apply keeps_iret |].
  destruct d; try apply keeps_iraise.
  repeat first
    [ exact IH | apply keeps_getattr | apply keeps_as_int | apply keeps_dataset
    | apply keeps_setattr_named | apply keeps_bind; [| intros ?] ].
Qed.

Lemma from_keeps_bind {A B} (t h : nat) (c : I A) (k : A → I B)
    (Q : nat → nat → exn + B → Prop) :
  keeps c → (∀ e, Q t h (inl e)) → (∀ a, from_state t h (k a) Q) →
  from_state t h (ibind c k) Q.
Proof.
  intros Hc Hfail Hk o Ht Hh. unfold ibind. destruct (Hc o) as [Ht1 Hh1].
  destruct (c o) as [o1 [e | a]]; cbn [fst snd] in *.
  - rewrite Ht1, Hh1, Ht, Hh. apply Hfail.
  - apply Hk; congruence.
Qed.

Lemma from_setattr_bind {B} (t h : nat) (name : string) (v : @value Row)
    (k : unit → I B) (Q : nat → nat → exn + B → Prop) :
  from_state t h (k tt) Q → from_state t h (ibind (setattr name v) k) Q.
Proof. intros Hk o Ht Hh. unfold ibind, setattr. apply Hk; assumption. Qed.

Lemma from_iret_bind {A B} (t h : nat) (a : A) (k : A → I B)
    (Q : nat → nat → exn + B → Prop) :
  from_state t h (k a) Q → from_state t h (ibind (iret a) k) Q.
Proof. intros Hk o Ht Hh. unfold ibind, iret. apply Hk; assumption. Qed.

Lemma from_open_bind {B} (t h : nat) (E : @env Row) (file : string) (f : @h5file Row)
    (k : @h5file Row → I B) (Q : nat → nat → exn + B → Prop) :
  fs E file = Some f →
  from_state t (S h) (k f) Q → from_state t h (ibind (open_file E file) k) Q.
Proof.
  intros Hfs Hk o Ht Hh. unfold ibind, open_file. rewrite Hfs.
  apply Hk; cbn [threads open_handles]; congruence.
Qed.

Lemma from_close_bind {B} (t h : nat) (k : unit → I B)
    (Q : nat → nat → exn + B → Prop) :
  from_state t h (k tt) Q → from_state t (S h) (ibind close_file k) Q.
Proof.
  intros Hk o Ht Hh. unfold ibind, close_file.
  apply Hk; cbn [threads open_handles]; lia.
Qed.

Lemma from_thread_bind {B} (t h : nat) (k : unit → I B)
    (Q : nat → nat → exn + B → Prop) :
  from_state (S t) h (k tt) Q → from_state t h (ibind start_thread k) Q.
Proof.
  intros Hk o Ht Hh. unfold ibind, start_thread.
  apply Hk; cbn [threads open_handles]; congruence.
Qed.

Lemma from_setattr (t h : nat) (name : string) (v : @value Row)
    (Q : nat → nat → exn + unit → Prop) :
  Q t h (inr tt) → from_state t h (setattr name v) Q.
Proof. intros HQ o Ht Hh. unfold setattr. cbn [fst snd threads open_handles]. congruence. Qed.

End DatasetResources.

(** Shows that a part of the constructor starts no thread and leaves the
    files as they are. *)
Ltac keeps_tac :=
  repeat first
    [ apply keeps_setattr | apply keeps_getattr | apply keeps_as_int
    | apply keeps_dataset | apply keeps_iret | apply keeps_iraise
    | apply keeps_check_lengths | apply keeps_load_named | apply keeps_iter_names
    | apply keeps_math_ceil_div | apply keeps_setattr_named
    | apply keeps_bind; [| intros ?]
    | match goal with
      | |- PartialH5Dataset.keeps (if ?b then _ else _) => destruct b
      | |- PartialH5Dataset.keeps (match ?x with _ => _ end) => destruct x
      end ].

(** Follows the threads and the open files through a sequence. *)
Ltac from_tac :=
  repeat first
    [ apply from_setattr_bind | apply from_iret_bind
    | apply from_close_bind | apply from_thread_bind
    | apply from_keeps_bind; [ solve [keeps_tac] | intros ?; split; reflexivity | intros ? ]
    | progress cbv zeta
    | apply from_setattr; split; reflexivity ].

Section DatasetResourcesInit.
Import PartialH5Dataset.
Context {Row : Type}.

(** X10.  Once the file is open, [__init__] closes it and starts its two
    threads only on the way to its return: whatever the arguments and the
    contents of the file, either it returns, with the file closed and two
    threads started, or it raises with the file still open ([f.close()] was
    not reached) and no thread started. *)
Theorem init_closes_file_only_on_return (E : @env Row) (file : string)
    (comm_size comm_rank : nat) (dataset_names transforms : @value Row)
    (use_gpu validate_set : bool) (initial_load load_length : Z)
    (f : @h5file Row) (o' : @obj Row) (r : exn + unit) :
  fs E file = Some f →
  (cuda_is_available E = true → 0 < cuda_device_count E) →
  __init__ E file comm_size comm_rank dataset_names transforms use_gpu validate_set
    initial_load load_length new_obj = (o', r) →
  match r with
  | inr _ => threads o' = 2 ∧ open_handles o' = 0
  | inl _ => threads o' = 0 ∧ open_handles o' = 1
  end.
Proof.
  intros Hfs Hcuda Hrun.
  assert (Hfrom : from_state 0 0
            (__init__ E file comm_size comm_rank dataset_names transforms use_gpu
               validate_set initial_load load_length) closed_on_return).
  { unfold __init__. do 6 apply from_setattr_bind.
    destruct (cuda_is_available E && use_gpu) eqn:Hgpu.
    - apply andb_true_iff in Hgpu as [Hav _]. specialize (Hcuda Hav).
      destruct (Nat.eqb_spec (cuda_device_count E) 0) as [H0 | _]; [lia |].
      cbv zeta. apply from_setattr_bind.
      apply (from_open_bind 0 0 E file f _ _ Hfs). from_tac.
    - apply from_iret_bind.
      apply (from_open_bind 0 0 E file f _ _ Hfs). from_tac. }
  specialize (Hfrom new_obj eq_refl eq_refl). rewrite Hrun in Hfrom.
  exact Hfrom.
Qed.

End DatasetResourcesInit.

(** A file without datasets: the constructor raises on [fkeys[0]], after
    the file was opened. *)
Lemma init_closes_file_only_on_return_witness :
  let run :=
    PartialH5Dataset.__init__
      (PartialH5Dataset.mkEnv (Row := nat) (λ _, Some []) 0 false 0)
      "train.h5" 1 0 (PartialH5Dataset.VStr "data") PartialH5Dataset.VNone true false
      7000 1000 PartialH5Dataset.new_obj in
  run.2 = inl (IndexError "list index out of range") ∧
  PartialH5Dataset.threads run.1 = 0 ∧ PartialH5Dataset.open_handles run.1 = 1.
Proof.
  intros run. split; [reflexivity |].
  exact (init_closes_file_only_on_return
           (PartialH5Dataset.mkEnv (Row := nat) (λ _, Some []) 0 false 0)
           "train.h5" 1 0 (PartialH5Dataset.VStr "data") PartialH5Dataset.VNone
           true false 7000 1000 [] run.1 run.2 eq_refl
           (λ H, False_ind _ (Bool.diff_false_true H))
           (surjective_pairing run)).
Defined.

(** ** Arguments that the constructor rejects late *)

Section DatasetInitErrors.
Import PartialH5Dataset.
Context {Row : Type}.

Lemma ibind_iraise {A B} (e : exn) (k : A → @I Row B) (o : @obj Row) :
  ibind (iraise e) k o = (o, inl e).
Proof. reflexivity. Qed.

(** Lines 141-143 when the name [d] is no dataset of the file and the names
    before it are, and are plain names: these are loaded, then [f[d]]
    raises. *)
Lemma load_named_missing (f : @h5file Row) (pre : list string) (d : string)
    (post : list string) (a b : Z) (o : @obj Row) :
  attrs o !! "load_start" = Some (VInt a) → attrs o !! "load_end" = Some (VInt b) →
  attrs o !! "__setattr__" = None →
  "load_start" ∉ pre → "load_end" ∉ pre →
  (∀ x, x ∈ pre → x ∉ special_attrs) →
  (∀ x, x ∈ pre → is_Some (h5_get f x)) → h5_get f d = None →
  load_named f (map VStr (pre ++ d :: post)) o
  = (mkObj (write_all (λ x, VRows (py_slice (rows_of f x) a b)) pre (attrs o))
           (threads o) (open_handles o), inl (KeyError d)).
Proof.
  revert o. induction pre as [| x pre IH]; intros o Ha Hb Hm Hs He Hpl Hin Hd.
  - cbn [app map load_named].
    unfold dataset. rewrite Hd, ibind_iraise. destruct o; reflexivity.
  - cbn [app map load_named].
    destruct (Hin x ltac:(left)) as [rows Hrows].
    apply not_elem_of_cons in Hs as [Hsx Hs]. apply not_elem_of_cons in He as [Hex He].
    unfold dataset. rewrite Hrows, ibind_iret.
    rewrite (ibind_getattr _ _ _ _ Ha). cbn [as_int]. rewrite ibind_iret.
    rewrite (ibind_getattr _ _ _ _ Hb). cbn [as_int]. rewrite ibind_iret.
    assert (Hx : x ∉ special_attrs) by (apply Hpl; left).
    unfold ibind at 1. rewrite (setattr_named_plain _ _ _ Hm Hx). unfold setattr at 1.
    rewrite IH; cbn [attrs threads open_handles].
    + assert (Hr : rows_of f x = rows) by (unfold rows_of; now rewrite Hrows).
      cbn [write_all foldl]. now rewrite Hr.
    + rewrite lookup_insert_ne by (intros Heq; now apply Hsx). exact Ha.
    + rewrite lookup_insert_ne by (intros Heq; now apply Hex). exact Hb.
    + rewrite lookup_insert_ne by (apply not_special in Hx; intros ->; tauto). exact Hm.
    + exact Hs.
    + exact He.
    + intros x' Hx'. apply Hpl. now right.
    + intros x' Hx'. apply Hin. now right.
    + exact Hd.
Qed.

(** X11.  A name that is no dataset of the file makes [__init__] raise
    [KeyError] with that name, after the sizes and bounds are set and the
    names before it are loaded: when the datasets have one length, the
    communicator has a process, the whole file is to be loaded or
    [load_length] is not zero (and it and the length below [2^52]), and the
    names before [d] are plain names of datasets of the file, the first
    name [d] of [dataset_names] that the file does not have raises
    [KeyError d], and each name before it is then an attribute of the
    object. *)
Theorem init_missing_dataset_raises_KeyError (E : @env Row) (file : string)
    (comm_size comm_rank : nat) (dataset_names transforms : @value Row)
    (use_gpu validate_set : bool) (initial_load load_length : Z)
    (k0 : string) (d0 : list Row) (rest : @h5file Row)
    (pre : list string) (d : string) (post : list string) :
  fs E file = Some ((k0, d0) :: rest) → NoDup (map fst ((k0, d0) :: rest)) →
  (cuda_is_available E = true → 0 < cuda_device_count E) →
  same_length ((k0, d0) :: rest) → 1 ≤ comm_size →
  validate_set = true ∨
  (Z.of_nat (length d0) / Z.of_nat comm_size < initial_load)%Z ∨
  (load_length ≠ 0 ∧ Z.of_nat (length d0) < 2 ^ 52 ∧ Z.abs load_length < 2 ^ 52)%Z →
  names_given dataset_names (pre ++ d :: post) →
  (∀ x, x ∈ pre → is_Some (h5_get ((k0, d0) :: rest) x)) →
  (∀ x, x ∈ pre → x ∉ own_attrs) →
  (∀ x, x ∈ pre → x ∉ special_attrs) →
  h5_get ((k0, d0) :: rest) d = None →
  ∃ o',
    __init__ E file comm_size comm_rank dataset_names transforms use_gpu validate_set
      initial_load load_length new_obj = (o', inl (KeyError d)) ∧
    attrs o' !! "total_size" = Some (VInt (Z.of_nat (length d0))) ∧
    (∀ x, x ∈ pre → ∃ rows, attrs o' !! x = Some (VRows rows)).
Proof.
  intros Hfs Hnd Hcuda Hsame Hsize Hbranch Hnames Hpresent Hown Hplain Hmissing.
  rewrite (init_reaches_loader E file comm_size comm_rank dataset_names transforms
             use_gpu validate_set initial_load load_length k0 d0 rest
             Hfs Hnd Hcuda Hsame).
  set (f := (k0, d0) :: rest) in *. set (sz := Z.of_nat (length d0)) in *.
  set (lcl := (sz / Z.of_nat comm_size)%Z) in *.
  set (m0 := early_attrs E file comm_size comm_rank transforms use_gpu).
  assert (Hnotin : ∀ k, k ∈ own_attrs → k ∉ pre)
    by (intros k; apply own_attr_notin; exact Hown).
  assert (Hls : "load_start" ∉ pre) by (apply Hnotin; in_own).
  assert (Hle : "load_end" ∉ pre) by (apply Hnotin; in_own).
  assert (Hts : "total_size" ∉ pre) by (apply Hnotin; in_own).
  unfold init_loader. fold sz lcl. rewrite (iter_names_given _ _ Hnames).
  destruct (Nat.eqb_spec comm_size 0) as [? | _]; [lia |].
  destruct (validate_set || (lcl <? initial_load)%Z) eqn:Hb.
  - init_run.
    erewrite ibind_fail; cycle 1.
    { apply (load_named_missing f pre d post 0 (0 + sz)); try assumption;
        first [read_attr | find_attr; apply early_attrs_no_method; in_special]. }
    eexists. split; [reflexivity |]. cbn [attrs].
    split; [now find_attr |].
    intros x Hx. rewrite lookup_write_all_in by exact Hx. eexists. reflexivity.
  - apply orb_false_iff in Hb as [Hv Hlt]. apply Z.ltb_ge in Hlt.
    destruct Hbranch as [-> | [? | (Hll & Hsz & Hllb)]]; [discriminate | lia |].
    assert (Hlclb : (Z.abs lcl < 2 ^ 52)%Z).
    { assert (0 ≤ lcl ≤ sz)%Z; [| lia]. unfold lcl. split.
      - apply Z.div_pos; lia.
      - apply Z.div_le_upper_bound; [lia | nia]. }
    rewrite (math_ceil_div_exact lcl load_length Hll Hlclb Hllb).
    init_run.
    erewrite ibind_fail; cycle 1.
    { apply (load_named_missing f pre d post (Z.of_nat comm_rank * lcl)
               (Z.of_nat comm_rank * lcl + initial_load)); try assumption;
        first [read_attr | find_attr; apply early_attrs_no_method; in_special]. }
    eexists. split; [reflexivity |]. cbn [attrs].
    split; [now find_attr |].
    intros x Hx. rewrite lookup_write_all_in by exact Hx. eexists. reflexivity.
Qed.

(** X12.  With [load_length = 0], [__init__] raises [ZeroDivisionError]
    whenever it does not load the whole file: for datasets of one length,
    not a validation set and [initial_load] at most the share [sz // size]
    of a process, the division of line 126 raises, whatever the names.
    [load_len] is then set to [0], and neither [loads_needed] nor
    [partial_dataset] nor any bound of a load is set. *)
Theorem init_zero_load_length_raises (E : @env Row) (file : string)
    (comm_size comm_rank : nat) (dataset_names transforms : @value Row)
    (use_gpu : bool) (initial_load : Z)
    (k0 : string) (d0 : list Row) (rest : @h5file Row) :
  fs E file = Some ((k0, d0) :: rest) → NoDup (map fst ((k0, d0) :: rest)) →
  (cuda_is_available E = true → 0 < cuda_device_count E) →
  same_length ((k0, d0) :: rest) → 1 ≤ comm_size →
  (initial_load ≤ Z.of_nat (length d0) / Z.of_nat comm_size)%Z →
  ∃ o',
    __init__ E file comm_size comm_rank dataset_names transforms use_gpu false
      initial_load 0 new_obj = (o', inl (ZeroDivisionError "division by zero")) ∧
    attrs o' !! "load_len" = Some (VInt 0) ∧
    attrs o' !! "loads_needed" = None ∧ attrs o' !! "partial_dataset" = None ∧
    attrs o' !! "load_start" = None ∧ attrs o' !! "load_end" = None.
Proof.
  intros Hfs Hnd Hcuda Hsame Hsize Hil.
  rewrite (init_reaches_loader E file comm_size comm_rank dataset_names transforms
             use_gpu false initial_load 0 k0 d0 rest Hfs Hnd Hcuda Hsame).
  set (f := (k0, d0) :: rest) in *. set (sz := Z.of_nat (length d0)) in *.
  set (lcl := (sz / Z.of_nat comm_size)%Z) in *.
  assert (Hbranch : false || (lcl <? initial_load)%Z = false).
  { cbn [orb]. apply Z.ltb_ge. exact Hil. }
  assert (Hnone : ∀ name,
            name ∉ ["ishuffle"; "file"; "comm"; "transforms"; "gpu"; "torch_device"] →
            early_attrs E file comm_size comm_rank transforms use_gpu !! name = None)
    by (intros name; apply early_attrs_only).
  unfold init_loader. fold sz lcl. rewrite Hbranch.
  destruct (Nat.eqb_spec comm_size 0) as [? | _]; [lia |].
  unfold math_ceil_div. cbn [Z.eqb]. init_run. rewrite ibind_iraise.
  eexists. split; [reflexivity |]. cbn [attrs].
  split; [now find_attr |].
  repeat split; find_attr; apply Hnone;
    intros Hin; apply list_elem_of_In in Hin; cbn [In] in Hin;
    repeat (destruct Hin as [Hin | Hin]; [discriminate Hin |]); exact Hin.
Qed.

(** X13.  A file without datasets makes [__init__] raise [IndexError] on
    [fkeys[0]], whatever the other arguments: the file is then open and the
    object has the attributes of lines 89-98 only. *)
Theorem init_empty_file_raises_IndexError (E : @env Row) (file : string)
    (comm_size comm_rank : nat) (dataset_names transforms : @value Row)
    (use_gpu validate_set : bool) (initial_load load_length : Z) :
  fs E file = Some [] →
  (cuda_is_available E = true → 0 < cuda_device_count E) →
  __init__ E file comm_size comm_rank dataset_names transforms use_gpu validate_set
    initial_load load_length new_obj
  = (mkObj (early_attrs E file comm_size comm_rank transforms use_gpu) 0 1,
     inl (IndexError "list index out of range")).
Proof.
  intros Hfs Hcuda. unfold __init__, early_attrs, new_obj.
  destruct (cuda_is_available E && use_gpu) eqn:Hgpu.
  - apply andb_true_iff in Hgpu as [Hav _]. specialize (Hcuda Hav).
    destruct (Nat.eqb_spec (cuda_device_count E) 0) as [H0 | _]; [lia |].
    unfold ibind, setattr, open_file, iraise. cbn [attrs threads open_handles].
    rewrite Hfs. reflexivity.
  - unfold ibind, setattr, open_file, iret, iraise. cbn [attrs threads open_handles].
    rewrite Hfs. reflexivity.
Qed.

End DatasetInitErrors.

(** The file has no dataset [images]. *)
Lemma init_missing_dataset_raises_KeyError_witness :
  ∃ o',
    PartialH5Dataset.__init__
      (PartialH5Dataset.mkEnv
         (λ _, Some [("data", [1; 2; 3]); ("labels", [4; 5; 6])]) 0 false 0)
      "train.h5" 1 0
      (PartialH5Dataset.VList [PartialH5Dataset.VStr "data"; PartialH5Dataset.VStr "images"])
      PartialH5Dataset.VNone true true 7000 1000 PartialH5Dataset.new_obj
    = (o', inl (KeyError "images")) ∧
    PartialH5Dataset.attrs o' !! "total_size" = Some (PartialH5Dataset.VInt 3) ∧
    (∀ x, x ∈ ["data"] →
       ∃ rows, PartialH5Dataset.attrs o' !! x = Some (PartialH5Dataset.VRows rows)).
Proof.
  refine (init_missing_dataset_raises_KeyError
            (PartialH5Dataset.mkEnv
               (λ _, Some [("data", [1; 2; 3]); ("labels", [4; 5; 6])]) 0 false 0)
            "train.h5" 1 0
            (PartialH5Dataset.VList
               [PartialH5Dataset.VStr "data"; PartialH5Dataset.VStr "images"])
            PartialH5Dataset.VNone true true 7000 1000
            "data" [1; 2; 3] [("labels", [4; 5; 6])] ["data"] "images" []
            eq_refl two_datasets_NoDup _ two_datasets_same_length _ _ _
            data_is_present data_is_no_own_attr data_is_plain eq_refl).
  - discriminate.
  - lia.
  - left. reflexivity.
  - right. reflexivity.
Defined.

(** One process, two rows at first, and loads of no row. *)
Lemma init_zero_load_length_raises_witness :
  ∃ o',
    PartialH5Dataset.__init__
      (PartialH5Dataset.mkEnv
         (λ _, Some [("data", [1; 2; 3]); ("labels", [4; 5; 6])]) 0 false 0)
      "train.h5" 1 0 (PartialH5Dataset.VStr "data") PartialH5Dataset.VNone true false
      2 0 PartialH5Dataset.new_obj
    = (o', inl (ZeroDivisionError "division by zero")) ∧
    PartialH5Dataset.attrs o' !! "load_len" = Some (PartialH5Dataset.VInt 0) ∧
    PartialH5Dataset.attrs o' !! "loads_needed" = None ∧
    PartialH5Dataset.attrs o' !! "partial_dataset" = None ∧
    PartialH5Dataset.attrs o' !! "load_start" = None ∧
    PartialH5Dataset.attrs o' !! "load_end" = None.
Proof.
  refine (init_zero_load_length_raises
            (PartialH5Dataset.mkEnv
               (λ _, Some [("data", [1; 2; 3]); ("labels", [4; 5; 6])]) 0 false 0)
            "train.h5" 1 0 (PartialH5Dataset.VStr "data") PartialH5Dataset.VNone
            true 2 "data" [1; 2; 3] [("labels", [4; 5; 6])]
            eq_refl two_datasets_NoDup _ two_datasets_same_length _ _).
  - discriminate.
  - lia.
  - intros Hgt. vm_compute in Hgt. discriminate Hgt.
Defined.

(** A file that holds nothing. *)
Lemma init_empty_file_raises_IndexError_witness :
  PartialH5Dataset.__init__
    (PartialH5Dataset.mkEnv (Row := nat) (λ _, Some []) 0 false 0)
    "empty.h5" 1 0 (PartialH5Dataset.VStr "data") PartialH5Dataset.VNone true false
    7000 1000 PartialH5Dataset.new_obj
  = (PartialH5Dataset.mkObj
       (PartialH5Dataset.early_attrs
          (PartialH5Dataset.mkEnv (Row := nat) (λ _, Some []) 0 false 0)
          "empty.h5" 1 0 PartialH5Dataset.VNone true) 0 1,
     inl (IndexError "list index out of range")).
Proof.
  refine (init_empty_file_raises_IndexError
            (PartialH5Dataset.mkEnv (Row := nat) (λ _, Some []) 0 false 0)
            "empty.h5" 1 0 (PartialH5Dataset.VStr "data") PartialH5Dataset.VNone
            true false 7000 1000 eq_refl _).
  discriminate.
Defined.

(** * Further properties of the iterator of the partial dataset *)

Section IterFacts.
Import PartialH5Dataset PartialH5DataLoaderIter.
Context {Row : Type}.
Variable randperm : nat → nat → list nat.
Variable random_ : nat → Z.

Local Abbreviation J := (@J Row).
Local Abbreviation state := (@state Row).
Local Abbreviation obj := (@obj Row).
Local Abbreviation ivalue := (@ivalue Row).

Lemma jbind_jret {A B} (a : A) (k : A → J B) (w : state) : jbind (jret a) k w = k a w.
Proof. reflexivity. Qed.

Lemma jbind_jraise {A B} (e : exn) (k : A → J B) (w : state) :
  jbind (jraise e) k w = (w, inl e).
Proof. reflexivity. Qed.

Lemma jbind_assoc {A B C} (c : J A) (f : A → J B) (g : B → J C) (w : state) :
  jbind (jbind c f) g w = jbind c (λ a, jbind (f a) g) w.
Proof. unfold jbind. destruct (c w) as [w' [e | a]]; reflexivity. Qed.

Lemma jbind_run {A B} (c : J A) (k : A → J B) (w w' : state) (a : A) :
  c w = (w', inr a) → jbind c k w = k a w'.
Proof. intros H. unfold jbind. now rewrite H. Qed.

Lemma jbind_set_self {B} (name : string) (v : ivalue) (k : unit → J B)
    (o : obj) (s : gmap string ivalue) (d : nat) (cq lq : list task) :
  jbind (set_self name v) k (mkState o s d cq lq)
  = k tt (mkState o (<[name := v]> s) d cq lq).
Proof. reflexivity. Qed.

Lemma jbind_self_int {B} (name : string) (z : Z) (k : Z → J B)
    (o : obj) (s : gmap string ivalue) (d : nat) (cq lq : list task) :
  s !! name = Some (IInt z) →
  jbind (self_int name) k (mkState o s d cq lq) = k z (mkState o s d cq lq).
Proof.
  intros H. unfold self_int, jbind, get_self. cbn [self]. now rewrite H.
Qed.

Lemma jbind_on_getattr {B} (name : string) (v : @value Row) (k : @value Row → J B)
    (o : obj) (s : gmap string ivalue) (d : nat) (cq lq : list task) :
  attrs o !! name = Some v →
  jbind (on_dataset (getattr name)) k (mkState o s d cq lq) = k v (mkState o s d cq lq).
Proof.
  intros H. unfold jbind, on_dataset, getattr. cbn [dataset_of]. now rewrite H.
Qed.

Lemma jbind_on_setattr {B} (name : string) (v : @value Row) (k : unit → J B)
    (o : obj) (s : gmap string ivalue) (d : nat) (cq lq : list task) :
  jbind (on_dataset (setattr name v)) k (mkState o s d cq lq)
  = k tt (mkState (mkObj (<[name := v]> (attrs o)) (threads o) (open_handles o))
            s d cq lq).
Proof. reflexivity. Qed.

Lemma jbind_dataset_int {B} (name : string) (z : Z) (k : Z → J B)
    (o : obj) (s : gmap string ivalue) (d : nat) (cq lq : list task) :
  attrs o !! name = Some (VInt z) →
  jbind (dataset_int name) k (mkState o s d cq lq) = k z (mkState o s d cq lq).
Proof.
  intros H. unfold jbind, dataset_int, on_dataset, ibind, getattr. cbn [dataset_of].
  now rewrite H.
Qed.

Lemma jbind_dataset_bool {B} (name : string) (b : bool) (k : bool → J B)
    (o : obj) (s : gmap string ivalue) (d : nat) (cq lq : list task) :
  attrs o !! name = Some (VBool b) →
  jbind (dataset_bool name) k (mkState o s d cq lq) = k b (mkState o s d cq lq).
Proof.
  intros H. unfold jbind, dataset_bool, on_dataset, ibind, getattr. cbn [dataset_of].
  now rewrite H.
Qed.

Lemma jbind_randperm {B} (n : Z) (k : list nat → J B)
    (o : obj) (s : gmap string ivalue) (d : nat) (cq lq : list task) :
  (0 ≤ n)%Z →
  jbind (torch_randperm randperm n) k (mkState o s d cq lq)
  = k (randperm d (Z.to_nat n)) (mkState o s (S d) cq lq).
Proof.
  intros Hn. unfold torch_randperm.
  destruct (Z.ltb_spec n 0) as [? | _]; [lia | reflexivity].
Qed.

Lemma jbind_random {B} (k : Z → J B)
    (o : obj) (s : gmap string ivalue) (d : nat) (cq lq : list task) :
  jbind (torch_random random_) k (mkState o s d cq lq)
  = k (random_ d) (mkState o s (S d) cq lq).
Proof. reflexivity. Qed.

Lemma jbind_put_convert {B} (t : task) (k : unit → J B)
    (o : obj) (s : gmap string ivalue) (d : nat) (cq lq : list task) :
  attrs o !! "convert_queue" = Some VQueue →
  jbind (put_convert t) k (mkState o s d cq lq) = k tt (mkState o s d (cq ++ [t]) lq).
Proof.
  intros H. unfold put_convert. rewrite jbind_assoc.
  now rewrite (jbind_on_getattr _ _ _ _ _ _ _ _ H).
Qed.

Lemma put_loading_run (t : task)
    (o : obj) (s : gmap string ivalue) (d : nat) (cq lq : list task) :
  attrs o !! "loading_queue" = Some VQueue →
  put_loading t (mkState o s d cq lq) = (mkState o s d cq (lq ++ [t]), inr tt).
Proof.
  intros H. unfold put_loading.
  now rewrite (jbind_on_getattr _ _ _ _ _ _ _ _ H).
Qed.

Lemma jbind_on_ceil {B} (a b : Z) (k : Z → J B)
    (o : obj) (s : gmap string ivalue) (d : nat) (cq lq : list task) :
  b ≠ 0%Z → (Z.abs a < 2 ^ 52)%Z → (Z.abs b < 2 ^ 52)%Z →
  jbind (on_dataset (math_ceil_div a b)) k (mkState o s d cq lq)
  = k (ceil_div a b) (mkState o s d cq lq).
Proof.
  intros Hb Ha Hb'. unfold jbind, on_dataset. cbn [dataset_of].
  now rewrite (math_ceil_div_exact a b Hb Ha Hb').
Qed.

Lemma jbind_on_ceil_zero {B} (a : Z) (k : Z → J B)
    (o : obj) (s : gmap string ivalue) (d : nat) (cq lq : list task) :
  jbind (on_dataset (math_ceil_div a 0)) k (mkState o s d cq lq)
  = (mkState o s d cq lq, inl (ZeroDivisionError "division by zero")).
Proof. reflexivity. Qed.

Lemma jbind_replace_task {B} (k : task → J B)
    (o : obj) (s : gmap string ivalue) (d : nat) (cq lq : list task) :
  attrs o !! "thread_replace_converted_batches" = None →
  jbind replace_task k (mkState o s d cq lq)
  = k ReplaceConvertedBatches (mkState o s d cq lq).
Proof. intros H. unfold jbind, replace_task. cbn [dataset_of]. now rewrite H. Qed.

Lemma extend_indices_run (passes : nat) (n : Z) (acc : list nat)
    (o : obj) (s : gmap string ivalue) (d : nat) (cq lq : list task) :
  attrs o !! "load_initial" = Some (VInt n) → (0 ≤ n)%Z →
  extend_indices randperm passes acc (mkState o s d cq lq)
  = (mkState o s (passes + d) cq lq, inr (acc ++ drawn randperm (Z.to_nat n) d passes)).
Proof.
  intros Hn Hpos. revert acc d.
  induction passes as [| passes IH]; intros acc d; cbn [extend_indices drawn].
  - now rewrite app_nil_r.
  - rewrite (jbind_dataset_int _ _ _ _ _ _ _ _ Hn).
    rewrite jbind_randperm by exact Hpos. rewrite IH.
    now rewrite <- app_assoc, Nat.add_succ_r.
Qed.

Lemma drawn_permutation (n d passes : nat) :
  (∀ s m, Permutation (randperm s m) (seq 0 m)) →
  Permutation (drawn randperm n d passes) (concat (replicate passes (seq 0 n))).
Proof.
  intros Hperm. revert d.
  induction passes as [| passes IH]; intros d; cbn [drawn replicate concat].
  - constructor.
  - apply Permutation_app; [apply Hperm | apply IH].
Qed.

Lemma round_up_multiple (load_len bs : Z) :
  (0 < bs)%Z →
  (round_up load_len bs mod bs = 0 ∧ load_len ≤ round_up load_len bs < load_len + bs)%Z.
Proof.
  intros Hbs. unfold round_up.
  pose proof (Z.mod_pos_bound load_len bs Hbs) as Hm.
  destruct (Z.eqb_spec (load_len mod bs) 0) as [H0 | Hne]; [lia |].
  split; [| lia].
  replace (load_len + (bs - load_len mod bs))%Z
    with (load_len - load_len mod bs + 1 * bs)%Z by lia.
  rewrite Z.mod_add by lia.
  rewrite (Z.div_mod load_len bs) at 1 by lia.
  replace (bs * (load_len / bs) + load_len mod bs - load_len mod bs)%Z
    with (load_len / bs * bs)%Z by lia.
  apply Z.mod_mul. lia.
Qed.

End IterFacts.

(** Reads an attribute of the dataset or of the iterator through the
    writes made since. *)
Ltac read_written :=
  cbn [PartialH5Dataset.attrs];
  repeat first
    [ rewrite lookup_insert_eq
    | rewrite lookup_insert_ne by discriminate ];
  first [ reflexivity | eassumption ].

(** Runs the steps at the head of the iterator's constructor. *)
Ltac iter_step :=
  first
    [ rewrite jbind_set_self
    | rewrite jbind_jret
    | rewrite jbind_random
    | rewrite jbind_on_setattr
    | erewrite jbind_on_getattr by read_written
    | erewrite jbind_dataset_int by read_written
    | erewrite jbind_dataset_bool by read_written
    | erewrite jbind_self_int by read_written
    | rewrite jbind_randperm by lia
    | rewrite jbind_on_ceil by lia
    | erewrite jbind_put_convert by read_written
    | erewrite jbind_replace_task by read_written
    | rewrite jbind_assoc ];
  cbv beta.

(** Runs the constructor as far as its steps are known, past the tests of
    a divisor that is not zero. *)
Ltac iter_run :=
  repeat first
    [ iter_step
    | progress cbn match
    | match goal with
      | |- context [(?a =? 0)%Z] => rewrite (proj2 (Z.eqb_neq a 0)) by lia
      end ].

Section IterInit.
Import PartialH5Dataset PartialH5DataLoaderIter.
Context {Row : Type}.
Variable randperm : nat → nat → list nat.
Variable random_ : nat → Z.
Hypothesis randperm_permutes : ∀ s n, Permutation (randperm s n) (seq 0 n).

(** The run of the iterator's constructor on a partial dataset. *)
Lemma iter_init_partial_run (E : @env Row) (ld : loader) (w : @state Row)
    (load_len load_start lcl n : Z) (comm : @value Row) :
  attrs (dataset_of w) !! "partial_dataset" = Some (VBool true) →
  attrs (dataset_of w) !! "comm" = Some comm →
  attrs (dataset_of w) !! "load_initial" = Some (VInt n) →
  attrs (dataset_of w) !! "load_len" = Some (VInt load_len) →
  attrs (dataset_of w) !! "load_start" = Some (VInt load_start) →
  attrs (dataset_of w) !! "lcl_full_sz" = Some (VInt lcl) →
  attrs (dataset_of w) !! "convert_queue" = Some VQueue →
  attrs (dataset_of w) !! "loading_queue" = Some VQueue →
  attrs (dataset_of w) !! "thread_replace_converted_batches" = None →
  (0 < n < 2 ^ 52)%Z → (Z.abs lcl < 2 ^ 52)%Z → (0 < batch_size ld)%Z →
  ∃ w' index_list,
    PartialH5DataLoaderIter.__init__ randperm random_ E ld w = (w', inr tt) ∧
    attrs (dataset_of w') !! "load_len"
    = Some (VInt (round_up load_len (batch_size ld))) ∧
    ((round_up load_len (batch_size ld) mod batch_size ld = 0)%Z ∧
     (load_len ≤ round_up load_len (batch_size ld) < load_len + batch_size ld)%Z) ∧
    ((load_len mod batch_size ld)%Z ≠ 0%Z →
     attrs (dataset_of w') !! "load_end"
     = Some (VInt (load_start + round_up load_len (batch_size ld)))) ∧
    ((load_len mod batch_size ld)%Z = 0%Z → dataset_of w' = dataset_of w) ∧
    (∀ k, k ≠ "load_len" → k ≠ "load_end" →
          attrs (dataset_of w') !! k = attrs (dataset_of w) !! k) ∧
    Permutation index_list
      (concat (replicate (Z.to_nat (ceil_div lcl n)) (seq 0 (Z.to_nat n)))) ∧
    convert_queue w' = convert_queue w ++ [ConvertAll index_list] ∧
    loading_queue w' = loading_queue w ++ [ReplaceConvertedBatches] ∧
    PartialH5DataLoaderIter.__len__ w'
    = (w', inr (IInt (Z.of_nat (length index_list) / batch_size ld))).
Proof.
  destruct w as [o s d cq lq]. cbn [dataset_of convert_queue loading_queue].
  intros Hpartial Hcomm Hn Hlen Hstart Hlcl Hcq Hlq Hmeth Hnpos Hlclb Hbs.
  pose proof (round_up_multiple load_len (batch_size ld) Hbs) as Hround.
  unfold PartialH5DataLoaderIter.__init__.
  iter_run. cbv zeta. unfold round_up in *.
  destruct (Z.eqb_spec (load_len mod batch_size ld) 0) as [Hmod | Hmod]; cbn [negb].
  - iter_run.
    erewrite jbind_run; cycle 1.
    { apply extend_indices_run; [read_written | lia]. }
    cbn [app]. iter_run.
    erewrite jbind_run by (apply put_loading_run; read_written).
    unfold set_self. cbn [dataset_of self draws convert_queue loading_queue].
    eexists _, _. split; [reflexivity |]. cbn [dataset_of convert_queue loading_queue].
    split; [exact Hlen |]. split; [exact Hround |].
    split; [intros Hne; contradiction |]. split; [reflexivity |].
    split; [reflexivity |].
    split; [apply drawn_permutation; exact randperm_permutes |].
    split; [reflexivity |]. split; [reflexivity |].
    unfold PartialH5DataLoaderIter.__len__, get_self. cbn [self].
    rewrite lookup_insert_ne by discriminate. now rewrite lookup_insert_eq.
  - iter_run.
    erewrite jbind_run; cycle 1.
    { apply extend_indices_run; [read_written | lia]. }
    cbn [app]. iter_run.
    erewrite jbind_run by (apply put_loading_run; read_written).
    unfold set_self. cbn [dataset_of self draws convert_queue loading_queue].
    eexists _, _. split; [reflexivity |].
    cbn [dataset_of convert_queue loading_queue attrs].
    split; [now rewrite lookup_insert_ne, lookup_insert_eq by discriminate |].
    split; [exact Hround |].
    split; [intros _; now rewrite lookup_insert_eq |].
    split; [intros Heq; contradiction |].
    split; [intros k Hk1 Hk2; now rewrite !lookup_insert_ne by congruence |].
    split; [apply drawn_permutation; exact randperm_permutes |].
    split; [reflexivity |]. split; [reflexivity |].
    unfold PartialH5DataLoaderIter.__len__, get_self. cbn [self].
    rewrite lookup_insert_ne by discriminate. now rewrite lookup_insert_eq.
Qed.

(** X14.  On a partial dataset with [load_initial = n > 0] and a share
    [lcl_full_sz], both below [2^52], no attribute that hides the method
    [thread_replace_converted_batches], and a batch size [bs > 0], the
    iterator's constructor returns and, in its own thread, has rounded the
    dataset's [load_len] up to the next multiple of [bs] (less than [bs]
    more); when that changes [load_len] it has set [load_end] to
    [load_start + load_len], otherwise the dataset is as it was, and no
    other attribute of the dataset is written.  The index list it queues
    for conversion holds every index below [n] exactly
    [ceil(lcl_full_sz / n)] times, its own length is the length of that
    list floor-divided by [bs], and the replacement of batches is queued
    after the conversion. *)
Theorem iter_init_rounds_load_len (E : @env Row) (ld : loader) (w : @state Row)
    (load_len load_start lcl n : Z) (comm : @value Row) :
  attrs (dataset_of w) !! "partial_dataset" = Some (VBool true) →
  attrs (dataset_of w) !! "comm" = Some comm →
  attrs (dataset_of w) !! "load_initial" = Some (VInt n) →
  attrs (dataset_of w) !! "load_len" = Some (VInt load_len) →
  attrs (dataset_of w) !! "load_start" = Some (VInt load_start) →
  attrs (dataset_of w) !! "lcl_full_sz" = Some (VInt lcl) →
  attrs (dataset_of w) !! "convert_queue" = Some VQueue →
  attrs (dataset_of w) !! "loading_queue" = Some VQueue →
  attrs (dataset_of w) !! "thread_replace_converted_batches" = None →
  (0 < n < 2 ^ 52)%Z → (Z.abs lcl < 2 ^ 52)%Z → (0 < batch_size ld)%Z →
  ∃ w' index_list,
    PartialH5DataLoaderIter.__init__ randperm random_ E ld w = (w', inr tt) ∧
    attrs (dataset_of w') !! "load_len"
    = Some (VInt (round_up load_len (batch_size ld))) ∧
    ((round_up load_len (batch_size ld) mod batch_size ld = 0)%Z ∧
     (load_len ≤ round_up load_len (batch_size ld) < load_len + batch_size ld)%Z) ∧
    ((load_len mod batch_size ld)%Z ≠ 0%Z →
     attrs (dataset_of w') !! "load_end"
     = Some (VInt (load_start + round_up load_len (batch_size ld)))) ∧
    ((load_len mod batch_size ld)%Z = 0%Z → dataset_of w' = dataset_of w) ∧
    (∀ k, k ≠ "load_len" → k ≠ "load_end" →
          attrs (dataset_of w') !! k = attrs (dataset_of w) !! k) ∧
    Permutation index_list
      (concat (replicate (Z.to_nat (ceil_div lcl n)) (seq 0 (Z.to_nat n)))) ∧
    convert_queue w' = convert_queue w ++ [ConvertAll index_list] ∧
    loading_queue w' = loading_queue w ++ [ReplaceConvertedBatches] ∧
    PartialH5DataLoaderIter.__len__ w'
    = (w', inr (IInt (Z.of_nat (length index_list) / batch_size ld))).
Proof.
  intros Hpartial Hcomm Hn Hlen Hstart Hlcl Hcq Hlq Hmeth Hnpos Hlclb Hbs.
  exact (iter_init_partial_run E ld w load_len load_start lcl n comm
           Hpartial Hcomm Hn Hlen Hstart Hlcl Hcq Hlq Hmeth Hnpos Hlclb Hbs).
Qed.

(** X15.  On a dataset that is not partial, the iterator's constructor
    returns without a write to the dataset and without a task for its
    threads, whatever the batch size: it keeps one permutation of the
    indices below [load_initial] as [rand_samp_list], and its length is the
    length of the loader's index sampler. *)
Theorem iter_init_whole_dataset (E : @env Row) (ld : loader) (w : @state Row)
    (n : Z) (comm : @value Row) :
  attrs (dataset_of w) !! "partial_dataset" = Some (VBool false) →
  attrs (dataset_of w) !! "comm" = Some comm →
  attrs (dataset_of w) !! "load_initial" = Some (VInt n) → (0 ≤ n)%Z →
  ∃ w' l,
    PartialH5DataLoaderIter.__init__ randperm random_ E ld w = (w', inr tt) ∧
    dataset_of w' = dataset_of w ∧
    convert_queue w' = convert_queue w ∧ loading_queue w' = loading_queue w ∧
    self w' !! "rand_samp_list" = Some (IIndices l) ∧
    Permutation l (seq 0 (Z.to_nat n)) ∧
    PartialH5DataLoaderIter.__len__ w'
    = (w', inr (IInt (Z.of_nat (index_sampler_len ld)))).
Proof.
  destruct w as [o s d cq lq]. cbn [dataset_of convert_queue loading_queue].
  intros Hpartial Hcomm Hn Hnpos.
  unfold PartialH5DataLoaderIter.__init__.
  do 30 (try iter_step). cbn match. repeat iter_step.
  unfold set_self. cbn [dataset_of self draws convert_queue loading_queue].
  eexists _, _. split; [reflexivity |].
  cbn [dataset_of self convert_queue loading_queue].
  split; [reflexivity |]. split; [reflexivity |]. split; [reflexivity |].
  split; [now rewrite !lookup_insert_ne, lookup_insert_eq by discriminate |].
  split; [apply randperm_permutes |].
  unfold PartialH5DataLoaderIter.__len__, get_self. cbn [self].
  rewrite lookup_insert_ne by discriminate. now rewrite lookup_insert_eq.
Qed.

(** The run of the iterator's constructor on a partial dataset of which
    nothing was loaded at first. *)
Lemma iter_init_zero_run (E : @env Row) (ld : loader) (o : @obj Row)
    (s : gmap string (@ivalue Row)) (d : nat) (cq lq : list task)
    (load_len load_start lcl : Z) (comm : @value Row) :
  attrs o !! "partial_dataset" = Some (VBool true) →
  attrs o !! "comm" = Some comm →
  attrs o !! "load_initial" = Some (VInt 0) →
  attrs o !! "load_len" = Some (VInt load_len) →
  attrs o !! "load_start" = Some (VInt load_start) →
  attrs o !! "lcl_full_sz" = Some (VInt lcl) →
  (0 < batch_size ld)%Z →
  ∃ w',
    PartialH5DataLoaderIter.__init__ randperm random_ E ld (mkState o s d cq lq)
    = (w', inl (ZeroDivisionError "division by zero")) ∧
    attrs (dataset_of w') !! "load_len"
    = Some (VInt (round_up load_len (batch_size ld))) ∧
    convert_queue w' = cq ∧ loading_queue w' = lq.
Proof.
  intros Hpartial Hcomm Hn Hlen Hstart Hlcl Hbs.
  unfold PartialH5DataLoaderIter.__init__.
  iter_run. cbv zeta. unfold round_up.
  destruct (Z.eqb_spec (load_len mod batch_size ld) 0) as [Hmod | Hmod]; cbn [negb].
  - iter_run. rewrite ?jbind_assoc, jbind_on_ceil_zero.
    eexists. split; [reflexivity |]. cbn [dataset_of convert_queue loading_queue self].
    split; [exact Hlen |]. split; reflexivity.
  - iter_run. rewrite ?jbind_assoc, jbind_on_ceil_zero.
    eexists. split; [reflexivity |]. cbn [dataset_of convert_queue loading_queue self attrs].
    split; [now rewrite lookup_insert_ne, lookup_insert_eq by discriminate |].
    split; reflexivity.
Qed.

End IterInit.

(** ** The iterator on a dataset as its constructor leaves it *)

Section DatasetThenIterator.
Import PartialH5Dataset PartialH5DataLoaderIter.
Context {Row : Type}.
Variable randperm : nat → nat → list nat.
Variable random_ : nat → Z.
Hypothesis randperm_permutes : ∀ s n, Permutation (randperm s n) (seq 0 n).

Lemma length_concat_replicate {A} (k : nat) (l : list A) :
  length (concat (replicate k l)) = k * length l.
Proof.
  induction k as [| k IH]; cbn [replicate concat]; [reflexivity |].
  rewrite length_app, IH. reflexivity.
Qed.

Lemma ceil_div_nonneg (a b : Z) : (0 ≤ a)%Z → (0 < b)%Z → (0 ≤ ceil_div a b)%Z.
Proof.
  intros Ha Hb. unfold ceil_div.
  assert ((- a) / b ≤ 0)%Z; [| lia].
  apply Z.div_le_upper_bound; lia.
Qed.

(** X16.  The two constructors one after the other: when
    [PartialH5Dataset.__init__] loads a first portion of [initial_load > 0]
    rows (a file of fewer than [2^52] rows, [load_length] not zero and below
    [2^52] in absolute value, plain names of datasets of the file), it
    returns, and the iterator's constructor on the dataset it leaves returns
    as well, for a batch size [bs > 0].  It has set [load_len], which no
    task of the threads writes, to [load_length] rounded up to a multiple
    of [bs]; and the length of the iterator is
    [ceil(lcl / initial_load) * initial_load // bs] for the share
    [lcl = sz // size] of the process. *)
Theorem iterator_on_new_dataset (E : @env Row) (file : string)
    (comm_size comm_rank : nat) (dataset_names transforms : @value Row)
    (use_gpu : bool) (initial_load load_length : Z)
    (k0 : string) (d0 : list Row) (rest : @h5file Row) (names : list string)
    (ld : loader) (s : gmap string (@ivalue Row)) (d : nat) (cq lq : list task) :
  fs E file = Some ((k0, d0) :: rest) → NoDup (map fst ((k0, d0) :: rest)) →
  (cuda_is_available E = true → 0 < cuda_device_count E) →
  same_length ((k0, d0) :: rest) → comm_rank < comm_size →
  (0 < initial_load ≤ Z.of_nat (length d0) / Z.of_nat comm_size)%Z →
  load_length ≠ 0%Z →
  (Z.of_nat (length d0) < 2 ^ 52)%Z → (Z.abs load_length < 2 ^ 52)%Z →
  names_given dataset_names names →
  (∀ x, x ∈ names → is_Some (h5_get ((k0, d0) :: rest) x)) →
  (∀ x, x ∈ names → x ∉ own_attrs) →
  (∀ x, x ∈ names → x ∉ special_attrs) →
  (0 < batch_size ld)%Z →
  ∃ o' w',
    PartialH5Dataset.__init__ E file comm_size comm_rank dataset_names transforms
      use_gpu false initial_load load_length new_obj = (o', inr tt) ∧
    PartialH5DataLoaderIter.__init__ randperm random_ E ld (mkState o' s d cq lq)
    = (w', inr tt) ∧
    attrs (dataset_of w') !! "load_len"
    = Some (VInt (round_up load_length (batch_size ld))) ∧
    (round_up load_length (batch_size ld) mod batch_size ld)%Z = 0%Z ∧
    PartialH5DataLoaderIter.__len__ w'
    = (w', inr (IInt (ceil_div (Z.of_nat (length d0) / Z.of_nat comm_size) initial_load
                      * initial_load / batch_size ld))).
Proof.
  intros Hfs Hnd Hcuda Hsame Hrank Hil Hll Hsz Hllb Hnames Hpresent Hown Hplain Hbs.
  destruct (init_first_portion_state E file comm_size comm_rank dataset_names
              transforms use_gpu initial_load load_length k0 d0 rest names
              Hfs Hnd Hcuda Hsame Hrank ltac:(lia) Hll Hsz Hllb Hnames Hpresent Hown
              Hplain)
    as (o' & Hrun & _ & _ & _ & Hpd & _ & _ & (Hstart & Hend) & _
        & Hlen & Hli & Hlcl & Hcomm & Hcq & Hlq & Hmeth).
  destruct (local_share_inside (length d0) comm_size comm_rank Hrank) as (_ & _ & Hlcl0).
  set (lcl := (Z.of_nat (length d0) / Z.of_nat comm_size)%Z) in *.
  assert (Hlclb : (lcl ≤ Z.of_nat (length d0))%Z).
  { unfold lcl. apply Z.div_le_upper_bound; [lia | nia]. }
  destruct (iter_init_partial_run randperm random_ randperm_permutes E ld
              (mkState o' s d cq lq) load_length
              (Z.of_nat comm_rank * lcl + initial_load) lcl initial_load
              (VComm comm_size comm_rank) Hpd Hcomm Hli Hlen Hstart Hlcl Hcq Hlq Hmeth
              ltac:(lia) ltac:(lia) Hbs)
    as (w' & index_list & Hiter & Hlen' & (Hmult & _) & _ & _ & _
        & Hperm & _ & _ & Hlength).
  exists o', w'. split; [exact Hrun |]. split; [exact Hiter |].
  split; [exact Hlen' |]. split; [exact Hmult |].
  rewrite Hlength. apply Permutation_length in Hperm.
  rewrite Hperm, length_concat_replicate, length_seq, Nat2Z.inj_mul.
  rewrite !Z2Nat.id by (first [apply ceil_div_nonneg; lia | lia]).
  reflexivity.
Qed.

(** X17.  With [initial_load = 0] the dataset's constructor returns (a file
    of fewer than [2^52] rows, [load_length] not zero and below [2^52] in
    absolute value, plain names of datasets of the file), and the
    iterator's constructor on the dataset it leaves raises
    [ZeroDivisionError], for a batch size [bs > 0]: it divides by
    [load_initial].  By then it has rounded the dataset's [load_len] up to a
    multiple of [bs]; it has queued no task. *)
Theorem iterator_rejects_zero_initial_load (E : @env Row) (file : string)
    (comm_size comm_rank : nat) (dataset_names transforms : @value Row)
    (use_gpu : bool) (load_length : Z)
    (k0 : string) (d0 : list Row) (rest : @h5file Row) (names : list string)
    (ld : loader) (s : gmap string (@ivalue Row)) (d : nat) (cq lq : list task) :
  fs E file = Some ((k0, d0) :: rest) → NoDup (map fst ((k0, d0) :: rest)) →
  (cuda_is_available E = true → 0 < cuda_device_count E) →
  same_length ((k0, d0) :: rest) → comm_rank < comm_size →
  load_length ≠ 0%Z →
  (Z.of_nat (length d0) < 2 ^ 52)%Z → (Z.abs load_length < 2 ^ 52)%Z →
  names_given dataset_names names →
  (∀ x, x ∈ names → is_Some (h5_get ((k0, d0) :: rest) x)) →
  (∀ x, x ∈ names → x ∉ own_attrs) →
  (∀ x, x ∈ names → x ∉ special_attrs) →
  (0 < batch_size ld)%Z →
  ∃ o' w',
    PartialH5Dataset.__init__ E file comm_size comm_rank dataset_names transforms
      use_gpu false 0 load_length new_obj = (o', inr tt) ∧
    PartialH5DataLoaderIter.__init__ randperm random_ E ld (mkState o' s d cq lq)
    = (w', inl (ZeroDivisionError "division by zero")) ∧
    attrs (dataset_of w') !! "load_len"
    = Some (VInt (round_up load_length (batch_size ld))) ∧
    convert_queue w' = cq ∧ loading_queue w' = lq.
Proof.
  intros Hfs Hnd Hcuda Hsame Hrank Hll Hsz Hllb Hnames Hpresent Hown Hplain Hbs.
  destruct (local_share_inside (length d0) comm_size comm_rank Hrank) as (_ & _ & Hlcl0).
  destruct (init_first_portion_state E file comm_size comm_rank dataset_names
              transforms use_gpu 0 load_length k0 d0 rest names
              Hfs Hnd Hcuda Hsame Hrank ltac:(lia) Hll Hsz Hllb Hnames Hpresent Hown
              Hplain)
    as (o' & Hrun & _ & _ & _ & Hpd & _ & _ & (Hstart & _) & _
        & Hlen & Hli & Hlcl & Hcomm & _).
  destruct (iter_init_zero_run randperm random_ E ld o' s d cq lq load_length _ _
              (VComm comm_size comm_rank) Hpd Hcomm Hli Hlen Hstart Hlcl Hbs)
    as (w' & Hiter & Hrest).
  exists o', w'. split; [exact Hrun |]. split; [exact Hiter | exact Hrest].
Qed.

End DatasetThenIterator.

(** A generator that draws the identity. *)
Lemma seq_permutes : ∀ s n : nat, Permutation ((λ _ n, seq 0 n) s n) (seq 0 n).
Proof. intros s n. reflexivity. Qed.

Lemma five_rows_NoDup :
  NoDup (map fst [("data", [1; 2; 3; 4; 5]); ("labels", [6; 7; 8; 9; 10])]).
Proof.
  cbn [map fst]. apply NoDup_cons. split; [| apply NoDup_singleton].
  intros Hin. apply list_elem_of_singleton in Hin. discriminate Hin.
Qed.

Lemma five_rows_same_length :
  PartialH5Dataset.same_length
    [("data", [1; 2; 3; 4; 5]); ("labels", [6; 7; 8; 9; 10])].
Proof.
  intros a b Ha Hb.
  apply list_elem_of_In in Ha. apply list_elem_of_In in Hb. cbn [In] in Ha, Hb.
  destruct Ha as [<- | [<- | []]]; destruct Hb as [<- | [<- | []]]; reflexivity.
Qed.

Lemma five_rows_data_present :
  ∀ d : string, d ∈ ["data"] →
    is_Some (PartialH5Dataset.h5_get
               [("data", [1; 2; 3; 4; 5]); ("labels", [6; 7; 8; 9; 10])] d).
Proof.
  intros d Hd. apply list_elem_of_singleton in Hd. subst d. eexists. reflexivity.
Qed.

(** Loads of five rows and batches of four: loads of eight rows. *)
Lemma iter_init_rounds_load_len_witness :
  ∃ w',
    PartialH5DataLoaderIter.__init__ (λ _ n, seq 0 n) (λ _, 0%Z)
      (PartialH5Dataset.mkEnv (λ _, None) 0 false 0)
      (PartialH5DataLoaderIter.mkLoader 4 false 0)
      (PartialH5DataLoaderIter.mkState partial_obj ∅ 0 [] []) = (w', inr tt) ∧
    PartialH5Dataset.attrs (PartialH5DataLoaderIter.dataset_of w') !! "load_len"
    = Some (PartialH5Dataset.VInt 8) ∧
    PartialH5Dataset.attrs (PartialH5DataLoaderIter.dataset_of w') !! "load_end"
    = Some (PartialH5Dataset.VInt 11) ∧
    PartialH5DataLoaderIter.__len__ w' = (w', inr (PartialH5DataLoaderIter.IInt 2)).
Proof.
  destruct (iter_init_rounds_load_len (λ _ n, seq 0 n) (λ _, 0%Z) seq_permutes
              (PartialH5Dataset.mkEnv (λ _, None) 0 false 0)
              (PartialH5DataLoaderIter.mkLoader 4 false 0)
              (PartialH5DataLoaderIter.mkState partial_obj ∅ 0 [] [])
              5 3 7 3 (PartialH5Dataset.VComm 1 0)
              eq_refl eq_refl eq_refl eq_refl eq_refl eq_refl eq_refl eq_refl
              eq_refl (conj eq_refl eq_refl) eq_refl eq_refl)
    as (w' & index_list & Hrun & Hlen & _ & Hend & _ & _ & Hperm & _ & _ & Hlength).
  exists w'. split; [exact Hrun |]. split; [exact Hlen |].
  split; [apply Hend; discriminate |].
  rewrite Hlength. apply Permutation_length in Hperm. rewrite Hperm. reflexivity.
Defined.

(** A dataset loaded as a whole, batches of four, a sampler of length 2. *)
Lemma iter_init_whole_dataset_witness :
  ∃ w',
    PartialH5DataLoaderIter.__init__ (λ _ n, seq 0 n) (λ _, 0%Z)
      (PartialH5Dataset.mkEnv (λ _, None) 0 false 0)
      (PartialH5DataLoaderIter.mkLoader 4 false 2)
      (PartialH5DataLoaderIter.mkState whole_obj ∅ 0 [] []) = (w', inr tt) ∧
    PartialH5DataLoaderIter.dataset_of w' = whole_obj ∧
    PartialH5DataLoaderIter.convert_queue w' = [] ∧
    PartialH5DataLoaderIter.loading_queue w' = [] ∧
    PartialH5DataLoaderIter.__len__ w' = (w', inr (PartialH5DataLoaderIter.IInt 2)).
Proof.
  destruct (iter_init_whole_dataset (λ _ n, seq 0 n) (λ _, 0%Z) seq_permutes
              (PartialH5Dataset.mkEnv (λ _, None) 0 false 0)
              (PartialH5DataLoaderIter.mkLoader 4 false 2)
              (PartialH5DataLoaderIter.mkState whole_obj ∅ 0 [] [])
              3 (PartialH5Dataset.VComm 1 0) eq_refl eq_refl eq_refl)
    as (w' & l & Hrun & Hds & Hcq & Hlq & _ & _ & Hlength).
  - discriminate.
  - exists w'. repeat (split; [assumption |]). exact Hlength.
Defined.

(** Two processes; the second loads one row at first, then loads of one row
    that batches of four make loads of four rows. *)
Lemma iterator_on_new_dataset_witness :
  ∃ o' w',
    PartialH5Dataset.__init__
      (PartialH5Dataset.mkEnv
         (λ _, Some [("data", [1; 2; 3; 4; 5]); ("labels", [6; 7; 8; 9; 10])]) 0 false 0)
      "train.h5" 2 1 (PartialH5Dataset.VStr "data") PartialH5Dataset.VNone true false
      1 1 PartialH5Dataset.new_obj = (o', inr tt) ∧
    PartialH5DataLoaderIter.__init__ (λ _ n, seq 0 n) (λ _, 0%Z)
      (PartialH5Dataset.mkEnv
         (λ _, Some [("data", [1; 2; 3; 4; 5]); ("labels", [6; 7; 8; 9; 10])]) 0 false 0)
      (PartialH5DataLoaderIter.mkLoader 4 false 0)
      (PartialH5DataLoaderIter.mkState o' ∅ 0 [] []) = (w', inr tt) ∧
    PartialH5Dataset.attrs (PartialH5DataLoaderIter.dataset_of w') !! "load_len"
    = Some (PartialH5Dataset.VInt 4) ∧
    PartialH5DataLoaderIter.__len__ w' = (w', inr (PartialH5DataLoaderIter.IInt 0)).
Proof.
  destruct (iterator_on_new_dataset (λ _ n, seq 0 n) (λ _, 0%Z) seq_permutes
              (PartialH5Dataset.mkEnv
                 (λ _, Some [("data", [1; 2; 3; 4; 5]); ("labels", [6; 7; 8; 9; 10])])
                 0 false 0)
              "train.h5" 2 1 (PartialH5Dataset.VStr "data") PartialH5Dataset.VNone
              true 1 1 "data" [1; 2; 3; 4; 5] [("labels", [6; 7; 8; 9; 10])] ["data"]
              (PartialH5DataLoaderIter.mkLoader 4 false 0) ∅ 0 [] []
              eq_refl five_rows_NoDup)
    as (o' & w' & Hrun & Hiter & Hlen & _ & Hlength).
  - discriminate.
  - exact five_rows_same_length.
  - lia.
  - split; [lia | intros Hgt; vm_compute in Hgt; discriminate Hgt].
  - discriminate.
  - reflexivity.
  - reflexivity.
  - left. exists "data". split; reflexivity.
  - exact five_rows_data_present.
  - exact data_is_no_own_attr.
  - exact data_is_plain.
  - reflexivity.
  - exists o', w'. split; [exact Hrun |]. split; [exact Hiter |].
    split; [exact Hlen | exact Hlength].
Defined.

(** The same with no row loaded at first. *)
Lemma iterator_rejects_zero_initial_load_witness :
  ∃ o' w',
    PartialH5Dataset.__init__
      (PartialH5Dataset.mkEnv
         (λ _, Some [("data", [1; 2; 3; 4; 5]); ("labels", [6; 7; 8; 9; 10])]) 0 false 0)
      "train.h5" 2 1 (PartialH5Dataset.VStr "data") PartialH5Dataset.VNone true false
      0 1 PartialH5Dataset.new_obj = (o', inr tt) ∧
    PartialH5DataLoaderIter.__init__ (λ _ n, seq 0 n) (λ _, 0%Z)
      (PartialH5Dataset.mkEnv
         (λ _, Some [("data", [1; 2; 3; 4; 5]); ("labels", [6; 7; 8; 9; 10])]) 0 false 0)
      (PartialH5DataLoaderIter.mkLoader 4 false 0)
      (PartialH5DataLoaderIter.mkState o' ∅ 0 [] [])
    = (w', inl (ZeroDivisionError "division by zero")) ∧
    PartialH5Dataset.attrs (PartialH5DataLoaderIter.dataset_of w') !! "load_len"
    = Some (PartialH5Dataset.VInt 4) ∧
    PartialH5DataLoaderIter.convert_queue w' = [] ∧
    PartialH5DataLoaderIter.loading_queue w' = [].
Proof.
  refine (iterator_rejects_zero_initial_load (λ _ n, seq 0 n) (λ _, 0%Z)
            (PartialH5Dataset.mkEnv
               (λ _, Some [("data", [1; 2; 3; 4; 5]); ("labels", [6; 7; 8; 9; 10])])
               0 false 0)
            "train.h5" 2 1 (PartialH5Dataset.VStr "data") PartialH5Dataset.VNone
            true 1 "data" [1; 2; 3; 4; 5] [("labels", [6; 7; 8; 9; 10])] ["data"]
            (PartialH5DataLoaderIter.mkLoader 4 false 0) ∅ 0 [] []
            eq_refl five_rows_NoDup _ five_rows_same_length _ _ _ _ _
            five_rows_data_present data_is_no_own_attr data_is_plain eq_refl).
  - discriminate.
  - lia.
  - discriminate.
  - reflexivity.
  - reflexivity.
  - left. exists "data". split; reflexivity.
Defined.
